(** * Inoreader-MCP: response normaliser, gateway client and tool facade

    A shallow embedding of [utils.py], [client.py] and [tools.py], and the
    properties of the specification proved or refuted on it.

    - A Python value is a term of [value]; a [dict] is an association list
      in insertion order, read with [assoc] (first binding of a key).
      JSON numbers are taken to be integers.
    - A Python [str] is a [string]; one [ascii] stands for one character.
    - A function that may raise returns a [result]; code that talks to the
      network runs in the state-and-exception monad [M] over [world], which
      holds the network (a function from the number of a request and the
      request to its outcome), the log of the requests sent, the clock, and
      the counts of sessions created and closed.  One call of a tool is one
      run; the awaits of a run happen one after the other, in program order.
    - What the code takes from outside this repository (the interpreter's
      error texts, [repr] of containers, the local time zone, the values of
      [Config]) is a field of [Runtime] or [Config].
    - [await resp.text()] and [await session.close()] are taken to return. *)

From Stdlib Require Import ZArith List String Ascii Bool Lia Arith DecimalString.
From Stdlib Require Import Sorting.Permutation Sorting.Sorted.
Import ListNotations.
Local Open Scope string_scope.
Local Set Warnings "-register-all".

(** ** Python values and exceptions *)

Inductive value : Type :=
| VNone
| VBool (b : bool)
| VInt (n : Z)
| VStr (s : string)
| VList (xs : list value)
| VDict (kvs : list (string * value)).

(** Every exception below is a subclass of Python's [Exception], the
    class the handlers of [tools.py] catch; what is not (a keyboard
    interrupt, the cancellation of a task) is outside the model.
    [PyException] is [raise Exception(msg)] of [client.py]; the others are
    raised by the interpreter or by the libraries the code calls. *)
Inductive exn : Type :=
| PyException (msg : string)
| AttributeError (obj : value) (attr : string)
| TypeError (op : string) (arg : value)
| KeyError (key : value)
| ValueError (op : string) (arg : value)
| OverflowError (op : string) (arg : value)
| OSError (op : string) (arg : value)
| TransportError (msg : string)
| DecodeError (msg : string).

Inductive result (A : Type) : Type :=
| Ok (a : A)
| Raise (e : exn).
Arguments Ok {A} a.
Arguments Raise {A} e.

Definition bind {A B} (m : result A) (k : A -> result B) : result B :=
  match m with
  | Ok a => k a
  | Raise e => Raise e
  end.

Notation "x <- m ;; k" := (bind m (fun x => k))
  (at level 61, m at next level, right associativity).

Fixpoint mapM {A B} (f : A -> result B) (l : list A) : result (list B) :=
  match l with
  | [] => Ok []
  | x :: r => y <- f x ;; ys <- mapM f r ;; Ok (y :: ys)
  end.

(** What the code takes from the Python runtime. *)
Record Runtime := {
  (** offset of local time from UTC, in seconds, at an epoch second *)
  utc_offset : Z -> Z;
  (** [str(v)] for a list or a dict *)
  repr_container : value -> string;
  (** [str(e)] for an exception the interpreter raised *)
  builtin_text : exn -> string
}.

(** [config.py] is not part of the sources read here: its constants are
    the fields of this record. *)
Record Config := {
  INOREADER_BASE_URL : string;
  INOREADER_APP_ID : string;
  INOREADER_APP_KEY : string;
  INOREADER_USERNAME : string;
  INOREADER_PASSWORD : string;
  CACHE_TTL : Z;
  REQUEST_TIMEOUT : Z;
  MAX_ARTICLES_PER_REQUEST : Z
}.

(** ** Strings *)

Definition z2s (z : Z) : string := NilEmpty.string_of_int (Z.to_int z).

Definition newline : string := String "010" "".

(** [sub in s] *)
Fixpoint contains (sub s : string) : bool :=
  prefix sub s ||
  match s with
  | "" => false
  | String _ r => contains sub r
  end.

(** [s.startswith(p)] *)
Definition startswith (s p : string) : bool := prefix p s.

(** [s[n:]] *)
Fixpoint drop (n : nat) (s : string) : string :=
  match n, s with
  | O, _ => s
  | S k, "" => ""
  | S k, String _ r => drop k r
  end.

(** The lower-case mapping of the characters a [string] can hold, the
    code points below 256: the letters A to Z and the capital letters of
    Latin-1 (U+00C0 to U+00DE without the multiplication sign U+00D7) are 32
    below their lower-case forms; every other one is left as it is. *)
Definition lower_char (c : ascii) : ascii :=
  let n := nat_of_ascii c in
  if ((65 <=? n)%nat && (n <=? 90)%nat)
     || ((192 <=? n)%nat && (n <=? 222)%nat && negb (n =? 215)%nat)
  then ascii_of_nat (n + 32) else c.

(** [s.lower()] *)
Fixpoint lower (s : string) : string :=
  match s with
  | "" => ""
  | String c r => String (lower_char c) (lower r)
  end.

(** [s.split(sep)] for a non-empty [sep]: the scan goes left to right; a
    match closes the current piece and the scan resumes after it. [skip]
    counts the characters of a match still to be passed over and [cur] holds
    the current piece. *)
Fixpoint split_aux (sep : string) (skip : nat) (cur : string) (s : string)
  : list string :=
  match s with
  | "" => [cur]
  | String c r =>
    match skip with
    | S k => split_aux sep k cur r
    | O => if prefix sep s
           then cur :: split_aux sep (length sep - 1) "" r
           else split_aux sep 0 (cur ++ String c "") r
    end
  end.

Definition split (sep s : string) : list string := split_aux sep 0 "" s.

(** [s.replace(old, "")] for a non-empty [old]: every non-overlapping
    occurrence, scanning left to right, is removed. *)
Fixpoint remove_aux (old : string) (skip : nat) (s : string) : string :=
  match s with
  | "" => ""
  | String c r =>
    match skip with
    | S k => remove_aux old k r
    | O => if prefix old s
           then remove_aux old (length old - 1) r
           else String c (remove_aux old 0 r)
    end
  end.

Definition replace_with_empty (old s : string) : string := remove_aux old 0 s.

(** [sep.join(l)] is [String.concat sep l]. *)

(** *** [re.sub("<[^<]+?>", "", s)]

    The pattern is a ['<'], then one or more characters other than ['<']
    matched lazily, then a ['>'].  The first of these characters may itself
    be ['>']; after it the match ends at the first ['>'] and fails at a
    ['<'] or at the end of the text. *)

(** [tag_rest s]: [s] follows the first character of the lazy group; the
    number of characters up to and including the closing ['>']. *)
Fixpoint tag_rest (s : string) : option nat :=
  match s with
  | "" => None
  | String c r =>
    if (c =? ">")%char then Some 1%nat
    else if (c =? "<")%char then None
    else option_map S (tag_rest r)
  end.

(** Length of the match of the pattern at the start of [s], if any. *)
Definition tag_match (s : string) : option nat :=
  match s with
  | String "<" (String c r) =>
    if (c =? "<")%char then None else option_map (fun n => 2 + n)%nat (tag_rest r)
  | _ => None
  end.

(** [re.sub] replaces the leftmost match and resumes after it. *)
Fixpoint sub_tags (skip : nat) (s : string) : string :=
  match s with
  | "" => ""
  | String c r =>
    match skip with
    | S k => sub_tags k r
    | O => match tag_match s with
           | Some n => sub_tags (n - 1) r
           | None => String c (sub_tags 0 r)
           end
    end
  end.

Definition re_sub_tags (s : string) : string := sub_tags 0 s.

(** ** Dynamic operations on values *)

Fixpoint assoc (k : string) (d : list (string * value)) : option value :=
  match d with
  | [] => None
  | (k', v) :: r => if (k' =? k)%string then Some v else assoc k r
  end.

(** [d.get(k, default)] and [k in d] on a dict *)
Definition dict_get (d : list (string * value)) (k : string) (default : value)
  : value :=
  match assoc k d with
  | Some v => v
  | None => default
  end.

Definition has_key (d : list (string * value)) (k : string) : bool :=
  match assoc k d with
  | Some _ => true
  | None => false
  end.

(** [x.get(k, default)] on any value *)
Definition py_get (x : value) (k : string) (default : value) : result value :=
  match x with
  | VDict d => Ok (dict_get d k default)
  | _ => Raise (AttributeError x "get")
  end.

(** [v == s] for a [str] constant [s] *)
Definition eq_str (v : value) (s : string) : bool :=
  match v with
  | VStr t => (t =? s)%string
  | _ => false
  end.

(** Truth value of [v] in [if v] and [not v] *)
Definition truthy (v : value) : bool :=
  match v with
  | VNone => false
  | VBool b => b
  | VInt n => negb (n =? 0)%Z
  | VStr s => negb (s =? "")%string
  | VList xs => match xs with [] => false | _ => true end
  | VDict kvs => match kvs with [] => false | _ => true end
  end.

Fixpoint chars (s : string) : list value :=
  match s with
  | "" => []
  | String c r => VStr (String c "") :: chars r
  end.

(** The elements [for x in v] goes through *)
Definition py_iter (v : value) : result (list value) :=
  match v with
  | VList xs => Ok xs
  | VStr s => Ok (chars s)
  | VDict kvs => Ok (map (fun kv => VStr (fst kv)) kvs)
  | _ => Raise (TypeError "iter" v)
  end.

(** [sub in v] for a [str] constant [sub] *)
Definition py_in (sub : string) (v : value) : result bool :=
  match v with
  | VStr s => Ok (contains sub s)
  | VList xs => Ok (existsb (fun x => eq_str x sub) xs)
  | VDict kvs => Ok (has_key kvs sub)
  | _ => Raise (TypeError "in" v)
  end.

(** A bool is an int in Python. *)
Definition as_int (v : value) : option Z :=
  match v with
  | VInt n => Some n
  | VBool b => Some (if b then 1 else 0)%Z
  | _ => None
  end.

(** ** Dates: [datetime.fromtimestamp(ts).isoformat()] *)

(** Days since 1970-01-01 to (year, month, day) of the proleptic Gregorian
    calendar. *)
Definition civil_from_days (days : Z) : Z * Z * Z :=
  let z := (days + 719468)%Z in
  let era := (z / 146097)%Z in
  let doe := (z - era * 146097)%Z in
  let yoe := ((doe - doe / 1460 + doe / 36524 - doe / 146096) / 365)%Z in
  let doy := (doe - (365 * yoe + yoe / 4 - yoe / 100))%Z in
  let mp := ((5 * doy + 2) / 153)%Z in
  let d := (doy - (153 * mp + 2) / 5 + 1)%Z in
  let m := (if mp <? 10 then mp + 3 else mp - 9)%Z in
  ((if m <=? 2 then era * 400 + yoe + 1 else era * 400 + yoe)%Z, m, d).

Definition digit (n : Z) : ascii := ascii_of_nat (48 + Z.to_nat (n mod 10)).

Definition pad2 (n : Z) : string :=
  String (digit (n / 10)) (String (digit n) "").

Definition pad4 (n : Z) : string :=
  String (digit (n / 1000)) (String (digit (n / 100)) (pad2 n)).

Definition isoformat (y m d hh mm ss : Z) : string :=
  pad4 y ++ "-" ++ pad2 m ++ "-" ++ pad2 d ++ "T"
  ++ pad2 hh ++ ":" ++ pad2 mm ++ ":" ++ pad2 ss.

Definition is_digit (c : ascii) : bool :=
  let n := nat_of_ascii c in (48 <=? n)%nat && (n <=? 57)%nat.

Definition digit_value (c : ascii) : Z := (Z.of_nat (nat_of_ascii c) - 48)%Z.

Definition two_digits (a b : ascii) : Z :=
  (10 * digit_value a + digit_value b)%Z.

(** The ISO-8601 form [YYYY-MM-DDTHH:MM:SS]: digits and separators in
    their places, month, day, hour, minute and second in range. *)
Definition is_iso8601 (s : string) : bool :=
  match list_ascii_of_string s with
  | [y1; y2; y3; y4; s1; m1; m2; s2; d1; d2; t; h1; h2; s3; n1; n2; s4; c1; c2] =>
    forallb is_digit [y1; y2; y3; y4; m1; m2; d1; d2; h1; h2; n1; n2; c1; c2]
    && (s1 =? "-")%char && (s2 =? "-")%char && (t =? "T")%char
    && (s3 =? ":")%char && (s4 =? ":")%char
    && (1 <=? two_digits m1 m2)%Z && (two_digits m1 m2 <=? 12)%Z
    && (1 <=? two_digits d1 d2)%Z && (two_digits d1 d2 <=? 31)%Z
    && (two_digits h1 h2 <=? 23)%Z
    && (two_digits n1 n2 <=? 59)%Z
    && (two_digits c1 c2 <=? 59)%Z
  | _ => false
  end.

Section Normalizer.

Variable rt : Runtime.

(** [str(v)] *)
Definition py_str (v : value) : string :=
  match v with
  | VNone => "None"
  | VBool true => "True"
  | VBool false => "False"
  | VInt n => z2s n
  | VStr s => s
  | _ => repr_container rt v
  end.

(** The year of the second [loc] of the proleptic Gregorian calendar *)
Definition year_of (loc : Z) : Z :=
  let '(y, _, _) := civil_from_days (loc / 86400) in y.

(** [local(u)] of CPython's [_datetimemodule.c]: the wall clock of local
    time at the instant [u], counted in seconds like an instant of UTC.
    [localtime_r] (glibc, 64-bit [time_t]) fails when the year less 1900 does
    not fit the 32-bit field [tm_year], which gives [OSError]; then
    [utc_to_seconds] raises [ValueError] for a year outside 1..9999. *)
Definition local (op : string) (v : value) (u : Z) : result Z :=
  let loc := (u + utc_offset rt u)%Z in
  let y := year_of loc in
  if negb ((-2147483648 <=? y - 1900)%Z && (y - 1900 <=? 2147483647)%Z)
  then Raise (OSError op v)
  else if (1 <=? y)%Z && (y <=? 9999)%Z
  then Ok loc
  else Raise (ValueError op v).

(** The wall clock [datetime.fromtimestamp(ts)] and [datetime.now()] show
    ([datetime_from_timet_and_us]): the integer has to fit [time_t]; the
    local time is taken at [ts], and, to detect a repeated hour, one day
    earlier and, when the offset has gone down in between, once more in
    between; each of these has to be a time of the years 1..9999, so that an
    instant of the first day of the year 1 raises [ValueError]. *)
Definition fromtimestamp_wall (op : string) (v : value) (ts : Z)
  : result Z :=
  if negb ((-9223372036854775808 <=? ts)%Z && (ts <=? 9223372036854775807)%Z)
  then Raise (OverflowError op v)
  else
    result_seconds <- local op v ts ;;
    probe_seconds <- local op v (ts - 86400)%Z ;;
    let transition := (result_seconds - probe_seconds - 86400)%Z in
    _ <- (if (transition <? 0)%Z then local op v (ts + transition)%Z
          else Ok result_seconds) ;;
    Ok result_seconds.

(** [isoformat()] of the wall clock [loc], without a fractional part *)
Definition isoformat_of (loc : Z) : string :=
  let '(y, m, d) := civil_from_days (loc / 86400) in
  let sod := (loc mod 86400)%Z in
  isoformat y m d (sod / 3600) ((sod / 60) mod 60) (sod mod 60).

(** [datetime.fromtimestamp(v).isoformat()]: local time, no fractional
    part for an integer. *)
Definition fromtimestamp_isoformat (v : value) : result string :=
  match as_int v with
  | None => Raise (TypeError "fromtimestamp" v)
  | Some ts =>
    loc <- fromtimestamp_wall "fromtimestamp" v ts ;;
    Ok (isoformat_of loc)
  end.

(** ** [utils.py] *)

Record article := {
  a_id : value;
  a_title : value;
  published : value;
  published_date : value;
  author : value;
  feed_title : value;
  feed_id : value;
  categories : list value;
  is_read : bool;
  url : value;
  summary : value
}.

(** [cat.get("label", "") if isinstance(cat, dict) else str(cat)] *)
Definition category_label (cat : value) : value :=
  match cat with
  | VDict d => dict_get d "label" (VStr "")
  | _ => VStr (py_str cat)
  end.

(** [cat.get("id", "") if isinstance(cat, dict) else str(cat)] *)
Definition category_identifier (cat : value) : value :=
  match cat with
  | VDict d => dict_get d "id" (VStr "")
  | _ => VStr (py_str cat)
  end.

Definition read_state : string := "state/com.google/read".

(** [any("state/com.google/read" in ... for cat in cats)]: stops at the
    first entry that gives [True]. *)
Fixpoint any_read (cats : list value) : result bool :=
  match cats with
  | [] => Ok false
  | cat :: rest =>
    b <- py_in read_state (category_identifier cat) ;;
    if b then Ok true else any_read rest
  end.

(** The loop over [item["alternate"]]: the first entry whose type is
    ["text/html"] gives the url and ends the loop. *)
Fixpoint first_html_href (alts : list value) : result value :=
  match alts with
  | [] => Ok VNone
  | alt :: rest =>
    t <- py_get alt "type" VNone ;;
    if eq_str t "text/html" then py_get alt "href" VNone
    else first_html_href rest
  end.

(** [summary[:500] + "..." if len(summary) > 500 else summary] *)
Definition truncate_summary (s : string) : string :=
  if (500 <? length s)%nat then substring 0 500 s ++ "..." else s.

Definition parse_summary (sm : value) : result value :=
  c <- py_get sm "content" (VStr "") ;;
  match c with
  | VStr s => Ok (VStr (truncate_summary (re_sub_tags s)))
  | _ => Raise (TypeError "re.sub" c)
  end.

Definition parse_article (item : value) : result article :=
  match item with
  | VDict d =>
    let id_ := dict_get d "id" (VStr "") in
    let title := dict_get d "title" (VStr "No title") in
    let pub := dict_get d "published" (VInt 0) in
    date <- (if truthy (dict_get d "published" VNone)
             then s <- fromtimestamp_isoformat pub ;; Ok (VStr s)
             else Ok VNone) ;;
    let auth := dict_get d "author" (VStr "Unknown") in
    ftitle <- py_get (dict_get d "origin" (VDict [])) "title" (VStr "Unknown feed") ;;
    fid <- py_get (dict_get d "origin" (VDict [])) "streamId" (VStr "") ;;
    cats <- py_iter (dict_get d "categories" (VList [])) ;;
    rd <- (cs <- py_iter (dict_get d "categories" (VList [])) ;; any_read cs) ;;
    u <- (match assoc "alternate" d with
          | Some alts => l <- py_iter alts ;; first_html_href l
          | None => Ok VNone
          end) ;;
    sm <- (match assoc "summary" d with
           | Some s => parse_summary s
           | None => Ok VNone
           end) ;;
    Ok {| a_id := id_; a_title := title; published := pub;
          published_date := date; author := auth;
          feed_title := ftitle; feed_id := fid;
          categories := map category_label cats; is_read := rd;
          url := u; summary := sm |}
  | _ => Raise (AttributeError item "get")
  end.

Record feed := {
  f_id : value;
  f_title : value;
  f_url : value;
  htmlUrl : value;
  f_categories : list value;
  firstItemMsec : value
}.

Definition parse_feed (subscription : value) : result feed :=
  match subscription with
  | VDict d =>
    cats <- py_iter (dict_get d "categories" (VList [])) ;;
    labels <- mapM (fun cat => py_get cat "label" (VStr "")) cats ;;
    Ok {| f_id := dict_get d "id" (VStr "");
          f_title := dict_get d "title" (VStr "Untitled");
          f_url := dict_get d "url" (VStr "");
          htmlUrl := dict_get d "htmlUrl" (VStr "");
          f_categories := labels;
          firstItemMsec := dict_get d "firstitemmsec" (VInt 0) |}
  | _ => Raise (AttributeError subscription "get")
  end.

End Normalizer.

(** [range(0, n, step)] for a positive [step], and the slice [lst[i:j]] *)
Definition range_step (n step : nat) : list nat :=
  map (fun k => k * step)%nat (seq 0 ((n + step - 1) / step)).

Definition slice {A} (lst : list A) (i j : nat) : list A :=
  firstn (j - i) (skipn i lst).

(** [chunk_list]: [range] refuses a zero step and is empty for a negative
    one. *)
Definition chunk_list {A} (lst : list A) (chunk_size : Z)
  : result (list (list A)) :=
  if (chunk_size =? 0)%Z then Raise (ValueError "range" (VInt chunk_size))
  else if (chunk_size <? 0)%Z then Ok []
  else
    let size := Z.to_nat chunk_size in
    Ok (map (fun i => slice lst i (i + size)) (range_step (List.length lst) size)).

(** Stable sort by a key, as [list.sort(key=...)]; with [reverse=True]
    the order on keys is reversed and equal keys still keep their order. *)
Fixpoint insert_by {A} (le : A -> A -> bool) (x : A) (l : list A) : list A :=
  match l with
  | [] => [x]
  | y :: r => if le x y then x :: l else y :: insert_by le x r
  end.

Definition sort_by {A} (le : A -> A -> bool) (l : list A) : list A :=
  fold_right (insert_by le) [] l.

(** U+2713 and U+2022 in UTF-8 *)
Definition glyph_read : string := String "226" (String "156" (String "147" "")).
Definition glyph_unread : string := String "226" (String "128" (String "162" "")).

Section Formatter.

Variable rt : Runtime.

Definition article_lines (i : nat) (a : article) : list string :=
  [ z2s (Z.of_nat i) ++ ". " ++ (if is_read a then glyph_read else glyph_unread)
      ++ " " ++ py_str rt (a_title a);
    "   Feed: " ++ py_str rt (feed_title a);
    "   Date: " ++ py_str rt (published_date a);
    (if truthy (url a) then "   Link: " ++ py_str rt (url a)
     else "   Link: No URL available");
    "" ].

Fixpoint article_block (i : nat) (articles : list article) : list string :=
  match articles with
  | [] => []
  | a :: r => (article_lines i a ++ article_block (S i) r)%list
  end.

Definition format_article_list (articles : list article) : string :=
  match articles with
  | [] => "No articles found."
  | _ => String.concat newline (article_block 1 articles)
  end.

(** [', '.join(l)] wants every element to be a [str]. *)
Definition join_values (sep : string) (l : list value) : result string :=
  ss <- mapM (fun v => match v with
                       | VStr s => Ok s
                       | _ => Raise (TypeError "join" v)
                       end) l ;;
  Ok (String.concat sep ss).

Definition feed_lines (i : nat) (f : feed) : result (list string) :=
  cl <- (match f_categories f with
         | [] => Ok []
         | cs => j <- join_values ", " cs ;; Ok ["   Categories: " ++ j]
         end) ;;
  let head := z2s (Z.of_nat i) ++ ". " ++ py_str rt (f_title f) in
  let tail := ["   URL: " ++ py_str rt (f_url f); ""] in
  Ok (head :: app cl tail).

Fixpoint feed_block (i : nat) (feeds : list feed) : result (list string) :=
  match feeds with
  | [] => Ok []
  | f :: r => ls <- feed_lines i f ;; rest <- feed_block (S i) r ;;
              Ok (ls ++ rest)%list
  end.

Definition format_feed_list (feeds : list feed) : result string :=
  match feeds with
  | [] => Ok "No feeds found."
  | _ => ls <- feed_block 1 feeds ;; Ok (String.concat newline ls)
  end.

End Formatter.

(** ** The network, the clock and the client object ([client.py]) *)

Record request := {
  rq_method : string;
  rq_url : string;
  rq_params : option (list (string * value));
  rq_data : option (list (string * value));
  rq_headers : list (string * string);
  rq_timeout : option Z
}.

(** What the code reads from an [aiohttp] response: [resp.status], the
    [Content-Type] header, [await resp.text()] and [await resp.json()]. *)
Record response := {
  status : Z;
  content_type : option string;
  text : string;
  json : result value
}.

(** A call either gets a response or the transport raises. *)
Inductive outcome : Type :=
| Responds (r : response)
| Fails (e : exn).

(** The connector of [__aenter__]: certificate checks are switched off. *)
Record ClientSession := {
  check_hostname : bool;
  verify_cert : bool
}.

Record InoreaderClient := {
  base_url : string;
  app_id : string;
  app_key : string;
  username : string;
  password : string;
  (** [TTLCache]: key, value and the time the entry expires *)
  cache : list (string * (value * Z));
  session : option ClientSession;
  auth_token : option string
}.

Record world := {
  (** the answer of the network to the n-th request of the run *)
  server : nat -> request -> outcome;
  (** the requests issued so far, oldest first *)
  sent : list request;
  clock : Z;
  (** sessions created and sessions closed so far *)
  created : nat;
  closed : nat
}.

Definition M (A : Type) : Type := world -> result A * world.

Definition ret {A} (a : A) : M A := fun w => (Ok a, w).

Definition raise {A} (e : exn) : M A := fun w => (Raise e, w).

Definition lift {A} (r : result A) : M A := fun w => (r, w).

Definition bindM {A B} (m : M A) (k : A -> M B) : M B :=
  fun w =>
    match m w with
    | (Ok a, w') => k a w'
    | (Raise e, w') => (Raise e, w')
    end.

Notation "x <~ m ;; k" := (bindM m (fun x => k))
  (at level 61, m at next level, right associativity).

(** [for x in l: body], with the loop variable threaded as [acc] *)
Fixpoint foldM {A B} (f : B -> A -> M B) (acc : B) (l : list A) : M B :=
  match l with
  | [] => ret acc
  | x :: r => acc' <~ f acc x ;; foldM f acc' r
  end.

Definition now : M Z := fun w => (Ok (clock w), w).

(** The world after [rq] has gone out *)
Definition logged (rq : request) (w : world) : world :=
  {| server := server w; sent := app (sent w) [rq];
     clock := clock w; created := created w; closed := closed w |}.

(** One round trip: the request is logged, the network answers. *)
Definition send (rq : request) : M response :=
  fun w =>
    match server w (List.length (sent w)) rq with
    | Responds r => (Ok r, logged rq w)
    | Fails e => (Raise e, logged rq w)
    end.

(** The world after a session has been created, and after one has been
    closed *)
Definition opened (w : world) : world :=
  {| server := server w; sent := sent w; clock := clock w;
     created := S (created w); closed := closed w |}.

Definition released (w : world) : world :=
  {| server := server w; sent := sent w; clock := clock w;
     created := created w; closed := S (closed w) |}.

Definition open_session : M ClientSession :=
  fun w => (Ok {| check_hostname := false; verify_cert := false |}, opened w).

Definition close_session : M unit :=
  fun w => (Ok tt, released w).

Definition set_session (self : InoreaderClient) (s : option ClientSession)
  : InoreaderClient :=
  {| base_url := base_url self; app_id := app_id self; app_key := app_key self;
     username := username self; password := password self;
     cache := cache self; session := s; auth_token := auth_token self |}.

Definition set_auth_token (self : InoreaderClient) (t : option string)
  : InoreaderClient :=
  {| base_url := base_url self; app_id := app_id self; app_key := app_key self;
     username := username self; password := password self;
     cache := cache self; session := session self; auth_token := t |}.

Definition set_cache (self : InoreaderClient) (c : list (string * (value * Z)))
  : InoreaderClient :=
  {| base_url := base_url self; app_id := app_id self; app_key := app_key self;
     username := username self; password := password self;
     cache := c; session := session self; auth_token := auth_token self |}.

(** [key in cache] and [cache[key]] of a [TTLCache] at time [t] *)
Fixpoint cache_lookup (t : Z) (key : string) (c : list (string * (value * Z)))
  : option value :=
  match c with
  | [] => None
  | (k, (v, expires)) :: r =>
    if (k =? key)%string
    then (if (t <? expires)%Z then Some v else None)
    else cache_lookup t key r
  end.

(** [cache[key] = v] at time [t] *)
Definition cache_store (t ttl : Z) (key : string) (v : value)
  (c : list (string * (value * Z))) : list (string * (value * Z)) :=
  (key, (v, (t + ttl)%Z))
    :: filter (fun e => negb (fst e =? key)%string) c.

Definition read_tag : string := "user/-/state/com.google/read".

Section Client.

Variable cfg : Config.

(** [InoreaderClient()] *)
Definition new_client : InoreaderClient :=
  {| base_url := INOREADER_BASE_URL cfg;
     app_id := INOREADER_APP_ID cfg;
     app_key := INOREADER_APP_KEY cfg;
     username := INOREADER_USERNAME cfg;
     password := INOREADER_PASSWORD cfg;
     cache := [];
     session := None;
     auth_token := None |}.

(** The first line that starts with ["Auth="] gives the token. *)
Fixpoint find_token (lines : list string) : option string :=
  match lines with
  | [] => None
  | line :: rest =>
    if startswith line "Auth=" then Some (drop 5 line) else find_token rest
  end.

(** The credential POST of [_authenticate] *)
Definition auth_request (self : InoreaderClient) : request :=
  {| rq_method := "POST";
     rq_url := "https://www.inoreader.com/accounts/ClientLogin";
     rq_params := None;
     rq_data := Some [("Email", VStr (username self));
                      ("Passwd", VStr (password self))];
     rq_headers := [("AppId", app_id self); ("AppKey", app_key self)];
     rq_timeout := None |}.

Definition _authenticate (self : InoreaderClient) : M InoreaderClient :=
  resp <~ send (auth_request self) ;;
  if negb (status resp =? 200)%Z
  then raise (PyException ("Authentication failed: " ++ z2s (status resp)
                           ++ " - " ++ text resp))
  else
    let self' := match find_token (split newline (text resp)) with
                 | Some t => set_auth_token self (Some t)
                 | None => self
                 end in
    match auth_token self' with
    | None => raise (PyException "No auth token received")
    | Some t => if (t =? "")%string
                then raise (PyException "No auth token received")
                else ret self'
    end.

(** [__aenter__]: the session is created, then the client authenticates. *)
Definition aenter (self : InoreaderClient) : M InoreaderClient :=
  s <~ open_session ;;
  _authenticate (set_session self (Some s)).

(** [__aexit__]: closes the session when there is one. *)
Definition aexit (self : InoreaderClient) : M unit :=
  match session self with
  | Some _ => close_session
  | None => ret tt
  end.

(** [async with InoreaderClient() as client: body].  When [__aenter__]
    raises, Python leaves the statement without calling [__aexit__]; once the
    body has been entered [__aexit__] runs however the body ends, and as it
    returns [None] an exception of the body goes on to the caller.  The body
    leaves [self.session] as it is. *)
Definition with_client {A} (body : InoreaderClient -> M A) : M A :=
  fun w =>
    match aenter new_client w with
    | (Raise e, w1) => (Raise e, w1)
    | (Ok self, w1) =>
      match body self w1 with
      | (r, w2) =>
        match aexit self w2 with
        | (Ok _, w3) => (r, w3)
        | (Raise e, w3) => (Raise e, w3)
        end
      end
    end.

Definition optional_text (o : option string) : string :=
  match o with
  | Some s => s
  | None => "None"
  end.

Definition _get_headers (self : InoreaderClient) : list (string * string) :=
  [("Authorization", "GoogleLogin auth=" ++ optional_text (auth_token self));
   ("AppId", app_id self);
   ("AppKey", app_key self)].

(** The call [_request] issues *)
Definition api_request (self : InoreaderClient) (method endpoint : string)
  (params data : option (list (string * value))) : request :=
  {| rq_method := method;
     rq_url := base_url self ++ "/" ++ endpoint;
     rq_params := params;
     rq_data := data;
     rq_headers := _get_headers self;
     rq_timeout := Some (REQUEST_TIMEOUT cfg) |}.

(** What [_request] hands back for a response of status 200: the decoded
    JSON when the content type says JSON, the text otherwise. *)
Definition response_value (resp : response) : result value :=
  let content_type := match content_type resp with
                      | Some c => c
                      | None => ""
                      end in
  if contains "application/json" content_type
  then json resp
  else Ok (VStr (text resp)).

Definition _request (self : InoreaderClient) (method endpoint : string)
  (params data : option (list (string * value))) : M value :=
  resp <~ send (api_request self method endpoint params data) ;;
  if negb (status resp =? 200)%Z
  then raise (PyException ("API request failed: " ++ z2s (status resp)
                           ++ " - " ++ text resp))
  else lift (response_value resp).

Definition get_subscription_list (self : InoreaderClient)
  : M (value * InoreaderClient) :=
  t <~ now ;;
  match cache_lookup t "subscription_list" (cache self) with
  | Some v => ret (v, self)
  | None =>
    result <~ _request self "GET" "subscription/list" None None ;;
    subscriptions <~ lift (py_get result "subscriptions" (VList [])) ;;
    ret (subscriptions,
         set_cache self (cache_store t (CACHE_TTL cfg) "subscription_list"
                                     subscriptions (cache self)))
  end.

(** [if newer_than:] holds for an integer other than 0. *)
Definition newer_than_param (newer_than : option Z) : list (string * value) :=
  match newer_than with
  | Some t => if (t =? 0)%Z then [] else [("ot", VInt t)]
  | None => []
  end.

(** [isinstance(result, str)] *)
Definition is_str (v : value) : bool :=
  match v with
  | VStr _ => true
  | _ => false
  end.

Definition empty_items : value := VDict [("items", VList [])].

Definition get_stream_contents (self : InoreaderClient)
  (stream_id : option string) (count : Z) (exclude_read : bool)
  (newer_than : option Z) : M value :=
  let params :=
    app [("n", VInt (Z.min count (MAX_ARTICLES_PER_REQUEST cfg)));
         ("output", VStr "json")]
        (app (if exclude_read then [("xt", VStr read_tag)] else [])
             (newer_than_param newer_than)) in
  let endpoint :=
    match stream_id with
    | Some s => if (s =? "")%string
                then "stream/contents/user/-/state/com.google/reading-list"
                else "stream/contents/" ++ s
    | None => "stream/contents/user/-/state/com.google/reading-list"
    end in
  result <~ _request self "GET" endpoint (Some params) None ;;
  if is_str result then ret empty_items else ret result.

Definition get_stream_item_contents (self : InoreaderClient)
  (item_ids : list string) : M value :=
  match item_ids with
  | [] => ret empty_items
  | _ => _request self "POST" "stream/items/contents" None
                  (Some [("i", VList (map VStr item_ids))])
  end.

(** The form data of the mark-as-read POST *)
Definition edit_tag_data (item_ids : list string) : list (string * value) :=
  [("i", VList (map VStr item_ids)); ("a", VStr read_tag)].

Definition client_mark_as_read (self : InoreaderClient)
  (item_ids : list string) : M bool :=
  match item_ids with
  | [] => ret true
  | _ =>
    result <~ _request self "POST" "edit-tag" None
                       (Some (edit_tag_data item_ids)) ;;
    ret (eq_str result "OK")
  end.

Definition search (self : InoreaderClient) (query : string) (count : Z)
  (newer_than : option Z) : M value :=
  let params :=
    app [("q", VStr query);
         ("n", VInt (Z.min count (MAX_ARTICLES_PER_REQUEST cfg)));
         ("output", VStr "json")]
        (newer_than_param newer_than) in
  result <~ _request self "GET" "stream/contents/user/-/state/com.google/search"
                     (Some params) None ;;
  if is_str result then ret empty_items else ret result.

Definition get_unread_count (self : InoreaderClient) : M value :=
  result <~ _request self "GET" "unread-count" None None ;;
  lift (py_get result "unreadcounts" (VList [])).

End Client.

(** ** The tool facade ([tools.py]) *)

Record stat := {
  stat_id : string;
  stat_count : value
}.

(** The key of [feed_stats.sort(key=lambda x: x["count"], reverse=True)] *)
Definition count_key (s : stat) : Z :=
  match as_int (stat_count s) with
  | Some n => n
  | None => 0%Z
  end.

(** [reverse=True]: larger counts first *)
Definition count_ge (a b : stat) : bool := (count_key b <=? count_key a)%Z.

(** [stat["id"].replace("feed/", "")], then the text after the last
    ["://"] when there is one. *)
Definition feed_name (id : string) : string :=
  let name := replace_with_empty "feed/" id in
  if contains "://" name then last (split "://" name) name else name.

(** [items[0]], reached for a true [items] only *)
Definition py_first (items : value) : result value :=
  match items with
  | VList (x :: _) => Ok x
  | VStr (String c _) => Ok (VStr (String c ""))
  | VDict _ => Raise (KeyError (VInt 0))
  | _ => Raise (TypeError "getitem" items)
  end.

Section Tools.

Variable rt : Runtime.
Variable cfg : Config.

(** [str(e)] *)
Definition str_exn (e : exn) : string :=
  match e with
  | PyException msg => msg
  | TransportError msg => msg
  | DecodeError msg => msg
  | _ => builtin_text rt e
  end.

(** [try: body / except Exception as e: return f"{prefix}{str(e)}"] *)
Definition try_except (prefix : string) (body : M string) : M string :=
  fun w =>
    match body w with
    | (Ok s, w') => (Ok s, w')
    | (Raise e, w') => (Ok (prefix ++ str_exn e), w')
    end.

(** [datetime.timestamp()] of a naive datetime whose wall clock is [t]
    and whose [fold] is 0 ([local_to_seconds]): the instant [u] with
    [local(u) = t] is looked for with the offset in force around [t]; the
    day before the first candidate is looked at too, to find the earlier of
    two instants with the same wall clock. *)
Definition local_to_seconds (op : string) (v : value) (t : Z) : result Z :=
  lt <- local rt op v t ;;
  let a := (lt - t)%Z in
  let u1 := (t - a)%Z in
  t1 <- local rt op v u1 ;;
  let second (b : Z) : result Z :=
    let u2 := (t - b)%Z in
    t2 <- local rt op v u2 ;;
    if (t2 =? t)%Z then Ok u2
    else if (t1 =? t)%Z then Ok u1
    else Ok (Z.max u1 u2) in
  if (t1 =? t)%Z
  then
    let u2 := (u1 - 86400)%Z in
    lt2 <- local rt op v u2 ;;
    let b := (lt2 - u2)%Z in
    if (a =? b)%Z then Ok u1 else second b
  else second (t1 - u1)%Z.

(** [days_to_timestamp]: [datetime.now()] is the wall clock of the
    instant the clock shows, read in whole seconds; [timedelta] takes at
    most 999999999 days; the date reached has to lie in the years 1 to 9999;
    and [timestamp()] turns its wall clock back into an instant, which fails
    on the first day of the year 1. *)
Definition days_to_timestamp (days : Z) : M Z :=
  t <~ now ;;
  wall <~ lift (fromtimestamp_wall rt "now" (VInt t) t) ;;
  if (999999999 <? Z.abs days)%Z
  then raise (OverflowError "timedelta" (VInt days))
  else
    let date := (wall - days * 86400)%Z in
    if (date <? -62135596800)%Z || (253402300799 <? date)%Z
    then raise (OverflowError "datetime" (VInt days))
    else lift (local_to_seconds "timestamp" (VInt days) date).

(** [x["title"].lower()] *)
Definition title_key (f : feed) : result (string * feed) :=
  match f_title f with
  | VStr s => Ok (lower s, f)
  | v => Raise (AttributeError v "lower")
  end.

(** The statements under [try:] *)
Definition list_feeds_body : M string :=
  with_client cfg (fun client =>
    r <~ get_subscription_list cfg client ;;
    subs <~ lift (py_iter (fst r)) ;;
    feeds <~ lift (mapM parse_feed subs) ;;
    match feeds with
    | [] => ret "No feeds found in your Inoreader account."
    | _ =>
      keyed <~ lift (mapM title_key feeds) ;;
      let sorted :=
        map snd (sort_by (fun a b => String.leb (fst a) (fst b)) keyed) in
      listing <~ lift (format_feed_list rt sorted) ;;
      ret ("Found " ++ z2s (Z.of_nat (List.length feeds)) ++ " feeds:"
           ++ newline ++ newline ++ listing)
    end).

Definition list_feeds : M string :=
  try_except "Error listing feeds: "
    list_feeds_body.

(** [if feed_id:] *)
Definition nonempty (o : option string) : option string :=
  match o with
  | Some s => if (s =? "")%string then None else Some s
  | None => None
  end.

(** The statements under [try:] *)
Definition list_articles_body (limit days : Z) (feed_id : option string)
  (unread_only : bool)
  : M string :=
  with_client cfg (fun client =>
    newer_than <~ (if (days =? 0)%Z then ret None
                   else t <~ days_to_timestamp days ;; ret (Some t)) ;;
    stream_contents <~ get_stream_contents cfg client feed_id limit
                                           unread_only newer_than ;;
    if is_str stream_contents
    then ret "Error: API returned unexpected response format"
    else
      items <~ lift (py_get stream_contents "items" (VList [])) ;;
      l <~ lift (py_iter items) ;;
      articles <~ lift (mapM (parse_article rt) l) ;;
      match articles with
      | [] =>
        let filters :=
          app (if unread_only then ["unread"] else [])
              (app (if (days =? 0)%Z then []
                    else ["from the last " ++ z2s days ++ " days"])
                   (match nonempty feed_id with
                    | Some f => ["in feed " ++ f]
                    | None => []
                    end)) in
        let filter_str := String.concat " " filters in
        ret ("No articles found"
             ++ (if (filter_str =? "")%string then "" else " " ++ filter_str)
             ++ ".")
      | _ =>
        ret ("Found " ++ z2s (Z.of_nat (List.length articles)) ++ " articles"
             ++ (if unread_only then " (unread only)" else "")
             ++ (if (days =? 0)%Z then ""
                 else " from the last " ++ z2s days ++ " days")
             ++ ":" ++ newline ++ newline
             ++ format_article_list rt articles)
      end).

Definition list_articles (limit days : Z) (feed_id : option string)
  (unread_only : bool)
  : M string :=
  try_except "Error listing articles: "
    (list_articles_body limit days feed_id unread_only).

(** [if days:] for an optional integer *)
Definition days_given (days : option Z) : option Z :=
  match days with
  | Some d => if (d =? 0)%Z then None else Some d
  | None => None
  end.

(** The statements under [try:] *)
Definition search_articles_body (query : string) (limit : Z) (days : option Z)
  : M string :=
  with_client cfg (fun client =>
    newer_than <~ (match days_given days with
                   | Some d => t <~ days_to_timestamp d ;; ret (Some t)
                   | None => ret None
                   end) ;;
    result <~ search cfg client query limit newer_than ;;
    items <~ lift (py_get result "items" (VList [])) ;;
    l <~ lift (py_iter items) ;;
    articles <~ lift (mapM (parse_article rt) l) ;;
    match articles with
    | [] => ret ("No articles found matching '" ++ query ++ "'")
    | _ =>
      ret ("Found " ++ z2s (Z.of_nat (List.length articles))
           ++ " articles matching '" ++ query ++ "'"
           ++ (match days_given days with
               | Some d => " from the last " ++ z2s d ++ " days"
               | None => ""
               end)
           ++ ":" ++ newline ++ newline
           ++ format_article_list rt articles)
    end).

Definition search_articles (query : string) (limit : Z) (days : option Z)
  : M string :=
  try_except "Error searching articles: "
    (search_articles_body query limit days).

Definition rule : string := newline ++ "---" ++ newline ++ newline.

(** The statements under [try:] *)
Definition get_content_body (article_id : string) : M string :=
  with_client cfg (fun client =>
    result <~ get_stream_item_contents cfg client [article_id] ;;
    items <~ lift (py_get result "items" (VList [])) ;;
    if negb (truthy items)
    then ret ("Article with ID " ++ article_id ++ " not found.")
    else
      item <~ lift (py_first items) ;;
      a <~ lift (parse_article rt item) ;;
      let content :=
        "**" ++ py_str rt (a_title a) ++ "**" ++ newline
        ++ "Author: " ++ py_str rt (author a) ++ newline
        ++ "Feed: " ++ py_str rt (feed_title a) ++ newline
        ++ "Date: " ++ py_str rt (published_date a) ++ newline
        ++ (if truthy (url a)
            then "Link: " ++ py_str rt (url a) ++ newline
            else "Link: No URL available" ++ newline)
        ++ "Status: " ++ (if is_read a then "Read" else "Unread") ++ newline in
      match item with
      | VDict d =>
        match assoc "content" d with
        | Some c =>
          full_content <~ lift (py_get c "content" (VStr "")) ;;
          if truthy full_content
          then ret (content ++ rule ++ py_str rt full_content)
          else ret content
        | None =>
          if truthy (summary a)
          then ret (content ++ rule ++ py_str rt (summary a))
          else ret (content ++ rule ++ "No content available for this article.")
        end
      | _ => raise (AttributeError item "get")
      end).

Definition get_content (article_id : string) : M string :=
  try_except "Error getting article content: "
    (get_content_body article_id).

(** One turn of the loop over the chunks *)
Definition mark_chunk (client : InoreaderClient) (success_count : nat)
  (chunk : list string) : M nat :=
  success <~ client_mark_as_read cfg client chunk ;;
  if success then ret (success_count + List.length chunk)%nat
  else ret success_count.

(** The statements under [try:] *)
Definition mark_as_read_body (article_ids : list string) : M string :=
  match article_ids with
  | [] => ret "No article IDs provided."
  | _ =>
    with_client cfg (fun client =>
      chunks <~ lift (chunk_list article_ids 20) ;;
      success_count <~ foldM (mark_chunk client) 0%nat chunks ;;
      if (success_count =? List.length article_ids)%nat
      then ret ("Successfully marked " ++ z2s (Z.of_nat success_count)
                ++ " article(s) as read.")
      else if (0 <? success_count)%nat
      then ret ("Marked " ++ z2s (Z.of_nat success_count) ++ " out of "
                ++ z2s (Z.of_nat (List.length article_ids))
                ++ " articles as read.")
      else ret "Failed to mark articles as read.")
  end.

Definition mark_as_read (article_ids : list string) : M string :=
  try_except "Error marking articles as read: "
    (mark_as_read_body article_ids).

(** One turn of the loop over the unread counts: [acc] is
    [(total_unread, feed_stats)]. *)
Definition stat_step (acc : Z * list stat) (item : value)
  : result (Z * list stat) :=
  count <- py_get item "count" (VInt 0) ;;
  match as_int count with
  | None => Raise (TypeError ">" count)
  | Some n =>
    if (0 <? n)%Z
    then
      id_ <- py_get item "id" (VStr "") ;;
      match id_ with
      | VStr s =>
        if startswith s "feed/"
        then Ok ((fst acc + n)%Z,
                 app (snd acc) [{| stat_id := s; stat_count := count |}])
        else Ok acc
      | _ => Raise (AttributeError id_ "startswith")
      end
    else Ok acc
  end.

Fixpoint collect_stats (acc : Z * list stat) (items : list value)
  : result (Z * list stat) :=
  match items with
  | [] => Ok acc
  | item :: rest => acc' <- stat_step acc item ;; collect_stats acc' rest
  end.

Definition stat_line (s : stat) : string :=
  "- " ++ feed_name (stat_id s) ++ ": " ++ py_str rt (stat_count s)
  ++ " unread" ++ newline.

(** The text [get_stats] builds from the unread counts *)
Definition render_stats (total_unread : Z) (feed_stats : list stat) : string :=
  "**Inoreader Statistics:**" ++ newline ++ newline
  ++ "Total unread articles: " ++ z2s total_unread ++ newline ++ newline
  ++ match feed_stats with
     | [] => ""
     | _ => "Top feeds with unread articles:" ++ newline
            ++ String.concat "" (map stat_line
                                     (firstn 10 (sort_by count_ge feed_stats)))
     end.

(** The statements under [try:] *)
Definition get_stats_body : M string :=
  with_client cfg (fun client =>
    unread_counts <~ get_unread_count cfg client ;;
    items <~ lift (py_iter unread_counts) ;;
    acc <~ lift (collect_stats (0%Z, []) items) ;;
    ret (render_stats (fst acc) (snd acc))).

Definition get_stats : M string :=
  try_except "Error getting stats: "
    get_stats_body.

End Tools.

(** ** Sample data for the examples *)

Definition utc_runtime : Runtime :=
  {| utc_offset := fun _ => 0%Z;
     repr_container := fun _ => "[...]";
     builtin_text := fun e =>
       match e with
       | AttributeError _ attr => "object has no attribute '" ++ attr ++ "'"
       | TypeError op _ => "bad operand for " ++ op
       | KeyError _ => "key"
       | ValueError op _ => "bad value for " ++ op
       | OverflowError op _ => "overflow in " ++ op
       | OSError op _ => "system error in " ++ op
       | PyException msg | TransportError msg | DecodeError msg => msg
       end |}.

Definition sample_config : Config :=
  {| INOREADER_BASE_URL := "https://www.inoreader.com/reader/api/0";
     INOREADER_APP_ID := "app";
     INOREADER_APP_KEY := "key";
     INOREADER_USERNAME := "user";
     INOREADER_PASSWORD := "secret";
     CACHE_TTL := 300;
     REQUEST_TIMEOUT := 10;
     MAX_ARTICLES_PER_REQUEST := 100 |}.

(** A fresh process: nothing sent, no session yet. *)
Definition fresh_world (srv : nat -> request -> outcome) : world :=
  {| server := srv; sent := []; clock := 1700000000; created := 0; closed := 0 |}.

Definition text_response (code : Z) (body : string) : response :=
  {| status := code; content_type := Some "text/html; charset=utf-8";
     text := body; json := Raise (DecodeError "not JSON") |}.

Definition json_response (body : string) (decoded : value) : response :=
  {| status := 200; content_type := Some "application/json; charset=utf-8";
     text := body; json := Ok decoded |}.

Definition login_ok : response :=
  text_response 200 ("SID=null" ++ newline ++ "LSID=null" ++ newline
                     ++ "Auth=G2UlCa" ++ newline).

(** The item of [test_parse_article_basic] *)
Definition test_item : value :=
  VDict [("id", VStr "tag:google.com,2005:reader/item/123");
         ("title", VStr "Test Article");
         ("published", VInt 1700000000);
         ("author", VStr "Test Author");
         ("origin", VDict [("title", VStr "Test Feed");
                           ("streamId", VStr "feed/123")]);
         ("categories", VList []);
         ("alternate", VList [VDict [("type", VStr "text/html");
                                     ("href", VStr "https://example.com")]]);
         ("summary", VDict [("content", VStr "Test summary")])].

(** ** Vocabulary of the statements *)

Definition is_dict (v : value) : bool :=
  match v with
  | VDict _ => true
  | _ => false
  end.

(** The categories the raw data model allows: a label string, or an
    object whose [id], when present, is a string. *)
Definition wf_category (cat : value) : bool :=
  match cat with
  | VStr _ => true
  | VDict d => match assoc "id" d with
               | None | Some (VStr _) => true
               | Some _ => false
               end
  | _ => false
  end.

(** The identifier of a category as the data model describes it: the
    string itself, or the [id] field of an object (its label plays no part). *)
Definition identifier (cat : value) : string :=
  match cat with
  | VStr s => s
  | VDict d => match assoc "id" d with
               | Some (VStr s) => s
               | _ => ""
               end
  | _ => ""
  end.

(** An item as the raw data model has it: a timestamp the calendar can
    show, an origin object, categories that are strings or objects, a list of
    link objects, a summary object with a text. Every field may be absent. *)
Definition wf_item (rt : Runtime) (d : list (string * value)) : bool :=
  (negb (truthy (dict_get d "published" VNone))
   || match fromtimestamp_isoformat rt (dict_get d "published" (VInt 0)) with
      | Ok _ => true
      | Raise _ => false
      end)
  && is_dict (dict_get d "origin" (VDict []))
  && match dict_get d "categories" (VList []) with
     | VList cats => forallb wf_category cats
     | _ => false
     end
  && match assoc "alternate" d with
     | None => true
     | Some (VList alts) => forallb is_dict alts
     | Some _ => false
     end
  && match assoc "summary" d with
     | None => true
     | Some (VDict sm) => is_str (dict_get sm "content" (VStr ""))
     | Some _ => false
     end.

(** The first [text/html] link of a list of links, and its [href] *)
Definition html_alternate (alt : value) : bool :=
  match alt with
  | VDict a => eq_str (dict_get a "type" VNone) "text/html"
  | _ => false
  end.

Definition href_of (alt : value) : value :=
  match alt with
  | VDict a => dict_get a "href" VNone
  | _ => VNone
  end.

(** No angle bracket occurs in [s]. *)
Fixpoint plain (s : string) : bool :=
  match s with
  | "" => true
  | String c r => negb (c =? "<")%char && negb (c =? ">")%char && plain r
  end.

(** [Tagged s rest]: [s] begins with a tag and [rest] follows it.  A tag
    is a ['<'], one character other than ['<'], then characters other than
    ['<'] and ['>'], and the next ['>']. *)
Inductive Tagged : string -> string -> Prop :=
| Tagged_intro (c : ascii) (mid rest : string) :
    (c =? "<")%char = false ->
    plain mid = true ->
    Tagged (String "<" (String c (mid ++ String ">" rest))) rest.

(** [Strips s out]: [out] is [s] without its tags, read from left to
    right: a tag at the front is left out and the reading goes on behind it;
    a character at which no tag begins is kept. *)
Inductive Strips : string -> string -> Prop :=
| Strips_end : Strips "" ""
| Strips_tag (s rest out : string) :
    Tagged s rest -> Strips rest out -> Strips s out
| Strips_char (c : ascii) (s out : string) :
    (forall rest, ~ Tagged (String c s) rest) ->
    Strips s out ->
    Strips (String c s) (String c out).

(** [op] is [body] under a handler that turns every exception into the
    text [prefix] followed by [str(e)]: [op] always returns a string, which
    is the one [body] returns when it returns, and leaves the world as
    [body] leaves it. *)
Definition recovers (rt : Runtime) (prefix : string) (body op : M string)
  : Prop :=
  forall w,
    exists s,
      op w = (Ok s, snd (body w))
      /\ (forall s', fst (body w) = Ok s' -> s = s')
      /\ (forall e, fst (body w) = Raise e ->
            s = prefix ++ str_exn rt e
            /\ (contains newline (str_exn rt e) = false ->
                contains newline s = false)).

(** The JSON text of the string [OK]: the two letters between double
    quotes. *)
Definition quoted_ok : string :=
  String "034" (String "O" (String "K" (String "034" ""))).

(** A server that answers every call with [r] *)
Definition always (r : response) : nat -> request -> outcome :=
  fun _ _ => Responds r.

(** A server that accepts the login and answers every later call with [r] *)
Definition after_login (r : response) : nat -> request -> outcome :=
  fun n _ => match n with
             | O => Responds login_ok
             | S _ => Responds r
             end.

(** The client once [__aenter__] has returned with token [tok] *)
Definition entered (cfg : Config) (tok : string) : InoreaderClient :=
  set_auth_token
    (set_session (new_client cfg)
                 (Some {| check_hostname := false; verify_cert := false |}))
    (Some tok).

Definition rejected_login : response :=
  text_response 401 ("Error=BadAuthentication" ++ newline
                     ++ "Info=InvalidCredentials").

(** *** Batches *)

(** Consecutive groups of [size] elements, the last one with what is
    left; [fuel] bounds the number of groups. *)
Fixpoint batches_upto {A} (fuel size : nat) (l : list A) : list (list A) :=
  match fuel with
  | O => []
  | S f =>
    match l with
    | [] => []
    | _ => firstn size l :: batches_upto f size (skipn size l)
    end
  end.

Definition batches {A} (size : nat) (l : list A) : list (list A) :=
  batches_upto (List.length l) size l.

(** The POST that marks one batch, written out: the ids under [i] and
    the read-state tag under [a] as form data, sent to [edit-tag] with the
    headers of the client and the timeout of the configuration *)
Definition edit_tag_request (cfg : Config) (self : InoreaderClient)
  (chunk : list string) : request :=
  {| rq_method := "POST";
     rq_url := base_url self ++ "/edit-tag";
     rq_params := None;
     rq_data := Some [("i", VList (map VStr chunk));
                      ("a", VStr "user/-/state/com.google/read")];
     rq_headers := [("Authorization",
                     "GoogleLogin auth="
                     ++ match auth_token self with
                        | Some t => t
                        | None => "None"
                        end);
                    ("AppId", app_id self);
                    ("AppKey", app_key self)];
     rq_timeout := Some (REQUEST_TIMEOUT cfg) |}.

(** The answer to the [n]-th request, for a batch: the value the request
    layer hands back, when the call returns at all. *)
Definition batch_answer (srv : nat -> request -> outcome) (cfg : Config)
  (self : InoreaderClient) (n : nat) (chunk : list string) : option value :=
  match srv n (edit_tag_request cfg self chunk) with
  | Responds r =>
    if (status r =? 200)%Z
    then match response_value r with
         | Ok v => Some v
         | Raise _ => None
         end
    else None
  | Fails _ => None
  end.

(** The endpoint call of a batch reports success. *)
Definition batch_ok (srv : nat -> request -> outcome) (cfg : Config)
  (self : InoreaderClient) (n : nat) (chunk : list string) : bool :=
  match batch_answer srv cfg self n chunk with
  | Some v => eq_str v "OK"
  | None => false
  end.

(** Every batch gets an answer, the first one as request number [n]. *)
Fixpoint all_answered (srv : nat -> request -> outcome) (cfg : Config)
  (self : InoreaderClient) (n : nat) (chunks : list (list string)) : bool :=
  match chunks with
  | [] => true
  | c :: rest =>
    match batch_answer srv cfg self n c with
    | Some _ => all_answered srv cfg self (S n) rest
    | None => false
    end
  end.

(** What the call for a batch, sent as the [n]-th request, gives: the
    value handed back, or the exception raised: the one of the transport, the
    one of the decoder, or [API request failed] for a status other than
    200. *)
Definition batch_result (srv : nat -> request -> outcome) (cfg : Config)
  (self : InoreaderClient) (n : nat) (chunk : list string) : result value :=
  match srv n (edit_tag_request cfg self chunk) with
  | Responds r =>
    if (status r =? 200)%Z
    then response_value r
    else Raise (PyException ("API request failed: " ++ z2s (status r)
                             ++ " - " ++ text r))
  | Fails e => Raise e
  end.

(** The first batch whose call raises, counted from 0, with the
    exception *)
Fixpoint first_failure (srv : nat -> request -> outcome) (cfg : Config)
  (self : InoreaderClient) (n : nat) (chunks : list (list string))
  : option (nat * exn) :=
  match chunks with
  | [] => None
  | c :: rest =>
    match batch_result srv cfg self n c with
    | Raise e => Some (0, e)
    | Ok _ =>
      match first_failure srv cfg self (S n) rest with
      | Some (j, e) => Some (S j, e)
      | None => None
      end
    end
  end.

(** The number of ids in the batches whose call reports success *)
Fixpoint tally (srv : nat -> request -> outcome) (cfg : Config)
  (self : InoreaderClient) (n : nat) (chunks : list (list string)) : nat :=
  match chunks with
  | [] => 0
  | c :: rest =>
    ((if batch_ok srv cfg self n c then List.length c else 0)
     + tally srv cfg self (S n) rest)%nat
  end.

(** The login is accepted and gives the token [tok]. *)
Definition login_gives (cfg : Config) (w : world) (tok : string) : Prop :=
  exists r,
    server w (List.length (sent w)) (auth_request (new_client cfg)) = Responds r
    /\ status r = 200%Z
    /\ find_token (split newline (text r)) = Some tok
    /\ tok <> "".

(** Login, then [OK] for the first batch and an error text for the
    second *)
Definition second_batch_fails : nat -> request -> outcome :=
  fun n _ => match n with
             | 0 => Responds login_ok
             | 1 => Responds (text_response 200 "OK")
             | _ => Responds (text_response 200 "Error")
             end.

Definition ids_25 : list string :=
  map (fun n => "item-" ++ z2s (Z.of_nat n)) (seq 1 25).

(** A double quote *)
Definition dq : string := String "034" "".

(** An answer of the unread-count endpoint: one feed, whose address has
    [feed/] in its path, with 3 unread articles *)
Definition stats_answer : value :=
  VDict [("max", VInt 1000);
         ("unreadcounts",
          VList [VDict [("id", VStr "feed/http://example.com/feed/rss");
                        ("count", VInt 3)]])].

Definition stats_body : string :=
  "{" ++ dq ++ "max" ++ dq ++ ": 1000, " ++ dq ++ "unreadcounts" ++ dq
  ++ ": [{" ++ dq ++ "id" ++ dq ++ ": " ++ dq
  ++ "feed/http://example.com/feed/rss" ++ dq ++ ", " ++ dq ++ "count" ++ dq
  ++ ": 3}]}".

(** What [parse_article] makes of [test_item] in the zone of
    [utc_runtime] *)
Definition test_article : article :=
  {| a_id := VStr "tag:google.com,2005:reader/item/123";
     a_title := VStr "Test Article";
     published := VInt 1700000000;
     published_date := VStr "2023-11-14T22:13:20";
     author := VStr "Test Author";
     feed_title := VStr "Test Feed";
     feed_id := VStr "feed/123";
     categories := [];
     is_read := false;
     url := VStr "https://example.com";
     summary := VStr "Test summary" |}.

(** The item of [test_parse_article_with_read_category], with a second
    category given as a plain string *)
Definition read_categories : list value :=
  [VDict [("id", VStr "user/-/state/com.google/read"); ("label", VStr "Read")];
   VStr "Tech"].

Definition read_item : list (string * value) :=
  [("id", VStr "tag:google.com,2005:reader/item/123");
   ("title", VStr "Test Article");
   ("categories", VList read_categories)].

Definition read_article : article :=
  {| a_id := VStr "tag:google.com,2005:reader/item/123";
     a_title := VStr "Test Article";
     published := VInt 0;
     published_date := VNone;
     author := VStr "Unknown";
     feed_title := VStr "Unknown feed";
     feed_id := VStr "";
     categories := [VStr "Read"; VStr "Tech"];
     is_read := true;
     url := VNone;
     summary := VNone |}.

(** [n] times the character [c] *)
Fixpoint replicate (n : nat) (c : ascii) : string :=
  match n with
  | O => ""
  | S k => String c (replicate k c)
  end.

(** An item whose summary is a paragraph of 600 letters *)
Definition long_summary : list (string * value) :=
  [("content", VStr ("<p>" ++ replicate 600 "x" ++ "</p>"))].

Definition long_item : list (string * value) :=
  [("summary", VDict long_summary)].

Definition long_article : article :=
  {| a_id := VStr "";
     a_title := VStr "No title";
     published := VInt 0;
     published_date := VNone;
     author := VStr "Unknown";
     feed_title := VStr "Unknown feed";
     feed_id := VStr "";
     categories := [];
     is_read := false;
     url := VNone;
     summary := VStr (replicate 500 "x" ++ "...") |}.

(** *** Unread counts *)

(** An unread-count entry of the data model, an id and a count, as the
    endpoint sends it *)
Definition entry_value (e : string * Z) : value :=
  VDict [("id", VStr (fst e)); ("count", VInt (snd e))].




(** Login, then [OK] for the first batch and status 500 for the second *)
Definition second_batch_errors : nat -> request -> outcome :=
  fun n _ => match n with
             | 0 => Responds login_ok
             | 1 => Responds (text_response 200 "OK")
             | _ => Responds (text_response 500 "Internal Server Error")
             end.

(** Two subscriptions, the second one without categories *)
Definition two_subscriptions : value :=
  VDict [("subscriptions",
          VList [VDict [("id", VStr "feed/1"); ("title", VStr "beta");
                        ("url", VStr "https://b.example/feed");
                        ("categories",
                         VList [VDict [("id", VStr "user/1/label/Tech");
                                       ("label", VStr "Tech")]])];
                 VDict [("id", VStr "feed/2"); ("title", VStr "Alpha");
                        ("url", VStr "https://a.example/rss")]])].

(** The decoded answer is what the samples below are about; its text
    is not read by the code and is left empty. *)
Definition decoded (v : value) : response := json_response "" v.


(** ** Further code of [utils.py] *)

(** [x[k]] for a [str] key *)
Definition py_getitem (x : value) (k : string) : result value :=
  match x with
  | VDict d => match assoc k d with
               | Some v => Ok v
               | None => Raise (KeyError (VStr k))
               end
  | _ => Raise (TypeError "getitem" x)
  end.

(** [[article["id"] for article in articles if article.get("id")]] *)
Fixpoint extract_item_ids (articles : list value) : result (list value) :=
  match articles with
  | [] => Ok []
  | article :: rest =>
    g <- py_get article "id" VNone ;;
    if truthy g
    then i <- py_getitem article "id" ;;
         ids <- extract_item_ids rest ;;
         Ok (i :: ids)
    else extract_item_ids rest
  end.

(** The [id] of an article, [None] when it has none *)
Definition id_of (article : value) : value :=
  match article with
  | VDict d => dict_get d "id" VNone
  | _ => VNone
  end.

(** No ['<'] occurs in [s]. *)
Fixpoint no_lt (s : string) : bool :=
  match s with
  | "" => true
  | String c r => negb (c =? "<")%char && no_lt r
  end.

(** The label of a category object, [""] when it has none *)
Definition label_of (cat : value) : value :=
  match cat with
  | VDict d => dict_get d "label" (VStr "")
  | _ => VStr ""
  end.

(** Every label of the feed is a string. *)
Definition labels_are_strings (f : feed) : bool :=
  forallb is_str (f_categories f).

(** A subscription with the fields the data model writes in camel case *)
Definition camel_case_subscription : list (string * value) :=
  [("id", VStr "feed/1"); ("firstItemMsec", VInt 1700000000000)].

(** ** Vocabulary for runs of the client and of the tools *)

(** No newline occurs in [s]. *)
Fixpoint one_line (s : string) : bool :=
  match s with
  | "" => true
  | String c r => negb (c =? "010")%char && one_line r
  end.

(** The world once the requests [new] have gone out *)
Definition with_sent (new : list request) (w : world) : world :=
  {| server := server w; sent := app (sent w) new; clock := clock w;
     created := created w; closed := closed w |}.

(** All that [m] does to the world is to send at most [n] requests: it
    opens and closes no session, and the requests sent before stay in the
    log. *)
Definition only_sends {A} (n : nat) (m : M A) : Prop :=
  forall w,
    exists new, snd (m w) = with_sent new w /\ List.length new <= n.

(** [__aenter__] returns in [w]. *)
Definition enters (cfg : Config) (w : world) : bool :=
  match fst (aenter (new_client cfg) w) with
  | Ok _ => true
  | Raise _ => false
  end.

(** The request for the list of subscriptions *)
Definition subscription_request (cfg : Config) (self : InoreaderClient)
  : request :=
  api_request cfg self "GET" "subscription/list" None None.

(** A run of the tool [op]: one session is opened and the login sent;
    when the login is accepted at most [n] further requests follow and the
    session is closed, and when it is not, nothing follows and the session
    stays open.  Nothing else in the world changes. *)
Definition tool_run (cfg : Config) (n : nat) (op : M string) : Prop :=
  forall w,
    exists new,
      List.length new <= n
      /\ snd (op w)
         = (if enters cfg w
            then released (with_sent (auth_request (new_client cfg) :: new)
                                     (opened w))
            else with_sent [auth_request (new_client cfg)] (opened w)).

(** ** Vocabulary for the answers of the server *)

(** The world in which the body of a tool runs once the login has been
    accepted *)
Definition logged_in (cfg : Config) (w : world) : world :=
  logged (auth_request (new_client cfg)) (opened w).

(** The call [rq], made first after the login, is answered with status
    200 and hands the value [v] to the caller. *)
Definition answered (w : world) (rq : request) (v : value) : Prop :=
  exists r,
    server w (S (List.length (sent w))) rq = Responds r
    /\ status r = 200%Z
    /\ response_value r = Ok v.

Definition unread_count_request (cfg : Config) (self : InoreaderClient)
  : request :=
  api_request cfg self "GET" "unread-count" None None.

Definition item_request (cfg : Config) (self : InoreaderClient)
  (article_id : string) : request :=
  api_request cfg self "POST" "stream/items/contents" None
              (Some [("i", VList [VStr article_id])]).

(** The lines [get_content] writes before the body of the article *)
Definition article_header (rt : Runtime) (a : article) : string :=
  "**" ++ py_str rt (a_title a) ++ "**" ++ newline
  ++ "Author: " ++ py_str rt (author a) ++ newline
  ++ "Feed: " ++ py_str rt (feed_title a) ++ newline
  ++ "Date: " ++ py_str rt (published_date a) ++ newline
  ++ (if truthy (url a)
      then "Link: " ++ py_str rt (url a) ++ newline
      else "Link: No URL available" ++ newline)
  ++ "Status: " ++ (if is_read a then "Read" else "Unread") ++ newline.

(** The capital letters a [string] can hold, by their code points: A to
    Z, and the capitals of Latin-1 from U+00C0 to U+00DE without the
    multiplication sign U+00D7; and, in the same places, their lower-case
    forms *)
Definition capitals : list nat :=
  [65; 66; 67; 68; 69; 70; 71; 72; 73; 74; 75; 76; 77; 78; 79; 80; 81; 82; 83;
   84; 85; 86; 87; 88; 89; 90;
   192; 193; 194; 195; 196; 197; 198; 199; 200; 201; 202; 203; 204; 205; 206;
   207; 208; 209; 210; 211; 212; 213; 214;
   216; 217; 218; 219; 220; 221; 222].

Definition smalls : list nat :=
  [97; 98; 99; 100; 101; 102; 103; 104; 105; 106; 107; 108; 109; 110; 111;
   112; 113; 114; 115; 116; 117; 118; 119; 120; 121; 122;
   224; 225; 226; 227; 228; 229; 230; 231; 232; 233; 234; 235; 236; 237; 238;
   239; 240; 241; 242; 243; 244; 245; 246;
   248; 249; 250; 251; 252; 253; 254].

(** The entry of [to] in the place [n] has in [from], [n] itself when it
    is not in [from] *)
Fixpoint in_place_of (n : nat) (from to : list nat) : nat :=
  match from, to with
  | f :: fs, t :: ts => if (n =? f)%nat then t else in_place_of n fs ts
  | _, _ => n
  end.

(** The lower-case form of a character *)
Definition small (c : ascii) : ascii :=
  ascii_of_nat (in_place_of (nat_of_ascii c) capitals smalls).

(** The key [list_feeds] sorts by: the title with every character in its
    lower-case form *)
Definition sort_key (f : feed) : string :=
  match f_title f with
  | VStr s => string_of_list_ascii (map small (list_ascii_of_string s))
  | _ => ""
  end.


(** The stream request [rq] asks for at most [limit] and at most
    [MAX_ARTICLES_PER_REQUEST] articles. *)
Definition capped (cfg : Config) (limit : Z) (rq : request) : Prop :=
  exists params n,
    rq_params rq = Some params
    /\ assoc "n" params = Some (VInt n)
    /\ (n <= limit)%Z
    /\ (n <= MAX_ARTICLES_PER_REQUEST cfg)%Z.

(** The value of the parameter [k] of [rq], when it has one *)
Definition param (k : string) (rq : request) : option value :=
  match rq_params rq with
  | Some params => assoc k params
  | None => None
  end.

(** No [':'] occurs in [s]. *)
Fixpoint no_colon (s : string) : bool :=
  match s with
  | "" => true
  | String c r => negb (c =? ":")%char && no_colon r
  end.

(** ** Further sample data *)

(** A feed whose only label is a number *)
Definition numbered_feed : feed :=
  {| f_id := VStr "feed/1"; f_title := VStr "News";
     f_url := VStr "https://n.example/rss"; htmlUrl := VStr "";
     f_categories := [VInt 7]; firstItemMsec := VInt 0 |}.

(** A login answer with two [Auth=] lines *)
Definition two_tokens : response :=
  text_response 200 (String.concat newline
                       ["SID=null"; "Auth=first"; "Auth=second"]).


Definition counts_answer (es : list (string * Z)) : value :=
  VDict [("unreadcounts", VList (map entry_value es))].

(** An item with an empty [content] and a summary *)
Definition silent_item : list (string * value) :=
  [("title", VStr "Silent");
   ("summary", VDict [("content", VStr "A summary")]);
   ("content", VDict [("content", VStr "")])].

Definition silent_article : article :=
  {| a_id := VStr "";
     a_title := VStr "Silent";
     published := VInt 0;
     published_date := VNone;
     author := VStr "Unknown";
     feed_title := VStr "Unknown feed";
     feed_id := VStr "";
     categories := [];
     is_read := false;
     url := VNone;
     summary := VStr "A summary" |}.

(** Unread counts with two feeds of the same count *)
Definition tied_counts : list (string * Z) :=
  [("feed/https://a.example/rss", 2%Z);
   ("feed/https://b.example/rss", 9%Z);
   ("user/-/label/News", 30%Z);
   ("feed/https://c.example/rss", 2%Z);
   ("feed/https://d.example/rss", 0%Z)].

(** Two subscriptions, not in the order of their titles; the first
    title begins with the capital O with diaeresis, U+00D6 *)
Definition oel_sub : value :=
  VDict [("id", VStr "feed/1"); ("title", VStr (String "214" "l"));
         ("url", VStr "https://z.example/rss")].

Definition apple_sub : value :=
  VDict [("id", VStr "feed/2"); ("title", VStr "apple");
         ("url", VStr "https://a.example/rss")].

Definition oel_feed : feed :=
  {| f_id := VStr "feed/1"; f_title := VStr (String "214" "l");
     f_url := VStr "https://z.example/rss"; htmlUrl := VStr "";
     f_categories := []; firstItemMsec := VInt 0 |}.

Definition apple_feed : feed :=
  {| f_id := VStr "feed/2"; f_title := VStr "apple";
     f_url := VStr "https://a.example/rss"; htmlUrl := VStr "";
     f_categories := []; firstItemMsec := VInt 0 |}.

(** A zone one hour ahead of UTC until three days before the sample
    clock, and on UTC from then on *)
Definition winter_runtime : Runtime :=
  {| utc_offset := fun u => if (u <? 1699740800)%Z then 3600%Z else 0%Z;
     repr_container := repr_container utc_runtime;
     builtin_text := builtin_text utc_runtime |}.
(** ** Properties of the string functions *)

Lemma append_assoc (a b c : string) : (a ++ b) ++ c = a ++ b ++ c.
Proof. induction a; simpl; congruence. Qed.

Lemma length_append (a b : string) : length (a ++ b) = (length a + length b)%nat.
Proof. induction a; simpl; congruence. Qed.

Lemma prefix_spec (p s : string) :
  prefix p s = true <-> exists rest, s = p ++ rest.
Proof.
  revert s; induction p as [|c p IH]; intros s; simpl.
  - destruct s; split; eauto.
  - destruct s as [|c' s]; simpl.
    + split; [discriminate | intros [r H]; discriminate].
    + destruct (ascii_dec c c') as [->|Hne].
      * rewrite IH. split; intros [r H]; exists r; congruence.
      * split; [discriminate | intros [r H]; congruence].
Qed.

Lemma contains_nil (sub : string) : contains sub "" = prefix sub "".
Proof. unfold contains. apply orb_false_r. Qed.

Lemma contains_cons (sub : string) (c : ascii) (s : string) :
  contains sub (String c s) = prefix sub (String c s) || contains sub s.
Proof. reflexivity. Qed.

(** [contains] is Python's substring test. *)
Lemma contains_spec (sub s : string) :
  contains sub s = true <-> exists pre post, s = pre ++ sub ++ post.
Proof.
  induction s as [|c s IH].
  - rewrite contains_nil, prefix_spec. split.
    + intros [r H]. exists "", r. exact H.
    + intros [pre [post H]]. destruct pre; simpl in H.
      * eauto.
      * discriminate.
  - rewrite contains_cons, orb_true_iff, prefix_spec, IH. split.
    + intros [[r H] | [pre [post H]]].
      * exists "", r. exact H.
      * exists (String c pre), post. simpl. congruence.
    + intros [pre [post H]]. destruct pre as [|c' pre]; simpl in H.
      * left; eauto.
      * right. exists pre, post. congruence.
Qed.

(** ** The error monad *)

Lemma bind_Ok {A B} (m : result A) (k : A -> result B) (b : B) :
  bind m k = Ok b -> exists a, m = Ok a /\ k a = Ok b.
Proof. destruct m; simpl; [eauto | discriminate]. Qed.

(** Splits a hypothesis [x <- m ;; k = Ok b] into its two steps. *)
Ltac bind_inv H :=
  let x := fresh "x" in
  let Hm := fresh "Hm" in
  apply bind_Ok in H; destruct H as [x [Hm H]].

(** ** [parse_article] *)

Section NormalizerProperties.

Variable rt : Runtime.

(** The steps of a successful [parse_article], field by field. *)
Lemma parse_article_fields (d : list (string * value)) (a : article) :
  parse_article rt (VDict d) = Ok a ->
  exists cats,
    py_iter (dict_get d "categories" (VList [])) = Ok cats
    /\ any_read rt cats = Ok (is_read a)
    /\ categories a = map (category_label rt) cats
    /\ (if truthy (dict_get d "published" VNone)
        then s <- fromtimestamp_isoformat rt (dict_get d "published" (VInt 0)) ;;
             Ok (VStr s)
        else Ok VNone) = Ok (published_date a)
    /\ match assoc "alternate" d with
       | Some alts => l <- py_iter alts ;; first_html_href l
       | None => Ok VNone
       end = Ok (url a)
    /\ match assoc "summary" d with
       | Some s => parse_summary s
       | None => Ok VNone
       end = Ok (summary a)
    /\ py_get (dict_get d "origin" (VDict [])) "title" (VStr "Unknown feed")
       = Ok (feed_title a)
    /\ a_title a = dict_get d "title" (VStr "No title")
    /\ author a = dict_get d "author" (VStr "Unknown").
Proof.
  unfold parse_article. intros H.
  bind_inv H. bind_inv H. bind_inv H. bind_inv H. bind_inv H.
  bind_inv H. bind_inv H.
  rewrite Hm2 in Hm3. simpl in Hm3.
  inversion H; subst; simpl.
  exists x2. repeat split; assumption.
Qed.

Lemma any_read_existsb (cats : list value) :
  forallb wf_category cats = true ->
  any_read rt cats
  = Ok (existsb (fun cat => contains read_state (identifier cat)) cats).
Proof.
  induction cats as [|cat cats IH]; simpl; intros H.
  - reflexivity.
  - apply andb_true_iff in H. destruct H as [Hc Hr].
    assert (E : py_in read_state (category_identifier rt cat)
                = Ok (contains read_state (identifier cat))).
    { destruct cat; simpl in *; try discriminate; try reflexivity.
      unfold dict_get. destruct (assoc "id" kvs) as [[]|];
        simpl; try discriminate; reflexivity. }
    rewrite E; simpl.
    destruct (contains read_state (identifier cat)); simpl; auto.
Qed.

(** C1. For an item whose categories are label strings or objects, the
    article's [is_read] is true exactly when some category of the list has an
    identifier that contains [state/com.google/read]; the identifier of an
    object is its [id] field alone, that of a string the string itself. *)
Theorem is_read_iff_read_identifier
  (d : list (string * value)) (cats : list value) (a : article) :
  dict_get d "categories" (VList []) = VList cats ->
  forallb wf_category cats = true ->
  parse_article rt (VDict d) = Ok a ->
  is_read a = true
  <-> exists cat, In cat cats
        /\ exists pre post,
             identifier cat = pre ++ "state/com.google/read" ++ post.
Proof.
  intros Hc Hwf Hp.
  destruct (parse_article_fields d a Hp) as [cs [Hi [Hr _]]].
  rewrite Hc in Hi. simpl in Hi. inversion Hi; subst cs.
  rewrite any_read_existsb in Hr by assumption.
  inversion Hr as [Hr']. rewrite existsb_exists.
  split; intros [cat [Hin Hx]]; exists cat; split; auto;
    apply contains_spec; exact Hx.
Qed.

(** *** Items of the raw data model are always normalised *)

Lemma first_html_href_total (alts : list value) :
  forallb is_dict alts = true -> exists u, first_html_href alts = Ok u.
Proof.
  induction alts as [|alt alts IH]; simpl; intros H.
  - eauto.
  - apply andb_true_iff in H. destruct H as [Ha Hr].
    destruct alt; try discriminate. simpl.
    destruct (eq_str (dict_get kvs "type" VNone) "text/html"); eauto.
Qed.

Lemma parse_article_total (d : list (string * value)) :
  wf_item rt d = true -> exists a, parse_article rt (VDict d) = Ok a.
Proof.
  unfold wf_item. intros H.
  repeat (apply andb_true_iff in H; destruct H as [H ?]).
  unfold parse_article.
  assert (E1 : exists date,
    (if truthy (dict_get d "published" VNone)
     then s <- fromtimestamp_isoformat rt (dict_get d "published" (VInt 0)) ;;
          Ok (VStr s)
     else Ok VNone) = Ok date).
  { destruct (truthy (dict_get d "published" VNone)); simpl in H; eauto.
    destruct (fromtimestamp_isoformat rt _); [simpl; eauto | discriminate]. }
  destruct E1 as [date ->]. simpl.
  destruct (dict_get d "origin" (VDict [])); try discriminate. simpl.
  destruct (dict_get d "categories" (VList [])) as [| | | |cats|];
    try discriminate. simpl.
  rewrite any_read_existsb by assumption. simpl.
  assert (E2 : exists u,
    match assoc "alternate" d with
    | Some alts => l <- py_iter alts ;; first_html_href l
    | None => Ok VNone
    end = Ok u).
  { destruct (assoc "alternate" d) as [[| | | |alts|]|]; try discriminate; eauto.
    simpl. apply first_html_href_total. assumption. }
  destruct E2 as [u ->]. simpl.
  assert (E3 : exists sm,
    match assoc "summary" d with
    | Some s => parse_summary s
    | None => Ok VNone
    end = Ok sm).
  { destruct (assoc "summary" d) as [[| | | | |sm]|]; try discriminate; eauto.
    unfold parse_summary. simpl.
    destruct (dict_get sm "content" (VStr "")); try discriminate. eauto. }
  destruct E3 as [sm ->]. simpl. eauto.
Qed.

(** *** The summary *)

Lemma list_ascii_of_append (a b : string) :
  list_ascii_of_string (a ++ b)
  = app (list_ascii_of_string a) (list_ascii_of_string b).
Proof. induction a; simpl; congruence. Qed.

(** [s[:n]] is the first [n] characters of [s]. *)
Lemma substring_0_firstn (n : nat) (s : string) :
  list_ascii_of_string (substring 0 n s) = firstn n (list_ascii_of_string s).
Proof.
  revert s; induction n as [|n IH]; intros [|c s]; simpl; try reflexivity.
  rewrite IH. reflexivity.
Qed.

Lemma length_list_ascii (s : string) :
  List.length (list_ascii_of_string s) = length s.
Proof. induction s; simpl; congruence. Qed.

Lemma truncate_summary_spec (s : string) :
  (500 < length s ->
     list_ascii_of_string (truncate_summary s)
     = app (firstn 500 (list_ascii_of_string s)) ["."; "."; "."]%char
     /\ length (truncate_summary s) = 503)
  /\ (length s <= 500 -> truncate_summary s = s).
Proof.
  unfold truncate_summary. split; intros H.
  - apply Nat.ltb_lt in H as Hb. rewrite Hb.
    assert (E : list_ascii_of_string (substring 0 500 s ++ "...")
                = app (firstn 500 (list_ascii_of_string s)) ["."; "."; "."]%char).
    { rewrite list_ascii_of_append, substring_0_firstn. reflexivity. }
    split; [exact E|].
    rewrite <- length_list_ascii, E, length_app, length_firstn, length_list_ascii.
    change (List.length ["."; "."; "."]%char) with 3. lia.
  - apply Nat.ltb_ge in H. rewrite H. reflexivity.
Qed.

(** Skipping [n] characters is reading on from [drop n s]. *)
Lemma sub_tags_skip (n : nat) (s : string) :
  sub_tags n s = sub_tags 0 (drop n s).
Proof.
  revert n; induction s as [|c s IH]; intros [|n]; try reflexivity.
  simpl. apply IH.
Qed.

Lemma tag_rest_plain (body rest : string) :
  plain body = true ->
  tag_rest (body ++ String ">" rest) = Some (S (length body)).
Proof.
  induction body as [|c body IH]; simpl; intros H.
  - reflexivity.
  - apply andb_true_iff in H. destruct H as [H Hb].
    apply andb_true_iff in H. destruct H as [H1 H2].
    apply negb_true_iff in H1, H2. rewrite H1, H2, IH by assumption.
    reflexivity.
Qed.

Lemma drop_append (a b : string) : drop (length a) (a ++ b) = b.
Proof. induction a; simpl; auto. Qed.

(** A tag [<body>] whose body is not empty and has no angle bracket is
    removed. *)
Lemma re_sub_tags_tag (c : ascii) (body rest : string) :
  plain (String c body) = true ->
  re_sub_tags (String "<" (String c body ++ String ">" rest))
  = re_sub_tags rest.
Proof.
  intros H. unfold re_sub_tags. simpl in H.
  apply andb_true_iff in H. destruct H as [H Hb].
  apply andb_true_iff in H. destruct H as [H1 H2].
  apply negb_true_iff in H1.
  cbn [sub_tags tag_match append]. rewrite H1, tag_rest_plain by assumption.
  cbn [option_map].
  replace (2 + S (length body) - 1)%nat with (S (S (length body))) by lia.
  cbn [sub_tags].
  change (String ">" rest) with (">" ++ rest).
  rewrite <- append_assoc.
  replace (S (length body)) with (length (body ++ ">"))
    by (rewrite length_append; simpl; lia).
  rewrite sub_tags_skip, drop_append. reflexivity.
Qed.

(** A character other than ['<'] is kept; a text without ['<'] is left as
    it is. *)
Lemma re_sub_tags_char (c : ascii) (s : string) :
  (c =? "<")%char = false ->
  re_sub_tags (String c s) = String c (re_sub_tags s).
Proof.
  intros H. unfold re_sub_tags. cbn [sub_tags].
  assert (E : tag_match (String c s) = None).
  { unfold tag_match. destruct c as [[] [] [] [] [] [] [] []];
      try reflexivity; discriminate. }
  rewrite E. reflexivity.
Qed.

(** *** The tags the pattern matches *)

Lemma tag_match_other (a : ascii) (s : string) :
  (a =? "<")%char = false -> tag_match (String a s) = None.
Proof.
  intros H. unfold tag_match.
  destruct a as [[] [] [] [] [] [] [] []]; try reflexivity; discriminate.
Qed.

Lemma tag_rest_Some (r : string) :
  forall k, tag_rest r = Some k ->
  exists mid rest,
    r = mid ++ String ">" rest /\ plain mid = true /\ k = S (length mid).
Proof.
  induction r as [|c r IH]; intros k H; cbn [tag_rest] in H.
  - discriminate.
  - destruct (c =? ">")%char eqn:Egt.
    + apply Ascii.eqb_eq in Egt. subst c. inversion H.
      exists "", r. repeat split.
    + destruct (c =? "<")%char eqn:Elt; [discriminate|].
      destruct (tag_rest r) as [k'|]; [|discriminate].
      destruct (IH k' eq_refl) as [mid [rest [-> [Hp ->]]]].
      inversion H. exists (String c mid), rest.
      cbn [append plain length]. rewrite Elt, Egt, Hp. repeat split.
Qed.

Lemma length_drop_le (n : nat) (s : string) : length (drop n s) <= length s.
Proof.
  revert n; induction s as [|c s IH]; intros [|n]; cbn [drop length]; try lia.
  specialize (IH n). lia.
Qed.

(** The pattern matches at the front of [s] exactly when [s] begins with
    a tag, and the match is that tag. *)
Lemma Tagged_tag_match (s rest : string) :
  Tagged s rest ->
  exists n, tag_match s = Some (S n) /\ drop (S n) s = rest.
Proof.
  intros H. destruct H as [c mid rest Hc Hp].
  exists (S (S (length mid))). split.
  - cbn [tag_match]. rewrite Hc, tag_rest_plain by assumption. reflexivity.
  - change (drop (S (length mid)) (mid ++ String ">" rest) = rest).
    change (String ">" rest) with (">" ++ rest).
    rewrite <- append_assoc.
    replace (S (length mid)) with (length (mid ++ ">"))
      by (rewrite length_append; simpl; lia).
    apply drop_append.
Qed.

Lemma tag_match_Tagged (s : string) (n : nat) :
  tag_match s = Some n -> exists rest, Tagged s rest.
Proof.
  destruct s as [|a [|c r]].
  - discriminate.
  - destruct (a =? "<")%char eqn:Ea.
    + apply Ascii.eqb_eq in Ea. subst a. discriminate.
    + rewrite tag_match_other by assumption. discriminate.
  - destruct (a =? "<")%char eqn:Ea.
    + apply Ascii.eqb_eq in Ea. subst a. cbn [tag_match].
      destruct (c =? "<")%char eqn:Ec; [discriminate|].
      destruct (tag_rest r) as [k|] eqn:Er; [|discriminate].
      destruct (tag_rest_Some r k Er) as [mid [rest [-> [Hp _]]]].
      intros _. exists rest. constructor; assumption.
    + rewrite tag_match_other by assumption. discriminate.
Qed.

Lemma Tagged_functional (s r1 r2 : string) :
  Tagged s r1 -> Tagged s r2 -> r1 = r2.
Proof.
  intros H1 H2.
  destruct (Tagged_tag_match s r1 H1) as [n1 [E1 D1]].
  destruct (Tagged_tag_match s r2 H2) as [n2 [E2 D2]].
  rewrite E1 in E2. inversion E2; subst n2. congruence.
Qed.

(** [re.sub] with the pattern strips the tags. *)
Lemma Strips_re_sub_tags (s : string) : Strips s (re_sub_tags s).
Proof.
  unfold re_sub_tags.
  assert (G : forall m s, length s <= m -> Strips s (sub_tags 0 s)).
  { clear s. induction m as [|m IH]; intros s Hm.
    - destruct s; [constructor | simpl in Hm; lia].
    - destruct s as [|c r]; [constructor|].
      cbn [sub_tags]. cbn [length] in Hm.
      destruct (tag_match (String c r)) as [n|] eqn:E.
      + destruct (tag_match_Tagged _ _ E) as [rest Ht].
        destruct (Tagged_tag_match _ _ Ht) as [n' [E' Hd]].
        rewrite E in E'. inversion E'; subst n.
        apply (Strips_tag _ rest); [exact Ht|].
        replace (S n' - 1) with n' by lia.
        rewrite sub_tags_skip. cbn [drop] in Hd. rewrite Hd.
        apply IH. rewrite <- Hd. pose proof (length_drop_le n' r). lia.
      + apply Strips_char.
        * intros rest Ht. destruct (Tagged_tag_match _ _ Ht) as [n [E' _]].
          congruence.
        * apply IH. lia. }
  apply (G (length s)). apply Nat.le_refl.
Qed.

(** A text has one reading without its tags. *)
Lemma Strips_functional (s a : string) :
  Strips s a -> forall b, Strips s b -> a = b.
Proof.
  induction 1 as [|s rest out Ht Hs IH|c s out Hn Hs IH]; intros b Hb.
  - inversion Hb as [|s' rest' out' Ht' Hs'|]; subst; [reflexivity|].
    inversion Ht'.
  - inversion Hb as [|s' rest' out' Ht' Hs'|c' s' out' Hn' Hs']; subst.
    + inversion Ht.
    + rewrite (Tagged_functional _ _ _ Ht' Ht) in Hs'. apply IH. exact Hs'.
    + exfalso. apply (Hn' rest). exact Ht.
  - inversion Hb as [|s' rest' out' Ht' Hs'|c' s' out' Hn' Hs']; subst.
    + exfalso. apply (Hn rest'). exact Ht'.
    + f_equal. apply IH. exact Hs'.
Qed.

(** Text without an angle bracket in front of [s] is kept. *)
Lemma Strips_text (p s out : string) :
  plain p = true -> Strips s out -> Strips (p ++ s) (p ++ out).
Proof.
  induction p as [|c p IH]; cbn [plain append]; intros Hp Hs.
  - exact Hs.
  - apply andb_true_iff in Hp. destruct Hp as [Hc Hp].
    apply andb_true_iff in Hc. destruct Hc as [Hlt _].
    apply negb_true_iff in Hlt.
    apply Strips_char; [|apply IH; assumption].
    intros rest Ht. inversion Ht; subst. discriminate.
Qed.

(** C6. The stored summary of an item with a summary is made from the
    content in two steps. First the tags are stripped: reading from left to
    right, every tag, a ['<'] followed by one character other than ['<'] and
    then by characters other than ['<'] and ['>'] up to the next ['>'], is
    left out, and every other character is kept; there is exactly one such
    text. Then that text is cut to its first 500 characters followed by
    [...] when it is longer than 500 characters, and left as it is
    otherwise. *)
Theorem summary_stripped_then_truncated
  (d sm : list (string * value)) (content : string) (a : article) :
  assoc "summary" d = Some (VDict sm) ->
  dict_get sm "content" (VStr "") = VStr content ->
  parse_article rt (VDict d) = Ok a ->
  exists stripped stored,
    Strips content stripped
    /\ (forall other, Strips content other -> other = stripped)
    /\ summary a = VStr stored
    /\ (500 < length stripped ->
          list_ascii_of_string stored
          = app (firstn 500 (list_ascii_of_string stripped))
                ["."; "."; "."]%char
          /\ length stored = 503)
    /\ (length stripped <= 500 -> stored = stripped).
Proof.
  intros Hs Hc Hp.
  destruct (parse_article_fields d a Hp) as [cs [_ [_ [_ [_ [_ [Hsm _]]]]]]].
  rewrite Hs in Hsm. unfold parse_summary in Hsm. simpl in Hsm.
  rewrite Hc in Hsm. inversion Hsm as [E].
  exists (re_sub_tags content), (truncate_summary (re_sub_tags content)).
  split; [apply Strips_re_sub_tags|].
  split.
  { intros other Ho. symmetry.
    apply (Strips_functional content _ (Strips_re_sub_tags content) _ Ho). }
  split; [reflexivity|].
  apply truncate_summary_spec.
Qed.

(** *** The date and the link *)

Lemma nat_of_digit (n : Z) :
  nat_of_ascii (digit n) = (48 + Z.to_nat (n mod 10))%nat.
Proof.
  unfold digit. apply nat_ascii_embedding.
  assert (0 <= n mod 10 < 10)%Z by (apply Z.mod_pos_bound; lia). lia.
Qed.

Lemma is_digit_digit (n : Z) : is_digit (digit n) = true.
Proof.
  unfold is_digit. rewrite nat_of_digit.
  assert (0 <= n mod 10 < 10)%Z by (apply Z.mod_pos_bound; lia).
  apply andb_true_iff. split; apply Nat.leb_le; lia.
Qed.

Lemma digit_value_digit (n : Z) : digit_value (digit n) = (n mod 10)%Z.
Proof.
  unfold digit_value. rewrite nat_of_digit.
  assert (0 <= n mod 10 < 10)%Z by (apply Z.mod_pos_bound; lia). lia.
Qed.

Lemma two_digits_pad (n : Z) :
  (0 <= n < 100)%Z -> two_digits (digit (n / 10)) (digit n) = n.
Proof.
  intros H. unfold two_digits. rewrite !digit_value_digit.
  Z.div_mod_to_equations. lia.
Qed.

(** The calendar gives a month of the year and a day of the month. *)
Lemma civil_from_days_range (days y m d : Z) :
  civil_from_days days = (y, m, d) ->
  (1 <= m <= 12 /\ 1 <= d <= 31)%Z.
Proof.
  unfold civil_from_days.
  set (z := (days + 719468)%Z).
  set (era := (z / 146097)%Z).
  set (doe := (z - era * 146097)%Z).
  assert (Hdoe : (0 <= doe <= 146096)%Z)
    by (subst doe era; Z.div_mod_to_equations; lia).
  clearbody doe.
  set (yoe := ((doe - doe / 1460 + doe / 36524 - doe / 146096) / 365)%Z).
  set (doy := (doe - (365 * yoe + yoe / 4 - yoe / 100))%Z).
  assert (Hdoy : (0 <= doy <= 365)%Z)
    by (subst doy yoe; Z.div_mod_to_equations; lia).
  clearbody doy.
  set (mp := ((5 * doy + 2) / 153)%Z).
  assert (Hmp : (0 <= mp <= 11)%Z) by (subst mp; Z.div_mod_to_equations; lia).
  set (dd := (doy - (153 * mp + 2) / 5 + 1)%Z).
  assert (Hd : (1 <= dd <= 31)%Z)
    by (subst dd mp; Z.div_mod_to_equations; lia).
  clearbody dd mp.
  intros H. inversion H; subst.
  destruct (mp <? 10)%Z eqn:E;
    [apply Z.ltb_lt in E | apply Z.ltb_ge in E]; lia.
Qed.

Lemma isoformat_is_iso8601 (y m d hh mm ss : Z) :
  (1 <= m <= 12)%Z -> (1 <= d <= 31)%Z -> (0 <= hh <= 23)%Z ->
  (0 <= mm <= 59)%Z -> (0 <= ss <= 59)%Z ->
  is_iso8601 (isoformat y m d hh mm ss) = true.
Proof.
  intros Hm Hd Hh Hn Hs.
  unfold is_iso8601, isoformat, pad4, pad2. cbn [append list_ascii_of_string].
  cbn [forallb]. rewrite !is_digit_digit.
  rewrite !two_digits_pad by lia. cbn [andb Ascii.eqb Bool.eqb].
  repeat (apply andb_true_iff; split); apply Z.leb_le; lia.
Qed.

(** Whenever [fromtimestamp(...).isoformat()] returns, its text has the
    ISO-8601 form. *)
Lemma fromtimestamp_isoformat_iso (v : value) (s : string) :
  fromtimestamp_isoformat rt v = Ok s -> is_iso8601 s = true.
Proof.
  unfold fromtimestamp_isoformat.
  destruct (as_int v) as [ts|]; [|discriminate].
  destruct (fromtimestamp_wall rt "fromtimestamp" v ts) as [loc|e];
    [|discriminate].
  cbn [bind]. intros H. inversion H. unfold isoformat_of.
  destruct (civil_from_days (loc / 86400)) as [[y m] d] eqn:E.
  apply civil_from_days_range in E. destruct E as [Hm Hd].
  apply isoformat_is_iso8601; try assumption.
  - Z.div_mod_to_equations; lia.
  - Z.div_mod_to_equations; lia.
  - Z.div_mod_to_equations; lia.
Qed.

(** The loop over the links stops at the first [text/html] link. *)
Lemma first_html_href_find (alts : list value) (u : value) :
  first_html_href alts = Ok u ->
  u = match find html_alternate alts with
      | Some alt => href_of alt
      | None => VNone
      end.
Proof.
  induction alts as [|alt alts IH]; simpl; intros H.
  - inversion H; reflexivity.
  - destruct alt; try discriminate. simpl in *.
    destruct (eq_str (dict_get kvs "type" VNone) "text/html").
    + inversion H; reflexivity.
    + auto.
Qed.

(** C9, as the code has it. [published_date] is a string of the
    ISO-8601 form when the item has a published timestamp other than zero,
    and [None] otherwise; [url] is the [href] of the first alternate link of
    type [text/html], and [None] when the item has no such link or that link
    has no [href]. *)
Theorem published_date_and_url (d : list (string * value)) (a : article) :
  parse_article rt (VDict d) = Ok a ->
  (if truthy (dict_get d "published" VNone)
   then exists s, published_date a = VStr s /\ is_iso8601 s = true
   else published_date a = VNone)
  /\ (assoc "alternate" d = None -> url a = VNone)
  /\ (forall alts, assoc "alternate" d = Some (VList alts) ->
        url a = match find html_alternate alts with
                | Some alt => href_of alt
                | None => VNone
                end).
Proof.
  intros Hp.
  destruct (parse_article_fields d a Hp) as [cs [_ [_ [_ [Hd [Hu _]]]]]].
  split; [|split].
  - destruct (truthy (dict_get d "published" VNone)).
    + bind_inv Hd. inversion Hd. exists x. split; [reflexivity|].
      eapply fromtimestamp_isoformat_iso; eassumption.
    + inversion Hd; reflexivity.
  - intros E. rewrite E in Hu. inversion Hu; reflexivity.
  - intros alts E. rewrite E in Hu. simpl in Hu.
    apply first_html_href_find. assumption.
Qed.

(** *** [parse_feed] *)

Lemma mapM_label_dicts (cats : list value) :
  (exists labels, mapM (fun cat => py_get cat "label" (VStr "")) cats = Ok labels)
  <-> forallb is_dict cats = true.
Proof.
  induction cats as [|cat cats IH]; simpl.
  - split; eauto.
  - split.
    + intros [labels H]. bind_inv H. bind_inv H.
      apply andb_true_iff. split.
      * destruct cat; simpl in Hm; try discriminate; reflexivity.
      * apply IH. eauto.
    + intros H. apply andb_true_iff in H. destruct H as [Hc Hr].
      apply IH in Hr. destruct Hr as [labels Hr].
      destruct cat; try discriminate. simpl. rewrite Hr. simpl. eauto.
Qed.

Lemma mapM_label_raises (cats : list value) :
  forallb is_dict cats = false ->
  exists v, mapM (fun cat => py_get cat "label" (VStr "")) cats
            = Raise (AttributeError v "get").
Proof.
  induction cats as [|cat cats IH]; simpl; intros H.
  - discriminate.
  - destruct cat; simpl in *; eauto.
    destruct (IH H) as [v ->]. simpl. eauto.
Qed.

(** C10. [parse_feed] returns a record only when every entry of the
    categories list is an object; with a plain string among the entries it
    raises ([.get] is called on an entry that has no such method).
    [parse_article] returns a record for a list of strings and objects. *)
Theorem parse_feed_needs_object_categories
  (d : list (string * value)) (cats : list value) :
  dict_get d "categories" (VList []) = VList cats ->
  ((exists f, parse_feed (VDict d) = Ok f) <-> forallb is_dict cats = true)
  /\ (forall s, In (VStr s) cats ->
        exists v, parse_feed (VDict d) = Raise (AttributeError v "get"))
  /\ (forallb wf_category cats = true ->
        exists a, parse_article rt (VDict [("categories", VList cats)]) = Ok a
                  /\ categories a = map (category_label rt) cats).
Proof.
  intros Hc. unfold parse_feed. rewrite Hc. simpl. split; [|split].
  - rewrite <- mapM_label_dicts. split.
    + intros [f H]. bind_inv H. eauto.
    + intros [labels ->]. simpl. eauto.
  - intros s Hin.
    assert (E : forallb is_dict cats = false).
    { destruct (forallb is_dict cats) eqn:E; [|reflexivity].
      rewrite forallb_forall in E. apply E in Hin. discriminate. }
    destruct (mapM_label_raises cats E) as [v ->]. simpl. eauto.
  - intros Hwf.
    destruct (parse_article_total [("categories", VList cats)]) as [a Ha].
    { unfold wf_item. simpl. rewrite Hwf. reflexivity. }
    exists a. split; [exact Ha|].
    destruct (parse_article_fields _ a Ha) as [cs [Hi [_ [Hcat _]]]].
    simpl in Hi. inversion Hi; subst. exact Hcat.
Qed.

End NormalizerProperties.

(** *** Examples *)

Lemma is_read_iff_read_identifier_witness :
  exists cat, In cat read_categories
    /\ exists pre post, identifier cat = pre ++ "state/com.google/read" ++ post.
Proof.
  assert (Hp : parse_article utc_runtime (VDict read_item) = Ok read_article)
    by reflexivity.
  apply (proj1 (is_read_iff_read_identifier utc_runtime read_item
                  read_categories read_article eq_refl eq_refl Hp)).
  reflexivity.
Defined.

(** The label [Read] alone, on an object or as a string, does not make
    an article read. *)
Lemma label_Read_is_not_read :
  exists a,
    parse_article utc_runtime
      (VDict [("categories", VList [VDict [("label", VStr "Read")]; VStr "Read"])])
    = Ok a
    /\ is_read a = false.
Proof. eexists. split; reflexivity. Qed.

(** A string category that carries the read state marks the article. *)
Lemma string_category_marks_read :
  exists a,
    parse_article utc_runtime
      (VDict [("categories", VList [VStr "user/-/state/com.google/read"])])
    = Ok a
    /\ is_read a = true.
Proof. eexists. split; reflexivity. Qed.

(** The tags of the paragraph of 600 letters are [<p>] and [</p>]. *)
Lemma long_summary_stripped :
  Strips ("<p>" ++ replicate 600 "x" ++ "</p>") (replicate 600 "x").
Proof.
  apply (Strips_tag _ (replicate 600 "x" ++ "</p>")).
  { apply (Tagged_intro "p" "" _); reflexivity. }
  replace (replicate 600 "x") with (replicate 600 "x" ++ "") at 2
    by (vm_compute; reflexivity).
  apply Strips_text; [vm_compute; reflexivity|].
  apply (Strips_tag _ "").
  { apply (Tagged_intro "/" "p" ""); reflexivity. }
  constructor.
Qed.

Lemma summary_stripped_then_truncated_witness :
  exists stored,
    summary long_article = VStr stored
    /\ list_ascii_of_string stored
       = app (firstn 500 (list_ascii_of_string (replicate 600 "x")))
             ["."; "."; "."]%char
    /\ length stored = 503.
Proof.
  assert (Hp : parse_article utc_runtime (VDict long_item) = Ok long_article)
    by (vm_compute; reflexivity).
  destruct (summary_stripped_then_truncated utc_runtime long_item long_summary
              ("<p>" ++ replicate 600 "x" ++ "</p>") long_article
              eq_refl eq_refl Hp)
    as [stripped [stored [_ [Hu [Hs [Hlong _]]]]]].
  rewrite <- (Hu _ long_summary_stripped) in Hlong.
  exists stored. split; [exact Hs|].
  apply Hlong. vm_compute. lia.
Defined.

(** The test of [test_utils.py]: a short summary is stored as it is. *)
Lemma short_summary_unchanged :
  parse_article utc_runtime test_item = Ok test_article.
Proof. reflexivity. Qed.

(** Against C9 as stated: for an item without a timestamp and without
    links the date and the url of the article are [None], not the empty
    string. *)
Lemma published_date_and_url_None :
  exists a,
    parse_article utc_runtime (VDict []) = Ok a
    /\ published_date a = VNone /\ url a = VNone
    /\ published_date a <> VStr "" /\ url a <> VStr "".
Proof. eexists. repeat split; discriminate. Qed.

Lemma published_date_and_url_witness :
  (exists s, published_date test_article = VStr s /\ is_iso8601 s = true)
  /\ url test_article = VStr "https://example.com".
Proof.
  assert (Hp : parse_article utc_runtime test_item = Ok test_article)
    by reflexivity.
  destruct (published_date_and_url utc_runtime _ test_article Hp)
    as [Hd [_ Hu]].
  split.
  - exact Hd.
  - exact (Hu _ eq_refl).
Defined.

Lemma parse_feed_needs_object_categories_witness :
  exists v,
    parse_feed (VDict [("title", VStr "Test Feed");
                       ("categories", VList [VStr "Tech"])])
    = Raise (AttributeError v "get").
Proof.
  exact (proj1 (proj2 (parse_feed_needs_object_categories utc_runtime
                         [("title", VStr "Test Feed");
                          ("categories", VList [VStr "Tech"])]
                         [VStr "Tech"] eq_refl))
               "Tech" (or_introl eq_refl)).
Defined.

(** *** The cases of [test_utils.py] *)

Example test_parse_feed_basic :
  parse_feed (VDict [("id", VStr "feed/123"); ("title", VStr "Test Feed");
                     ("url", VStr "https://example.com/feed");
                     ("htmlUrl", VStr "https://example.com");
                     ("categories", VList [VDict [("label", VStr "Tech")]]);
                     ("firstitemmsec", VInt 1700000000)])
  = Ok {| f_id := VStr "feed/123"; f_title := VStr "Test Feed";
          f_url := VStr "https://example.com/feed";
          htmlUrl := VStr "https://example.com";
          f_categories := [VStr "Tech"];
          firstItemMsec := VInt 1700000000 |}.
Proof. reflexivity. Qed.

Example test_parse_feed_defaults :
  exists f, parse_feed (VDict []) = Ok f /\ f_title f = VStr "Untitled".
Proof. eexists. split; reflexivity. Qed.

Example test_format_article_list_empty :
  format_article_list utc_runtime [] = "No articles found.".
Proof. reflexivity. Qed.

Example test_format_feed_list_empty :
  format_feed_list utc_runtime [] = Ok "No feeds found.".
Proof. reflexivity. Qed.

Example test_chunk_list_basic :
  chunk_list [1; 2; 3; 4; 5] 2 = Ok [[1; 2]; [3; 4]; [5]].
Proof. reflexivity. Qed.

Example test_chunk_list_empty : chunk_list (@nil nat) 2 = Ok [].
Proof. reflexivity. Qed.

Example test_chunk_list_larger_chunk :
  chunk_list [1; 2; 3] 5 = Ok [[1; 2; 3]].
Proof. reflexivity. Qed.

(** ** The state-and-exception monad *)

Lemma bindM_Ok {A B} (m : M A) (k : A -> M B) (w w' : world) (a : A) :
  m w = (Ok a, w') -> bindM m k w = k a w'.
Proof. unfold bindM. intros ->. reflexivity. Qed.

Lemma contains_char_append (c : ascii) (a b : string) :
  contains (String c "") (a ++ b)
  = contains (String c "") a || contains (String c "") b.
Proof.
  induction a as [|x a IH].
  - rewrite contains_nil. reflexivity.
  - change (String x a ++ b) with (String x (a ++ b)).
    rewrite !contains_cons, IH.
    assert (E : forall r, prefix (String c "") (String x r)
                          = if ascii_dec c x then true else false).
    { intros r. simpl. destruct (ascii_dec c x); [destruct r|]; reflexivity. }
    rewrite !E. apply orb_assoc.
Qed.

(** ** The gateway client *)

Section ClientProperties.

Variable cfg : Config.

(** [_request] on an answer of status 200 *)
Lemma _request_200 (self : InoreaderClient) (method endpoint : string)
  (params data : option (list (string * value))) (w : world) (r : response) :
  server w (List.length (sent w))
         (api_request cfg self method endpoint params data) = Responds r ->
  status r = 200%Z ->
  _request cfg self method endpoint params data w
  = (response_value r, logged (api_request cfg self method endpoint params data) w).
Proof.
  intros Hs H200. unfold _request, bindM, send. rewrite Hs, H200. reflexivity.
Qed.

(** [_request] on any other status *)
Lemma _request_not_200 (self : InoreaderClient) (method endpoint : string)
  (params data : option (list (string * value))) (w : world) (r : response) :
  server w (List.length (sent w))
         (api_request cfg self method endpoint params data) = Responds r ->
  status r <> 200%Z ->
  _request cfg self method endpoint params data w
  = (Raise (PyException ("API request failed: " ++ z2s (status r) ++ " - "
                         ++ text r)),
     logged (api_request cfg self method endpoint params data) w).
Proof.
  intros Hs Hn. unfold _request, bindM, send. rewrite Hs.
  apply Z.eqb_neq in Hn. rewrite Hn. reflexivity.
Qed.

(** Without a JSON content type the request layer hands back the text. *)
Lemma response_value_text (r : response) :
  contains "application/json"
           (match content_type r with Some c => c | None => "" end) = false ->
  response_value r = Ok (VStr (text r)).
Proof. unfold response_value. intros ->. reflexivity. Qed.

(** C5. When the request layer hands back text, [get_stream_contents]
    and [search] return the object whose item list is empty; when it hands
    back anything else they return it as it is. *)
Theorem raw_text_gives_empty_items
  (self : InoreaderClient) (w : world) (r : response) (v : value)
  (stream_id : option string) (count : Z) (exclude_read : bool)
  (newer_than : option Z) (query : string) :
  (forall rq, server w (List.length (sent w)) rq = Responds r) ->
  status r = 200%Z ->
  response_value r = Ok v ->
  (is_str v = true ->
     fst (get_stream_contents cfg self stream_id count exclude_read newer_than w)
     = Ok empty_items
     /\ fst (search cfg self query count newer_than w) = Ok empty_items
     /\ py_get empty_items "items" VNone = Ok (VList []))
  /\ (is_str v = false ->
       fst (get_stream_contents cfg self stream_id count exclude_read newer_than w)
       = Ok v
       /\ fst (search cfg self query count newer_than w) = Ok v).
Proof.
  intros Hs H200 Hv.
  assert (G : forall e p, _request cfg self "GET" e p None w
                          = (Ok v, logged (api_request cfg self "GET" e p None) w)).
  { intros e p. rewrite (_request_200 _ _ _ _ _ _ r), Hv; auto. }
  unfold get_stream_contents, search.
  split; intros E.
  - repeat split.
    + erewrite bindM_Ok by apply G. rewrite E. reflexivity.
    + erewrite bindM_Ok by apply G. rewrite E. reflexivity.
  - split.
    + erewrite bindM_Ok by apply G. rewrite E. reflexivity.
    + erewrite bindM_Ok by apply G. rewrite E. reflexivity.
Qed.

(** The request [client_mark_as_read] builds is the POST written out in
    [edit_tag_request]. *)
Lemma edit_tag_request_api (self : InoreaderClient) (c : list string) :
  api_request cfg self "POST" "edit-tag" None (Some (edit_tag_data c))
  = edit_tag_request cfg self c.
Proof. reflexivity. Qed.

(** C4, as the code has it. [client_mark_as_read] returns [True] for
    an empty list and sends nothing. For a list that is not empty it sends
    one POST to [edit-tag] whose form data are the ids under [i] and the tag
    [user/-/state/com.google/read] under [a], and on an answer of status 200
    it returns whether the value the request layer hands back is the string
    [OK]: the text of an answer without a JSON content type, the decoded
    value of a JSON answer. *)
Theorem client_mark_as_read_success (self : InoreaderClient) :
  (forall w, client_mark_as_read cfg self [] w = (Ok true, w))
  /\ (forall ids w r,
        ids <> [] ->
        server w (List.length (sent w)) (edit_tag_request cfg self ids)
        = Responds r ->
        status r = 200%Z ->
        (exists rq,
           sent (snd (client_mark_as_read cfg self ids w)) = app (sent w) [rq]
           /\ rq_method rq = "POST"
           /\ rq_url rq = base_url self ++ "/edit-tag"
           /\ rq_params rq = None
           /\ rq_data rq = Some [("i", VList (map VStr ids));
                                 ("a", VStr "user/-/state/com.google/read")])
        /\ (forall v, response_value r = Ok v ->
              fst (client_mark_as_read cfg self ids w) = Ok (eq_str v "OK")
              /\ (eq_str v "OK" = true <-> v = VStr "OK"))
        /\ (contains "application/json"
                     (match content_type r with Some c => c | None => "" end)
            = false ->
            exists b, fst (client_mark_as_read cfg self ids w) = Ok b
                      /\ (b = true <-> text r = "OK"))).
Proof.
  split; [reflexivity|].
  intros ids w r Hne Hs H200.
  assert (E : client_mark_as_read cfg self ids w
              = match response_value r with
                | Ok v => (Ok (eq_str v "OK"),
                           logged (edit_tag_request cfg self ids) w)
                | Raise e => (Raise e,
                              logged (edit_tag_request cfg self ids) w)
                end).
  { rewrite <- edit_tag_request_api in Hs |- *.
    destruct ids as [|i ids]; [congruence|].
    unfold client_mark_as_read, bindM.
    rewrite (_request_200 _ _ _ _ _ _ r) by assumption.
    destruct (response_value r); reflexivity. }
  rewrite E. split; [|split].
  - exists (edit_tag_request cfg self ids).
    split; [destruct (response_value r); reflexivity|].
    repeat apply conj; reflexivity.
  - intros v ->. split; [reflexivity|].
    destruct v; simpl; split; try discriminate; intros H.
    + apply String.eqb_eq in H. congruence.
    + inversion H. apply String.eqb_refl.
  - intros Hct. rewrite (response_value_text r Hct). simpl.
    exists (text r =? "OK")%string. split; [reflexivity|].
    apply String.eqb_eq.
Qed.

End ClientProperties.

(** Against C4 as stated: a JSON answer whose body is the text [OK]
    between double quotes is decoded to the string [OK] and counts as
    success, although the body is not the two letters [OK]. *)
Lemma mark_as_read_accepts_json_string :
  fst (client_mark_as_read sample_config (entered sample_config "G2UlCa")
         ["item-1"]
         (fresh_world (always (json_response quoted_ok (VStr "OK")))))
  = Ok true
  /\ text (json_response quoted_ok (VStr "OK")) <> "OK".
Proof. split; [reflexivity | discriminate]. Qed.

Lemma client_mark_as_read_success_witness :
  fst (client_mark_as_read sample_config (entered sample_config "G2UlCa")
         ["item-1"] (fresh_world (always (text_response 200 "OK"))))
  = Ok (eq_str (VStr "OK") "OK").
Proof.
  assert (Hne : ["item-1"] <> []) by discriminate.
  apply (proj1 (proj1 (proj2 (proj2 (client_mark_as_read_success sample_config
                                       (entered sample_config "G2UlCa"))
                                ["item-1"]
                                (fresh_world (always (text_response 200 "OK")))
                                (text_response 200 "OK") Hne eq_refl eq_refl))
                      (VStr "OK") eq_refl)).
Defined.

Lemma raw_text_gives_empty_items_witness :
  fst (get_stream_contents sample_config (entered sample_config "G2UlCa")
         None 20 true None (fresh_world (always (text_response 200 ""))))
  = Ok empty_items.
Proof.
  apply (proj1 (raw_text_gives_empty_items sample_config
                  (entered sample_config "G2UlCa")
                  (fresh_world (always (text_response 200 "")))
                  (text_response 200 "") (VStr "")
                  None 20 true None ""
                  (fun _ => eq_refl) eq_refl eq_refl)).
  reflexivity.
Defined.

(** ** The tool facade *)

Section FacadeProperties.

Variable rt : Runtime.
Variable cfg : Config.

Lemma try_except_recovers (prefix : string) (body : M string) :
  contains newline prefix = false ->
  recovers rt prefix body (try_except rt prefix body).
Proof.
  intros Hp w. unfold try_except.
  destruct (body w) as [[s|e] w'] eqn:E; simpl.
  - exists s. split; [reflexivity|]. split.
    + intros s' H. congruence.
    + intros e H. discriminate.
  - exists (prefix ++ str_exn rt e). split; [reflexivity|]. split.
    + intros s' H. discriminate.
    + intros e' H. inversion H; subst. split; [reflexivity|].
      intros Hd. unfold newline in *.
      rewrite contains_char_append, Hp, Hd. reflexivity.
Qed.

(** C2, as the code has it. Each of the six operations returns a
    string in every world and on every input, and never raises: the string
    of the body when the body returns, and on an exception [e] of the body
    the text [Error <verb>ing <noun>: ] followed by [str(e)]. The message is
    one line whenever [str(e)] is. *)
Theorem facade_recovers
  (limit days : Z) (feed_id : option string) (unread_only : bool)
  (query : string) (search_limit : Z) (search_days : option Z)
  (article_id : string) (article_ids : list string) :
  recovers rt "Error listing feeds: "
           (list_feeds_body rt cfg) (list_feeds rt cfg)
  /\ recovers rt "Error listing articles: "
              (list_articles_body rt cfg limit days feed_id unread_only)
              (list_articles rt cfg limit days feed_id unread_only)
  /\ recovers rt "Error searching articles: "
              (search_articles_body rt cfg query search_limit search_days)
              (search_articles rt cfg query search_limit search_days)
  /\ recovers rt "Error getting article content: "
              (get_content_body rt cfg article_id)
              (get_content rt cfg article_id)
  /\ recovers rt "Error marking articles as read: "
              (mark_as_read_body cfg article_ids)
              (mark_as_read rt cfg article_ids)
  /\ recovers rt "Error getting stats: "
              (get_stats_body rt cfg) (get_stats rt cfg).
Proof.
  repeat split; intros w; apply try_except_recovers; reflexivity.
Qed.

(** *** The scope of the session *)

(** When [__aenter__] raises, the statement ends there: the session it
    created stays open. *)
Lemma with_client_entry_failure {A} (body : InoreaderClient -> M A)
  (w : world) (e : exn) :
  fst (aenter (new_client cfg) w) = Raise e ->
  fst (with_client cfg body w) = Raise e
  /\ created (snd (with_client cfg body w)) = S (created w)
  /\ closed (snd (with_client cfg body w)) = closed w.
Proof.
  unfold with_client, aenter, bindM, open_session, _authenticate, bindM, send.
  cbn [fst snd sent server List.length logged].
  match goal with
  | |- context [match ?srv ?n ?rq with Responds _ => _ | Fails _ => _ end] =>
    destruct (srv n rq) as [r|e']
  end; cbn [fst snd].
  - destruct (negb (status r =? 200)%Z).
    + cbn. intros H. inversion H. auto.
    + destruct (auth_token _) as [t|]; cbn.
      * destruct (t =? "")%string; cbn; intros H; [|discriminate].
        inversion H. auto.
      * intros H. inversion H. auto.
  - cbn. intros H. inversion H. auto.
Qed.

(** Once [__aenter__] has returned, the session is closed however the
    body ends, and the outcome of the body is the outcome of the
    statement. *)
Lemma with_client_after_entry {A} (body : InoreaderClient -> M A)
  (w w1 : world) (self : InoreaderClient) :
  aenter (new_client cfg) w = (Ok self, w1) ->
  fst (with_client cfg body w) = fst (body self w1)
  /\ created (snd (with_client cfg body w)) = created (snd (body self w1))
  /\ closed (snd (with_client cfg body w)) = S (closed (snd (body self w1))).
Proof.
  intros H.
  assert (Hs : session self <> None).
  { revert H.
    unfold aenter, bindM, open_session, _authenticate, bindM, send.
    cbn [fst snd sent server List.length logged].
    match goal with
    | |- context [match ?srv ?n ?rq with Responds _ => _ | Fails _ => _ end] =>
      destruct (srv n rq) as [r|e']
    end; [|discriminate].
    destruct (negb (status r =? 200)%Z); [discriminate|].
    destruct (find_token _); cbn.
    - destruct (_ =? "")%string; cbn; [discriminate|].
      intros E. inversion E. cbn. discriminate.
    - discriminate. }
  unfold with_client. rewrite H.
  destruct (body self w1) as [res w2]. unfold aexit.
  destruct (session self); [|congruence]. cbn. auto.
Qed.

(** A failure on the way in, whatever it is, comes back as the text of
    the operation that was called. *)
Lemma facade_reports_entry_failure (w : world) (e : exn)
  (limit days : Z) (feed_id : option string) (unread_only : bool)
  (query : string) (search_limit : Z) (search_days : option Z)
  (article_id : string) (article_ids : list string) :
  fst (aenter (new_client cfg) w) = Raise e ->
  fst (list_feeds rt cfg w) = Ok ("Error listing feeds: " ++ str_exn rt e)
  /\ fst (list_articles rt cfg limit days feed_id unread_only w)
     = Ok ("Error listing articles: " ++ str_exn rt e)
  /\ fst (search_articles rt cfg query search_limit search_days w)
     = Ok ("Error searching articles: " ++ str_exn rt e)
  /\ fst (get_content rt cfg article_id w)
     = Ok ("Error getting article content: " ++ str_exn rt e)
  /\ (article_ids <> [] ->
      fst (mark_as_read rt cfg article_ids w)
      = Ok ("Error marking articles as read: " ++ str_exn rt e))
  /\ fst (get_stats rt cfg w) = Ok ("Error getting stats: " ++ str_exn rt e).
Proof.
  intros H.
  assert (G : forall (body : InoreaderClient -> M string) prefix,
             fst (try_except rt prefix (with_client cfg body) w)
             = Ok (prefix ++ str_exn rt e)).
  { intros body prefix. unfold try_except.
    destruct (with_client_entry_failure body w e H) as [Hb _].
    destruct (with_client cfg body w) as [r w']. simpl in Hb. subst r.
    reflexivity. }
  repeat split; try apply G.
  intros Hne. destruct article_ids; [congruence|]. apply G.
Qed.

End FacadeProperties.

(** Against C2 as stated: the text of a rejected login has two lines,
    and so has the message of [list_feeds]. *)
Lemma error_message_spans_lines :
  fst (list_feeds utc_runtime sample_config (fresh_world (always rejected_login)))
  = Ok ("Error listing feeds: Authentication failed: 401 - "
        ++ "Error=BadAuthentication" ++ newline ++ "Info=InvalidCredentials")
  /\ fst (list_feeds_body utc_runtime sample_config
            (fresh_world (always rejected_login)))
     = Raise (PyException ("Authentication failed: 401 - "
                           ++ "Error=BadAuthentication" ++ newline
                           ++ "Info=InvalidCredentials"))
  /\ split newline
           ("Error listing feeds: Authentication failed: 401 - "
            ++ "Error=BadAuthentication" ++ newline ++ "Info=InvalidCredentials")
     = ["Error listing feeds: Authentication failed: 401 - Error=BadAuthentication";
        "Info=InvalidCredentials"].
Proof. repeat split. Qed.

(** C7. With a rejected login [list_feeds] returns its error text and
    the session that [__aenter__] created is still open: one session
    created, none closed. *)
Theorem failed_login_leaves_session_open :
  fst (list_feeds utc_runtime sample_config (fresh_world (always rejected_login)))
  = Ok ("Error listing feeds: Authentication failed: 401 - "
        ++ "Error=BadAuthentication" ++ newline ++ "Info=InvalidCredentials")
  /\ created (snd (list_feeds utc_runtime sample_config
                     (fresh_world (always rejected_login)))) = 1
  /\ closed (snd (list_feeds utc_runtime sample_config
                    (fresh_world (always rejected_login)))) = 0.
Proof. repeat split. Qed.

(** With an accepted login and a failure inside the scope the session is
    closed. *)
Lemma failure_in_scope_closes_session :
  fst (list_feeds utc_runtime sample_config
         (fresh_world (after_login (text_response 500 "down"))))
  = Ok "Error listing feeds: API request failed: 500 - down"
  /\ created (snd (list_feeds utc_runtime sample_config
                     (fresh_world (after_login (text_response 500 "down"))))) = 1
  /\ closed (snd (list_feeds utc_runtime sample_config
                    (fresh_world (after_login (text_response 500 "down"))))) = 1.
Proof. repeat split. Qed.

(** ** Batches of ids *)

Lemma ceil_div_step (n size : nat) :
  0 < size -> 0 < n ->
  (n + size - 1) / size = S ((n - size + size - 1) / size).
Proof.
  intros Hs Hn. destruct (Nat.le_gt_cases size n) as [Hle|Hlt].
  - replace (n + size - 1) with ((n - size + size - 1) + 1 * size) by lia.
    rewrite Nat.div_add by lia. lia.
  - replace (n - size) with 0 by lia. simpl.
    rewrite (Nat.div_small (size - 1)) by lia.
    symmetry. apply (Nat.div_unique _ _ 1 (n - 1)); lia.
Qed.

Lemma range_step_cons (n size : nat) :
  0 < size -> 0 < n ->
  range_step n size = 0 :: map (fun i => i + size) (range_step (n - size) size).
Proof.
  intros Hs Hn. unfold range_step. rewrite ceil_div_step by assumption.
  cbn [seq map]. f_equal. rewrite <- seq_shift, !map_map.
  apply map_ext. intros k. lia.
Qed.

Lemma range_step_0 (size : nat) : 0 < size -> range_step 0 size = [].
Proof.
  intros Hs. unfold range_step. simpl.
  rewrite (Nat.div_small (size - 1)) by lia. reflexivity.
Qed.

Lemma slices_are_batches {A} (size fuel : nat) : 0 < size ->
  forall l : list A, List.length l <= fuel ->
  map (fun i => slice l i (i + size)) (range_step (List.length l) size)
  = batches_upto fuel size l.
Proof.
  intros Hs. induction fuel as [|f IH]; intros l Hl.
  - destruct l; [|simpl in Hl; lia]. simpl. rewrite range_step_0 by assumption. reflexivity.
  - destruct l as [|x l].
    + simpl. rewrite range_step_0 by assumption. reflexivity.
    + rewrite range_step_cons by (simpl; lia).
      cbn [map batches_upto]. f_equal.
      * unfold slice. rewrite Nat.add_0_l, Nat.sub_0_r. reflexivity.
      * rewrite <- (IH (skipn size (x :: l))) by (rewrite length_skipn; cbn [List.length] in *; lia).
        rewrite length_skipn, map_map. apply map_ext. intros i.
        unfold slice. rewrite skipn_skipn. f_equal. lia.
Qed.

Lemma chunk_list_batches {A} (l : list A) (size : Z) :
  (0 < size)%Z -> chunk_list l size = Ok (batches (Z.to_nat size) l).
Proof.
  intros Hs. unfold chunk_list.
  destruct (size =? 0)%Z eqn:E0; [apply Z.eqb_eq in E0; lia|].
  destruct (size <? 0)%Z eqn:E1; [apply Z.ltb_lt in E1; lia|].
  cbv zeta. f_equal. apply slices_are_batches; lia.
Qed.

Lemma concat_batches_upto {A} (size fuel : nat) : 0 < size ->
  forall l : list A, List.length l <= fuel -> List.concat (batches_upto fuel size l) = l.
Proof.
  intros Hs. induction fuel as [|f IH]; intros l Hl.
  - destruct l; [reflexivity | simpl in Hl; lia].
  - destruct l as [|x l]; [reflexivity|].
    cbn [batches_upto List.concat].
    rewrite IH by (rewrite length_skipn; cbn [List.length] in *; lia).
    apply firstn_skipn.
Qed.

Lemma batches_upto_nonempty {A} (size fuel : nat) : 0 < size ->
  forall l : list A, Forall (fun c => c <> [] /\ List.length c <= size) (batches_upto fuel size l).
Proof.
  intros Hs. induction fuel as [|f IH]; intros l.
  - constructor.
  - destruct l as [|x l]; [constructor|].
    cbn [batches_upto]. constructor; [|apply IH].
    split.
    + destruct size; [lia|]. discriminate.
    + rewrite length_firstn. lia.
Qed.

Lemma batches_upto_lengths {A} (size fuel : nat) : 0 < size ->
  forall l : list A, List.length l <= fuel ->
  map (@List.length A) (batches_upto fuel size l)
  = app (repeat size (List.length l / size))
        (if (List.length l mod size =? 0)%nat then []
           else [List.length l mod size]).
Proof.
  intros Hs. induction fuel as [|f IH]; intros l Hl.
  - destruct l; [|simpl in Hl; lia]. simpl. rewrite Nat.Div0.div_0_l, Nat.Div0.mod_0_l. reflexivity.
  - destruct l as [|x l].
    + simpl. rewrite Nat.Div0.div_0_l, Nat.Div0.mod_0_l. reflexivity.
    + cbn [batches_upto map].
      rewrite IH by (rewrite length_skipn; cbn [List.length] in *; lia).
      rewrite length_firstn, length_skipn.
      set (n := List.length (x :: l)).
      assert (Hn : 0 < n) by (subst n; simpl; lia).
      destruct (Nat.le_gt_cases size n) as [Hle|Hlt].
      * replace (Nat.min size n) with size by lia.
        assert (Hdiv : n / size = S ((n - size) / size)).
        { replace n with ((n - size) + 1 * size) at 1 by lia.
          rewrite Nat.div_add by lia. lia. }
        assert (Hmod : n mod size = (n - size) mod size).
        { replace n with ((n - size) + 1 * size) at 1 by lia.
          apply Nat.Div0.mod_add. }
        rewrite Hdiv, Hmod. reflexivity.
      * replace (Nat.min size n) with n by lia.
        replace (n - size) with 0 by lia.
        rewrite Nat.Div0.div_0_l, Nat.Div0.mod_0_l, Nat.div_small, Nat.mod_small by lia.
        simpl. destruct (Nat.eqb_spec n 0); [lia | reflexivity].
Qed.


Section BatchProperties.

Variable rt : Runtime.
Variable cfg : Config.

Lemma mark_chunk_run (self : InoreaderClient) (c : list string) (w : world)
  (acc : nat) (v : value) :
  c <> [] ->
  batch_answer (server w) cfg self (List.length (sent w)) c = Some v ->
  mark_chunk cfg self acc c w
  = (Ok (acc + (if eq_str v "OK" then List.length c else 0))%nat,
     logged (edit_tag_request cfg self c) w).
Proof.
  intros Hne Ha. unfold batch_answer in Ha.
  destruct (server w _ _) as [r|] eqn:Hs; [|discriminate].
  destruct (status r =? 200)%Z eqn:H200; [|discriminate].
  apply Z.eqb_eq in H200.
  destruct (response_value r) as [v'|] eqn:Hv; [|discriminate].
  inversion Ha; subst v'.
  destruct c as [|i c]; [congruence|].
  unfold mark_chunk, client_mark_as_read, bindM.
  rewrite <- edit_tag_request_api in Hs |- *.
  rewrite (_request_200 cfg _ _ _ _ _ _ r Hs H200), Hv. unfold ret.
  destruct (eq_str v "OK"); [reflexivity|].
  rewrite Nat.add_0_r. reflexivity.
Qed.

Lemma mark_chunks_run (self : InoreaderClient) (chunks : list (list string)) :
  forall (w : world) (acc : nat),
  Forall (fun c => c <> []) chunks ->
  all_answered (server w) cfg self (List.length (sent w)) chunks = true ->
  foldM (mark_chunk cfg self) acc chunks w
  = (Ok (acc + tally (server w) cfg self (List.length (sent w)) chunks)%nat,
     fold_left (fun w' c => logged (edit_tag_request cfg self c) w') chunks w).
Proof.
  induction chunks as [|c chunks IH]; intros w acc Hne Ha.
  - simpl. unfold ret. rewrite Nat.add_0_r. reflexivity.
  - inversion Hne as [|? ? Hc Hrest]; subst.
    cbn [all_answered] in Ha.
    destruct (batch_answer (server w) cfg self (List.length (sent w)) c)
      as [v|] eqn:Hv; [|discriminate].
    cbn [foldM]. unfold bindM.
    rewrite (mark_chunk_run self c w acc v Hc Hv).
    rewrite IH; [|assumption|].
    + cbn [fold_left tally]. unfold batch_ok. rewrite Hv.
      cbn [logged server sent]. rewrite length_app. cbn [List.length].
      rewrite Nat.add_1_r, Nat.add_assoc. reflexivity.
    + cbn [logged server sent]. rewrite length_app. cbn [List.length].
      rewrite Nat.add_1_r. exact Ha.
Qed.

Lemma sent_after_batches (self : InoreaderClient) (chunks : list (list string)) :
  forall w,
  sent (fold_left (fun w' c => logged (edit_tag_request cfg self c) w') chunks w)
  = app (sent w) (map (edit_tag_request cfg self) chunks).
Proof.
  induction chunks as [|c chunks IH]; intros w; cbn [fold_left map].
  - symmetry. apply app_nil_r.
  - rewrite IH. cbn [logged sent]. rewrite <- app_assoc. reflexivity.
Qed.

Lemma tally_le (srv : nat -> request -> outcome) (self : InoreaderClient)
  (chunks : list (list string)) :
  forall n, tally srv cfg self n chunks <= List.length (List.concat chunks).
Proof.
  induction chunks as [|c chunks IH]; intros n; cbn [tally List.concat].
  - lia.
  - rewrite length_app. specialize (IH (S n)).
    destruct (batch_ok srv cfg self n c); lia.
Qed.

Lemma aenter_ok (w : world) (tok : string) :
  login_gives cfg w tok ->
  aenter (new_client cfg) w
  = (Ok (entered cfg tok), logged (auth_request (new_client cfg)) (opened w)).
Proof.
  intros [r [Hs [H200 [Hf Hne]]]].
  unfold aenter, bindM, open_session, _authenticate, bindM, send.
  change (auth_request (set_session (new_client cfg) _))
    with (auth_request (new_client cfg)).
  cbn [opened server sent]. rewrite Hs, H200. cbn [Z.eqb Pos.eqb negb].
  rewrite Hf. cbn [set_auth_token auth_token].
  apply String.eqb_neq in Hne. rewrite Hne. reflexivity.
Qed.

Lemma batch_answer_result (srv : nat -> request -> outcome)
  (self : InoreaderClient) (n : nat) (c : list string) :
  batch_answer srv cfg self n c
  = match batch_result srv cfg self n c with
    | Ok v => Some v
    | Raise _ => None
    end.
Proof.
  unfold batch_answer, batch_result.
  destruct (srv n _) as [r|e]; [|reflexivity].
  destruct (status r =? 200)%Z; [|reflexivity].
  destruct (response_value r); reflexivity.
Qed.

(** A batch whose call raises ends the turn of the loop with the
    exception, after the request has gone out. *)
Lemma mark_chunk_fail (self : InoreaderClient) (c : list string) (w : world)
  (acc : nat) (e : exn) :
  c <> [] ->
  batch_result (server w) cfg self (List.length (sent w)) c = Raise e ->
  mark_chunk cfg self acc c w
  = (Raise e, logged (edit_tag_request cfg self c) w).
Proof.
  intros Hne Hr. unfold batch_result in Hr.
  rewrite <- edit_tag_request_api in Hr |- *.
  destruct c as [|i c]; [congruence|].
  unfold mark_chunk, client_mark_as_read, bindM, _request, bindM, send.
  destruct (server w _ _) as [r|e']; [|inversion Hr; reflexivity].
  destruct (status r =? 200)%Z; cbn [negb].
  - unfold lift. rewrite Hr. reflexivity.
  - unfold raise. inversion Hr. reflexivity.
Qed.

Lemma first_failure_exists (srv : nat -> request -> outcome)
  (self : InoreaderClient) (chunks : list (list string)) :
  forall n,
  all_answered srv cfg self n chunks = false ->
  exists j e, first_failure srv cfg self n chunks = Some (j, e)
              /\ j < List.length chunks.
Proof.
  induction chunks as [|c chunks IH]; intros n H; cbn [all_answered] in H.
  - discriminate.
  - cbn [first_failure List.length]. rewrite batch_answer_result in H.
    destruct (batch_result srv cfg self n c) as [v|e].
    + destruct (IH (S n) H) as [j [e [-> Hj]]]. exists (S j), e.
      split; [reflexivity | lia].
    + exists 0, e. split; [reflexivity | lia].
Qed.

(** The loop up to the first batch whose call raises: the batches before
    it and the batch itself have been sent, the later ones have not. *)
Lemma mark_chunks_fail (self : InoreaderClient) (chunks : list (list string)) :
  forall (w : world) (acc j : nat) (e : exn),
  Forall (fun c => c <> []) chunks ->
  first_failure (server w) cfg self (List.length (sent w)) chunks
  = Some (j, e) ->
  foldM (mark_chunk cfg self) acc chunks w
  = (Raise e,
     fold_left (fun w' c => logged (edit_tag_request cfg self c) w')
               (firstn (S j) chunks) w).
Proof.
  induction chunks as [|c chunks IH]; intros w acc j e Hne Hf.
  - discriminate.
  - inversion Hne as [|? ? Hc Hrest]; subst.
    cbn [first_failure] in Hf. cbn [foldM]. unfold bindM.
    destruct (batch_result (server w) cfg self (List.length (sent w)) c)
      as [v|e'] eqn:Hr.
    + assert (Ha : batch_answer (server w) cfg self (List.length (sent w)) c
                   = Some v) by (rewrite batch_answer_result, Hr; reflexivity).
      rewrite (mark_chunk_run self c w acc v Hc Ha).
      destruct (first_failure (server w) cfg self (S (List.length (sent w)))
                              chunks) as [[j' e'']|] eqn:Hf'; [|discriminate].
      inversion Hf; subst j e''. cbn [firstn fold_left].
      apply IH; [assumption|].
      cbn [logged server sent]. rewrite length_app. cbn [List.length].
      rewrite Nat.add_1_r. exact Hf'.
    + inversion Hf; subst j e'.
      rewrite (mark_chunk_fail self c w acc e Hc Hr). reflexivity.
Qed.

(** C3, as the code has it. For a list of ids that is not empty, once
    the login is accepted: the ids are cut into consecutive batches of 20
    with the rest in the last batch, and each batch is an [edit-tag] POST of
    its ids with the read-state tag. When every batch call returns, one POST
    per batch goes out after the login in the order of the batches, the count
    [k] adds the size of every batch whose call reports success, and the text
    says that all [n] were marked when [k = n], "Marked k out of n articles
    as read." when [0 < k < n], and that marking failed when [k = 0]. When the
    call of a batch raises, the batches after it are not sent and the text is
    the one of the handler, whatever the count was. *)
Theorem mark_as_read_batches (ids : list string) (w : world) (tok : string) :
  ids <> [] ->
  login_gives cfg w tok ->
  let chunks := batches 20 ids in
  let n := List.length ids in
  let self := entered cfg tok in
  let first := S (List.length (sent w)) in
  let k := tally (server w) cfg self first chunks in
  chunk_list ids 20 = Ok chunks
  /\ List.concat chunks = ids
  /\ map (@List.length string) chunks
     = app (repeat 20 (n / 20)) (if (n mod 20 =? 0)%nat then [] else [n mod 20])
  /\ (forall c,
        rq_method (edit_tag_request cfg self c) = "POST"
        /\ rq_url (edit_tag_request cfg self c)
           = INOREADER_BASE_URL cfg ++ "/edit-tag"
        /\ rq_data (edit_tag_request cfg self c)
           = Some [("i", VList (map VStr c));
                   ("a", VStr "user/-/state/com.google/read")])
  /\ k <= n
  /\ (all_answered (server w) cfg self first chunks = true ->
      sent (snd (mark_as_read rt cfg ids w))
      = app (sent w)
            (auth_request (new_client cfg)
               :: map (edit_tag_request cfg self) chunks)
      /\ (k = n ->
          fst (mark_as_read rt cfg ids w)
          = Ok ("Successfully marked " ++ z2s (Z.of_nat n)
                ++ " article(s) as read."))
      /\ (0 < k < n ->
          fst (mark_as_read rt cfg ids w)
          = Ok ("Marked " ++ z2s (Z.of_nat k) ++ " out of " ++ z2s (Z.of_nat n)
                ++ " articles as read."))
      /\ (k = 0 ->
          fst (mark_as_read rt cfg ids w)
          = Ok "Failed to mark articles as read."))
  /\ (all_answered (server w) cfg self first chunks = false ->
      exists j e,
        first_failure (server w) cfg self first chunks = Some (j, e)
        /\ j < List.length chunks
        /\ sent (snd (mark_as_read rt cfg ids w))
           = app (sent w)
                 (auth_request (new_client cfg)
                    :: map (edit_tag_request cfg self) (firstn (S j) chunks))
        /\ fst (mark_as_read rt cfg ids w)
           = Ok ("Error marking articles as read: " ++ str_exn rt e)).
Proof.
  intros Hne Hlogin chunks n self first k.
  assert (Hchunk : chunk_list ids 20 = Ok chunks)
    by (apply (chunk_list_batches ids 20); lia).
  assert (Hcat : List.concat chunks = ids)
    by (apply concat_batches_upto; [lia | apply Nat.le_refl]).
  assert (Hk : k <= n).
  { assert (E : n = List.length (List.concat chunks))
      by (rewrite Hcat; reflexivity).
    rewrite E. apply tally_le. }
  assert (Hfull : Forall (fun c : list string => c <> []) chunks).
  { eapply Forall_impl; [|apply batches_upto_nonempty; lia].
    intros c [Hc _]. exact Hc. }
  set (w1 := logged (auth_request (new_client cfg)) (opened w)).
  assert (Hw1 : List.length (sent w1) = first).
  { subst w1 first. cbn [logged opened server sent]. rewrite length_app.
    cbn [List.length]. apply Nat.add_1_r. }
  split; [exact Hchunk|]. split; [exact Hcat|]. split.
  { apply batches_upto_lengths; [lia | apply Nat.le_refl]. }
  split; [intros c; repeat apply conj; reflexivity|].
  split; [exact Hk|]. split.
  - intros Hans.
    set (w2 := fold_left (fun w' c => logged (edit_tag_request cfg self c) w')
                         chunks w1).
    assert (Hrun : foldM (mark_chunk cfg self) 0 chunks w1 = (Ok k, w2)).
    { subst k w2. rewrite (mark_chunks_run self chunks w1 0).
      - rewrite Hw1. reflexivity.
      - exact Hfull.
      - rewrite Hw1. exact Hans. }
    assert (Hop : mark_as_read rt cfg ids w
                  = ((if (k =? n)%nat
                      then Ok ("Successfully marked " ++ z2s (Z.of_nat k)
                               ++ " article(s) as read.")
                      else if (0 <? k)%nat
                      then Ok ("Marked " ++ z2s (Z.of_nat k) ++ " out of "
                               ++ z2s (Z.of_nat n) ++ " articles as read.")
                      else Ok "Failed to mark articles as read."),
                     released w2)).
    { unfold mark_as_read, try_except, mark_as_read_body.
      destruct ids as [|i ids']; [congruence|].
      unfold with_client. rewrite (aenter_ok w tok Hlogin). fold w1 self.
      unfold bindM at 1. unfold lift. rewrite Hchunk.
      unfold bindM at 1. rewrite Hrun. fold n.
      unfold aexit. subst self. cbn [entered set_auth_token set_session session].
      unfold close_session, ret.
      destruct (k =? n)%nat; [reflexivity|].
      destruct (0 <? k)%nat; reflexivity. }
    rewrite Hop. cbn [fst snd]. split.
    { cbn [released sent]. subst w2.
      rewrite sent_after_batches. subst w1. cbn [logged opened sent].
      rewrite <- app_assoc. reflexivity. }
    split; [|split].
    + intros E. rewrite E, Nat.eqb_refl. reflexivity.
    + intros [H0 Hlt].
      destruct (Nat.eqb_spec k n); [lia|].
      destruct (Nat.ltb_spec 0 k); [reflexivity | lia].
    + intros E.
      assert (Hn : 0 < n) by (subst n; destruct ids; [congruence | simpl; lia]).
      destruct (Nat.eqb_spec k n); [lia|].
      destruct (Nat.ltb_spec 0 k); [lia | reflexivity].
  - intros Hans.
    destruct (first_failure_exists (server w) self chunks first Hans)
      as [j [e [Hf Hj]]].
    exists j, e. split; [exact Hf|]. split; [exact Hj|].
    set (w2 := fold_left (fun w' c => logged (edit_tag_request cfg self c) w')
                         (firstn (S j) chunks) w1).
    assert (Hrun : foldM (mark_chunk cfg self) 0 chunks w1 = (Raise e, w2)).
    { subst w2. apply mark_chunks_fail; [exact Hfull|].
      rewrite Hw1. exact Hf. }
    assert (Hop : mark_as_read rt cfg ids w
                  = (Ok ("Error marking articles as read: " ++ str_exn rt e),
                     released w2)).
    { unfold mark_as_read, try_except, mark_as_read_body.
      destruct ids as [|i ids']; [congruence|].
      unfold with_client. rewrite (aenter_ok w tok Hlogin). fold w1 self.
      unfold bindM at 1. unfold lift. rewrite Hchunk.
      unfold bindM at 1. rewrite Hrun.
      unfold aexit. subst self. cbn [entered set_auth_token set_session session].
      unfold close_session. reflexivity. }
    rewrite Hop. cbn [fst snd]. split; [|reflexivity].
    cbn [released sent]. subst w2.
    rewrite sent_after_batches. subst w1. cbn [logged opened sent].
    rewrite <- app_assoc. reflexivity.
Qed.

End BatchProperties.

Lemma mark_as_read_batches_witness :
  fst (mark_as_read utc_runtime sample_config ids_25
         (fresh_world second_batch_fails))
  = Ok "Marked 20 out of 25 articles as read."
  /\ map (@List.length string) (batches 20 ids_25) = [20; 5].
Proof.
  assert (Hne : ids_25 <> []) by discriminate.
  assert (Hlogin : login_gives sample_config (fresh_world second_batch_fails)
                               "G2UlCa").
  { exists login_ok. repeat split. discriminate. }
  destruct (mark_as_read_batches utc_runtime sample_config ids_25
              (fresh_world second_batch_fails) "G2UlCa" Hne Hlogin)
    as [_ [_ [Hlen [_ [_ [Hall _]]]]]].
  destruct (Hall eq_refl) as [_ [_ [Hpart _]]].
  split.
  - apply Hpart. vm_compute. split; lia.
  - exact Hlen.
Defined.

(** Against C3 as stated: when the call of the second batch fails, here
    on status 500, the 20 ids of the first batch have been marked and counted,
    and yet the text is the one of the handler and not
    [Marked 20 out of 25 articles as read.] *)
Lemma mark_as_read_batch_error :
  tally second_batch_errors sample_config (entered sample_config "G2UlCa") 1
        (batches 20 ids_25) = 20
  /\ List.length ids_25 = 25
  /\ fst (mark_as_read utc_runtime sample_config ids_25
            (fresh_world second_batch_errors))
     = Ok ("Error marking articles as read: "
           ++ "API request failed: 500 - Internal Server Error")
  /\ fst (mark_as_read utc_runtime sample_config ids_25
            (fresh_world second_batch_errors))
     <> Ok "Marked 20 out of 25 articles as read.".
Proof.
  split; [vm_compute; reflexivity|]. split; [reflexivity|].
  split; [vm_compute; reflexivity|].
  intros H. vm_compute in H. discriminate H.
Qed.

(** ** [get_stats] *)

(** *** Stable insertion sort *)

Section SortBy.

Variable A : Type.
Variable le : A -> A -> bool.
Hypothesis le_total : forall a b, le a b = true \/ le b a = true.

Lemma insert_by_perm (x : A) (l : list A) :
  Permutation (x :: l) (insert_by le x l).
Proof.
  induction l as [|y l IH]; simpl.
  - apply Permutation_refl.
  - destruct (le x y).
    + apply Permutation_refl.
    + eapply perm_trans; [apply perm_swap|]. apply perm_skip. exact IH.
Qed.

Lemma sort_by_perm (l : list A) : Permutation l (sort_by le l).
Proof.
  induction l as [|x l IH]; simpl.
  - constructor.
  - eapply perm_trans; [apply perm_skip; exact IH|]. apply insert_by_perm.
Qed.

Lemma insert_by_sorted (x : A) (l : list A) :
  Sorted (fun a b => le a b = true) l ->
  Sorted (fun a b => le a b = true) (insert_by le x l).
Proof.
  induction 1 as [|y l Hs IH Hhd]; simpl.
  - repeat constructor.
  - destruct (le x y) eqn:E.
    + constructor; [constructor; assumption|]. constructor. exact E.
    + constructor; [exact IH|].
      destruct l as [|z l]; simpl.
      * constructor. destruct (le_total x y); congruence.
      * destruct (le x z).
        -- constructor. destruct (le_total x y); congruence.
        -- inversion Hhd; subst. constructor. assumption.
Qed.

Lemma sort_by_sorted (l : list A) :
  Sorted (fun a b => le a b = true) (sort_by le l).
Proof.
  induction l as [|x l IH]; simpl.
  - constructor.
  - apply insert_by_sorted. exact IH.
Qed.

End SortBy.

Lemma count_ge_total (a b : stat) :
  count_ge a b = true \/ count_ge b a = true.
Proof.
  unfold count_ge.
  destruct (Z.leb_spec (count_key b) (count_key a)); [left; reflexivity|].
  right. apply Z.leb_le. lia.
Qed.

(** The feeds shown are the ten first of the retained entries put in
    descending order of count. *)
Lemma top_feeds_sorted (feed_stats : list stat) :
  Sorted (fun a b => (count_key b <= count_key a)%Z) (sort_by count_ge feed_stats)
  /\ Permutation feed_stats (sort_by count_ge feed_stats)
  /\ List.length (firstn 10 (sort_by count_ge feed_stats)) <= 10.
Proof.
  split; [|split].
  - pose proof (sort_by_sorted stat count_ge count_ge_total feed_stats) as H.
    induction H as [|a l Hs IH Hhd]; constructor; auto.
    destruct Hhd as [|b l Hab]; constructor. apply Z.leb_le. exact Hab.
  - apply sort_by_perm.
  - rewrite length_firstn. lia.
Qed.


(** [replace] leaves a text without an occurrence as it is. *)
Lemma remove_aux_absent (old s : string) :
  contains old s = false -> remove_aux old 0 s = s.
Proof.
  induction s as [|c s IH]; intros H.
  - reflexivity.
  - rewrite contains_cons in H. apply orb_false_iff in H. destruct H as [Hp Hc].
    cbn [remove_aux]. rewrite Hp, IH by assumption. reflexivity.
Qed.

(** When [feed/] occurs in front only, the name is what follows it, or
    what follows the last [://] of that. *)
Lemma feed_name_prefix_only (rest : string) :
  contains "feed/" rest = false ->
  feed_name ("feed/" ++ rest)
  = if contains "://" rest then last (split "://" rest) rest else rest.
Proof.
  intros H. unfold feed_name, replace_with_empty.
  assert (E : remove_aux "feed/" 0 ("feed/" ++ rest) = rest).
  { cbn. replace (prefix "" rest) with true by (destruct rest; reflexivity).
    apply remove_aux_absent. exact H. }
  rewrite E. reflexivity.
Qed.

(** C8. For a feed whose id is [feed/http://example.com/feed/rss] with
    3 unread articles [get_stats] shows the name [example.com/rss]:
    [replace] has taken out the [feed/] inside the address as well as the
    one in front. *)
Theorem get_stats_strips_inner_feed :
  fst (get_stats utc_runtime sample_config
         (fresh_world (after_login (json_response stats_body stats_answer))))
  = Ok ("**Inoreader Statistics:**" ++ newline ++ newline
        ++ "Total unread articles: 3" ++ newline ++ newline
        ++ "Top feeds with unread articles:" ++ newline
        ++ "- example.com/rss: 3 unread" ++ newline)
  /\ feed_name "feed/http://example.com/feed/rss" = "example.com/rss"
  /\ feed_name "feed/http://example.com/feed/rss" <> "example.com/feed/rss".
Proof. repeat split. discriminate. Qed.

(** ** The operations end to end *)

(** Feeds are listed by title without regard to case. *)
Example list_feeds_sorts_titles :
  fst (list_feeds utc_runtime sample_config
         (fresh_world (after_login (decoded two_subscriptions))))
  = Ok ("Found 2 feeds:" ++ newline ++ newline
        ++ "1. Alpha" ++ newline
        ++ "   URL: https://a.example/rss" ++ newline ++ newline
        ++ "2. beta" ++ newline
        ++ "   Categories: Tech" ++ newline
        ++ "   URL: https://b.example/feed" ++ newline).
Proof. vm_compute. reflexivity. Qed.

(** An id without an item gives the not-found text with the id in it. *)
Example get_content_not_found :
  fst (get_content utc_runtime sample_config "item-9"
         (fresh_world (after_login (decoded (VDict [("items", VList [])])))))
  = Ok "Article with ID item-9 not found.".
Proof. vm_compute. reflexivity. Qed.

(** An answer that is text counts as no articles; the text names the
    filters in force. *)
Example list_articles_none_found :
  fst (list_articles utc_runtime sample_config 20 7 (Some "feed/1") true
         (fresh_world (after_login (text_response 200 ""))))
  = Ok "No articles found unread from the last 7 days in feed feed/1.".
Proof. vm_compute. reflexivity. Qed.

Example mark_as_read_no_ids :
  mark_as_read utc_runtime sample_config []
    (fresh_world (after_login (text_response 200 "OK")))
  = (Ok "No article IDs provided.",
     fresh_world (after_login (text_response 200 "OK"))).
Proof. reflexivity. Qed.

(** * Further properties of the code *)

(** ** [utils.py] *)

Section MoreNormalizer.

Variable rt : Runtime.

(** X1. [parse_article] returns an article for every item that has the
    shape of the raw data model, whichever fields are absent; for an item
    that is not an object the first [item.get] raises [AttributeError]. *)
Theorem parse_article_accepts_model_items :
  (forall d, wf_item rt d = true -> exists a, parse_article rt (VDict d) = Ok a)
  /\ (forall item, is_dict item = false ->
        parse_article rt item = Raise (AttributeError item "get")).
Proof.
  split.
  - intros d H. apply parse_article_total. exact H.
  - intros item H. destruct item; try reflexivity. discriminate.
Qed.

Lemma parse_article_plain_fields (d : list (string * value)) (a : article) :
  parse_article rt (VDict d) = Ok a ->
  a_id a = dict_get d "id" (VStr "")
  /\ published a = dict_get d "published" (VInt 0)
  /\ py_get (dict_get d "origin" (VDict [])) "streamId" (VStr "")
     = Ok (feed_id a).
Proof.
  unfold parse_article. intros H. repeat bind_inv H.
  inversion H; subst; simpl. repeat split. assumption.
Qed.

(** X2. The defaults of [parse_article]: an absent [id] gives [""], an
    absent [title] gives ["No title"], an absent [author] gives ["Unknown"],
    an absent [published] gives 0 and no date, an absent [origin] gives
    ["Unknown feed"] and [""], absent [categories] give none and an unread
    article, absent [alternate] and [summary] give [None]; a field that is
    present is copied as it is, whatever its value. *)
Theorem parse_article_defaults (d : list (string * value)) (a : article) :
  parse_article rt (VDict d) = Ok a ->
  (assoc "id" d = None -> a_id a = VStr "")
  /\ (assoc "title" d = None -> a_title a = VStr "No title")
  /\ (assoc "author" d = None -> author a = VStr "Unknown")
  /\ (assoc "published" d = None ->
      published a = VInt 0 /\ published_date a = VNone)
  /\ (assoc "origin" d = None ->
      feed_title a = VStr "Unknown feed" /\ feed_id a = VStr "")
  /\ (assoc "categories" d = None -> categories a = [] /\ is_read a = false)
  /\ (assoc "alternate" d = None -> url a = VNone)
  /\ (assoc "summary" d = None -> summary a = VNone)
  /\ (forall v, assoc "id" d = Some v -> a_id a = v)
  /\ (forall v, assoc "title" d = Some v -> a_title a = v)
  /\ (forall v, assoc "author" d = Some v -> author a = v).
Proof.
  intros Hp.
  destruct (parse_article_fields rt d a Hp)
    as [cs [Hi [Hr [Hc [Hd [Hu [Hs [Hft [Ht Ha]]]]]]]]].
  destruct (parse_article_plain_fields d a Hp) as [Hid [Hpub Hfid]].
  unfold dict_get in *.
  repeat apply conj.
  - intros E. rewrite E in Hid. exact Hid.
  - intros E. rewrite E in Ht. exact Ht.
  - intros E. rewrite E in Ha. exact Ha.
  - intros E. rewrite E in Hpub, Hd. simpl in Hd. inversion Hd. auto.
  - intros E. rewrite E in Hft, Hfid. simpl in Hft, Hfid.
    inversion Hft. inversion Hfid. auto.
  - intros E. rewrite E in Hi. simpl in Hi. inversion Hi; subst.
    simpl in Hr. inversion Hr. auto.
  - intros E. rewrite E in Hu. inversion Hu. reflexivity.
  - intros E. rewrite E in Hs. inversion Hs. reflexivity.
  - intros v E. rewrite E in Hid. exact Hid.
  - intros v E. rewrite E in Ht. exact Ht.
  - intros v E. rewrite E in Ha. exact Ha.
Qed.

Lemma length_substring_0 (n : nat) (s : string) :
  length (substring 0 n s) = Nat.min n (length s).
Proof.
  rewrite <- !length_list_ascii, substring_0_firstn, length_firstn.
  reflexivity.
Qed.

Lemma length_truncate_summary (s : string) :
  length (truncate_summary s) <= 503
  /\ length (truncate_summary s) <= length s + 3.
Proof.
  unfold truncate_summary.
  destruct (Nat.ltb_spec 500 (length s)).
  - rewrite length_append, length_substring_0.
    change (length "...") with 3. lia.
  - lia.
Qed.

Lemma length_sub_tags (s : string) :
  forall n, length (sub_tags n s) <= length s.
Proof.
  induction s as [|c s IH]; intros n.
  - reflexivity.
  - cbn [sub_tags]. destruct n as [|n].
    + destruct (tag_match (String c s)).
      * specialize (IH (n - 1)). cbn [length]. lia.
      * cbn [length]. specialize (IH 0). lia.
    + specialize (IH n). cbn [length]. lia.
Qed.

Lemma sub_tags_no_lt (s : string) :
  no_lt s = true -> sub_tags 0 s = s.
Proof.
  induction s as [|c s IH]; intros H.
  - reflexivity.
  - cbn [no_lt] in H. apply andb_true_iff in H. destruct H as [Hc Hs].
    apply negb_true_iff in Hc.
    pose proof (re_sub_tags_char c s Hc) as E. unfold re_sub_tags in E.
    rewrite E, IH by assumption. reflexivity.
Qed.

(** X3. Stripping the tags never makes a text longer, and a text
    without ['<'] comes back unchanged. *)
Theorem re_sub_tags_shrinks (s : string) :
  length (re_sub_tags s) <= length s
  /\ (no_lt s = true -> re_sub_tags s = s).
Proof.
  split.
  - apply length_sub_tags.
  - apply sub_tags_no_lt.
Qed.

(** X4. The summary of a parsed article is [None] when the item has no
    [summary], and otherwise a text of at most 503 characters that is at
    most 3 characters longer than the raw content. *)
Theorem summary_is_bounded (d : list (string * value)) (a : article) :
  parse_article rt (VDict d) = Ok a ->
  (assoc "summary" d = None /\ summary a = VNone)
  \/ (exists sm content stored,
        assoc "summary" d = Some (VDict sm)
        /\ dict_get sm "content" (VStr "") = VStr content
        /\ summary a = VStr stored
        /\ length stored <= 503
        /\ length stored <= length content + 3).
Proof.
  intros Hp.
  destruct (parse_article_fields rt d a Hp) as [cs [_ [_ [_ [_ [_ [Hs _]]]]]]].
  destruct (assoc "summary" d) as [sm|] eqn:E.
  - right. unfold parse_summary in Hs. bind_inv Hs.
    destruct sm; try discriminate. simpl in Hm. inversion Hm; subst x.
    destruct (dict_get kvs "content" (VStr "")) eqn:Ec; try discriminate.
    inversion Hs as [Hsum].
    exists kvs, s, (truncate_summary (re_sub_tags s)).
    destruct (length_truncate_summary (re_sub_tags s)) as [H1 H2].
    pose proof (length_sub_tags s 0) as H3. fold (re_sub_tags s) in H3.
    repeat apply conj; auto; lia.
  - left. inversion Hs. split; reflexivity.
Qed.

End MoreNormalizer.

(** X5. For a list of objects [extract_item_ids] gives the true
    [id]s in the order of the articles, leaving out articles whose [id] is
    absent, [None], empty or 0; an entry that is not an object raises
    [AttributeError]. *)
Theorem extract_item_ids_of_dicts (articles : list value) :
  (forallb is_dict articles = true ->
     extract_item_ids articles = Ok (filter truthy (map id_of articles)))
  /\ (forallb is_dict articles = false ->
        exists v, extract_item_ids articles = Raise (AttributeError v "get")).
Proof.
  induction articles as [|art rest [IH1 IH2]]; split; intros H.
  - reflexivity.
  - discriminate.
  - cbn [forallb] in H. apply andb_true_iff in H. destruct H as [Ha Hr].
    destruct art; try discriminate.
    cbn [extract_item_ids py_get bind map id_of filter].
    unfold py_getitem, dict_get.
    destruct (assoc "id" kvs) as [v|] eqn:E.
    + destruct (truthy v); rewrite (IH1 Hr); reflexivity.
    + cbn [truthy]. apply IH1. exact Hr.
  - cbn [forallb] in H. destruct art;
      try (eexists; reflexivity).
    cbn [is_dict andb] in H.
    destruct (IH2 H) as [v Hv].
    cbn [extract_item_ids py_get bind]. unfold py_getitem, dict_get.
    destruct (assoc "id" kvs) as [x|] eqn:E.
    + destruct (truthy x); rewrite Hv; simpl; eauto.
    + cbn [truthy]. eauto.
Qed.

(** X6. For a positive size [chunk_list] returns chunks whose
    concatenation is the list; no chunk is empty or longer than the size,
    all chunks but the last have exactly the size and the last holds the
    remainder. *)
Theorem chunk_list_partitions {A} (l : list A) (size : Z) :
  (0 < size)%Z ->
  exists chunks,
    chunk_list l size = Ok chunks
    /\ List.concat chunks = l
    /\ Forall (fun c => c <> [] /\ List.length c <= Z.to_nat size) chunks
    /\ map (@List.length A) chunks
       = app (repeat (Z.to_nat size) (List.length l / Z.to_nat size))
             (if (List.length l mod Z.to_nat size =? 0)%nat then []
              else [List.length l mod Z.to_nat size]).
Proof.
  intros H. exists (batches (Z.to_nat size) l).
  split; [apply chunk_list_batches; exact H|].
  unfold batches. split; [|split].
  - apply concat_batches_upto; lia.
  - apply batches_upto_nonempty. lia.
  - apply batches_upto_lengths; lia.
Qed.

(** X7. The edges of [chunk_list]: size 0 raises [ValueError] (the
    step of [range]), a negative size gives no chunk at all, so the elements
    are dropped, and a size of at least the length of a list that is not
    empty gives the list as its only chunk. *)
Theorem chunk_list_edges {A} (l : list A) :
  chunk_list l 0 = Raise (ValueError "range" (VInt 0))
  /\ (forall size, (size < 0)%Z -> chunk_list l size = Ok [])
  /\ (forall size, l <> [] -> (Z.of_nat (List.length l) <= size)%Z ->
        chunk_list l size = Ok [l]).
Proof.
  split; [reflexivity|]. split.
  - intros size H. unfold chunk_list.
    destruct (Z.eqb_spec size 0); [lia|].
    destruct (Z.ltb_spec size 0); [reflexivity | lia].
  - intros size Hne Hle.
    rewrite chunk_list_batches by (destruct l; [congruence | simpl in Hle; lia]).
    unfold batches. destruct l as [|x l]; [congruence|].
    cbn [List.length batches_upto].
    rewrite firstn_all2 by lia. rewrite skipn_all2 by lia.
    destruct (List.length l); reflexivity.
Qed.

Section MoreFormatter.

Variable rt : Runtime.

Lemma article_block_length (articles : list article) :
  forall i, List.length (article_block rt i articles) = 5 * List.length articles.
Proof.
  induction articles as [|a r IH]; intros i.
  - reflexivity.
  - cbn [article_block]. rewrite length_app, IH.
    cbn [article_lines List.length]. lia.
Qed.

Lemma article_block_nth (articles : list article) :
  forall i k a,
  nth_error articles k = Some a ->
  firstn 5 (skipn (5 * k) (article_block rt i articles))
  = article_lines rt (i + k) a.
Proof.
  induction articles as [|b r IH]; intros i k a H.
  - destruct k; discriminate.
  - destruct k as [|k].
    + inversion H; subst. rewrite Nat.add_0_r. reflexivity.
    + cbn [nth_error] in H.
      replace (5 * S k) with (5 * k + 5) by lia.
      rewrite <- skipn_skipn.
      replace (i + S k) with (S i + k) by lia.
      rewrite <- (IH (S i) k a H). reflexivity.
Qed.

(** X8. [format_article_list] gives ["No articles found."] for no
    article and otherwise five lines per article joined by newlines; the
    lines of the [k]-th article are its number [k + 1] with the read mark
    and the title, the feed, the date, the link or [No URL available], and
    an empty line. *)
Theorem format_article_list_layout (articles : list article) :
  (articles = [] -> format_article_list rt articles = "No articles found.")
  /\ (articles <> [] ->
      format_article_list rt articles
      = String.concat newline (article_block rt 1 articles))
  /\ List.length (article_block rt 1 articles) = 5 * List.length articles
  /\ (forall k a, nth_error articles k = Some a ->
        firstn 5 (skipn (5 * k) (article_block rt 1 articles))
        = [ z2s (Z.of_nat (1 + k)) ++ ". "
              ++ (if is_read a then glyph_read else glyph_unread)
              ++ " " ++ py_str rt (a_title a);
            "   Feed: " ++ py_str rt (feed_title a);
            "   Date: " ++ py_str rt (published_date a);
            (if truthy (url a) then "   Link: " ++ py_str rt (url a)
             else "   Link: No URL available");
            "" ]).
Proof.
  repeat apply conj.
  - intros ->. reflexivity.
  - intros H. destruct articles; [congruence | reflexivity].
  - apply article_block_length.
  - intros k a H. rewrite (article_block_nth articles 1 k a H). reflexivity.
Qed.

(** X9. An item without a true [published] is listed with the line
    [   Date: None], and one without [alternate] with the line
    [   Link: No URL available]. *)
Theorem undated_item_is_listed_with_None
  (d : list (string * value)) (a : article) (i : nat) :
  parse_article rt (VDict d) = Ok a ->
  (truthy (dict_get d "published" VNone) = false ->
     nth 2 (article_lines rt i a) "" = "   Date: None")
  /\ (assoc "alternate" d = None ->
      nth 3 (article_lines rt i a) "" = "   Link: No URL available").
Proof.
  intros Hp.
  destruct (parse_article_fields rt d a Hp) as [cs [_ [_ [_ [Hd [Hu _]]]]]].
  split; intros E.
  - rewrite E in Hd. inversion Hd as [Hd']. cbn [article_lines nth].
    rewrite <- Hd'. reflexivity.
  - rewrite E in Hu. inversion Hu as [Hu']. cbn [article_lines nth].
    rewrite <- Hu'. reflexivity.
Qed.

Lemma join_values_strings (sep : string) (l : list value) :
  (exists s, join_values sep l = Ok s) <-> forallb is_str l = true.
Proof.
  unfold join_values.
  assert (G : (exists ss, mapM (fun v => match v with
                                         | VStr s => Ok s
                                         | _ => Raise (TypeError "join" v)
                                         end) l = Ok ss)
              <-> forallb is_str l = true).
  { induction l as [|v l IH]; cbn [mapM forallb].
    - split; eauto.
    - split.
      + intros [ss H]. bind_inv H. bind_inv H.
        apply andb_true_iff. split.
        * destruct v; try discriminate; reflexivity.
        * apply IH. eauto.
      + intros H. apply andb_true_iff in H. destruct H as [Hv Hl].
        apply IH in Hl. destruct Hl as [ss Hl].
        destruct v; try discriminate. rewrite Hl. simpl. eauto. }
  rewrite <- G. split.
  - intros [s H]. bind_inv H. eauto.
  - intros [ss ->]. simpl. eauto.
Qed.

Lemma feed_lines_strings (i : nat) (f : feed) :
  (exists ls, feed_lines rt i f = Ok ls) <-> labels_are_strings f = true.
Proof.
  unfold feed_lines, labels_are_strings.
  destruct (f_categories f) as [|c cs] eqn:E.
  - simpl. split; eauto.
  - rewrite <- (join_values_strings ", " (c :: cs)). split.
    + intros [ls H]. bind_inv H. bind_inv Hm. eauto.
    + intros [s ->]. simpl. eauto.
Qed.

Lemma feed_block_strings (feeds : list feed) :
  forall i,
  (exists ls, feed_block rt i feeds = Ok ls)
  <-> forallb labels_are_strings feeds = true.
Proof.
  induction feeds as [|f r IH]; intros i; cbn [feed_block forallb].
  - split; eauto.
  - rewrite andb_true_iff, <- (feed_lines_strings i f), <- (IH (S i)). split.
    + intros [ls H]. bind_inv H. bind_inv H. eauto.
    + intros [[l1 H1] [l2 H2]]. rewrite H1, H2. simpl. eauto.
Qed.

Lemma bind_Raise {A B} (m : result A) (k : A -> result B) (e : exn) :
  bind m k = Raise e ->
  m = Raise e \/ exists a, m = Ok a /\ k a = Raise e.
Proof.
  destruct m as [a|e']; simpl; intros H.
  - right. eauto.
  - left. inversion H. reflexivity.
Qed.

Lemma join_values_raises (sep : string) (l : list value) (e : exn) :
  join_values sep l = Raise e ->
  exists v, e = TypeError "join" v /\ In v l /\ is_str v = false.
Proof.
  unfold join_values. intros H.
  apply bind_Raise in H. destruct H as [H | [ss [_ H]]]; [|discriminate].
  induction l as [|v l IH]; cbn [mapM] in H; [discriminate|].
  apply bind_Raise in H. destruct H as [H | [s [Hv H]]].
  - destruct v; try discriminate; inversion H; eexists;
      (split; [reflexivity | split; [left; reflexivity | reflexivity]]).
  - apply bind_Raise in H. destruct H as [H | [ss [_ H]]]; [|discriminate].
    destruct (IH H) as [x [He [Hin Hx]]]. exists x. auto using in_cons.
Qed.

Lemma feed_block_raises (feeds : list feed) :
  forall i e,
  feed_block rt i feeds = Raise e ->
  exists f v, In f feeds /\ In v (f_categories f) /\ is_str v = false
              /\ e = TypeError "join" v.
Proof.
  induction feeds as [|f r IH]; intros i e H; cbn [feed_block] in H.
  - discriminate.
  - apply bind_Raise in H. destruct H as [H | [ls [_ H]]].
    + unfold feed_lines in H.
      apply bind_Raise in H. destruct H as [H | [cl [_ H]]]; [|discriminate].
      destruct (f_categories f) as [|c cs] eqn:E; [discriminate|].
      apply bind_Raise in H. destruct H as [H | [j [_ H]]]; [|discriminate].
      destruct (join_values_raises _ _ _ H) as [v [He [Hin Hv]]].
      exists f, v. rewrite E. auto using in_eq.
    + apply bind_Raise in H. destruct H as [H | [rest [_ H]]]; [|discriminate].
      destruct (IH _ _ H) as [g [v [Hg Hrest]]].
      exists g, v. auto using in_cons.
Qed.

(** X10. [format_feed_list] returns exactly when every category
    label of every feed is a string; otherwise [", ".join] raises
    [TypeError] for a label of some feed that is not a string. *)
Theorem format_feed_list_needs_string_labels (feeds : list feed) :
  ((exists s, format_feed_list rt feeds = Ok s)
   <-> forallb labels_are_strings feeds = true)
  /\ (forall e, format_feed_list rt feeds = Raise e ->
      exists f v, In f feeds /\ In v (f_categories f) /\ is_str v = false
                  /\ e = TypeError "join" v).
Proof.
  split.
  - assert (E : (exists s, format_feed_list rt feeds = Ok s)
                <-> exists ls, feed_block rt 1 feeds = Ok ls).
    { unfold format_feed_list. destruct feeds as [|f r].
      - split; intros _; eexists; reflexivity.
      - split.
        + intros [s H]. bind_inv H. eauto.
        + intros [ls ->]. simpl. eauto. }
    rewrite E. apply feed_block_strings.
  - intros e H. unfold format_feed_list in H.
    destruct feeds as [|f r]; [discriminate|].
    apply bind_Raise in H. destruct H as [H | [ls [_ H]]]; [|discriminate].
    apply (feed_block_raises _ _ _ H).
Qed.

Lemma mapM_labels (cats : list value) :
  forallb is_dict cats = true ->
  mapM (fun cat => py_get cat "label" (VStr "")) cats = Ok (map label_of cats).
Proof.
  induction cats as [|c cats IH]; cbn [forallb mapM map]; intros H.
  - reflexivity.
  - apply andb_true_iff in H. destruct H as [Hc Hr].
    destruct c; try discriminate. rewrite (IH Hr). reflexivity.
Qed.

(** X11. [parse_feed] on a subscription whose categories are objects
    gives their labels ([""] for a category without one) and the defaults
    [""], ["Untitled"], [""], [""] and 0 for absent fields; [firstItemMsec]
    is read from the key [firstitemmsec] in lower case. *)
Theorem parse_feed_defaults (d : list (string * value)) (cats : list value) :
  dict_get d "categories" (VList []) = VList cats ->
  forallb is_dict cats = true ->
  exists f,
    parse_feed (VDict d) = Ok f
    /\ f_categories f = map label_of cats
    /\ (assoc "id" d = None -> f_id f = VStr "")
    /\ (assoc "title" d = None -> f_title f = VStr "Untitled")
    /\ (assoc "url" d = None -> f_url f = VStr "")
    /\ (assoc "htmlUrl" d = None -> htmlUrl f = VStr "")
    /\ (assoc "firstitemmsec" d = None -> firstItemMsec f = VInt 0)
    /\ (forall v, assoc "title" d = Some v -> f_title f = v)
    /\ (forall v, assoc "firstitemmsec" d = Some v -> firstItemMsec f = v).
Proof.
  intros Hc Hd. unfold parse_feed. rewrite Hc. cbn [py_iter bind].
  rewrite (mapM_labels cats Hd). cbn [bind].
  eexists. split; [reflexivity|]. cbn. unfold dict_get.
  repeat apply conj; try reflexivity; try (intros E; rewrite E; reflexivity);
    intros v E; rewrite E; reflexivity.
Qed.

End MoreFormatter.

(** ** Lines of a text *)

Lemma prefix_newline (c : ascii) (s : string) :
  prefix newline (String c s) = (c =? "010")%char.
Proof.
  unfold newline. cbn [prefix].
  destruct (ascii_dec "010" c) as [<-|Hne].
  - destruct s; reflexivity.
  - symmetry. apply Ascii.eqb_neq. congruence.
Qed.

Lemma append_empty (s : string) : s ++ "" = s.
Proof. induction s; simpl; congruence. Qed.

Lemma split_aux_one_line (cur s : string) :
  one_line s = true -> split_aux newline 0 cur s = [cur ++ s].
Proof.
  revert cur; induction s as [|c s IH]; intros cur H.
  - simpl. rewrite append_empty. reflexivity.
  - cbn [one_line] in H. apply andb_true_iff in H. destruct H as [Hc Hs].
    apply negb_true_iff in Hc.
    cbn [split_aux]. rewrite prefix_newline, Hc.
    rewrite IH by assumption. rewrite append_assoc. reflexivity.
Qed.

Lemma split_aux_line (cur s rest : string) :
  one_line s = true ->
  split_aux newline 0 cur (s ++ newline ++ rest)
  = (cur ++ s) :: split_aux newline 0 "" rest.
Proof.
  revert cur; induction s as [|c s IH]; intros cur H.
  - change ("" ++ newline ++ rest) with (String "010" rest).
    cbn [split_aux]. rewrite prefix_newline. cbn [Ascii.eqb Bool.eqb].
    change (length newline - 1) with 0.
    rewrite append_empty. reflexivity.
  - cbn [one_line] in H. apply andb_true_iff in H. destruct H as [Hc Hs].
    apply negb_true_iff in Hc.
    cbn [append split_aux]. rewrite prefix_newline, Hc.
    rewrite IH by assumption. rewrite append_assoc. reflexivity.
Qed.

(** Joining lines with newlines and splitting again gives the lines. *)
Lemma split_concat_lines (lines : list string) :
  lines <> [] ->
  forallb one_line lines = true ->
  split newline (String.concat newline lines) = lines.
Proof.
  unfold split. induction lines as [|l lines IH]; intros Hne H.
  - congruence.
  - cbn [forallb] in H. apply andb_true_iff in H. destruct H as [Hl Hr].
    destruct lines as [|l' lines].
    + cbn [String.concat]. rewrite split_aux_one_line by assumption. reflexivity.
    + change (String.concat newline (l :: l' :: lines))
        with (l ++ newline ++ String.concat newline (l' :: lines)).
      rewrite split_aux_line by assumption. cbn [append].
      rewrite IH by (assumption || discriminate). reflexivity.
Qed.

(** The token is what follows [Auth=] on the first line that starts with
    it. *)
Lemma find_token_first (lines : list string) (tok : string) :
  find_token lines = Some tok
  <-> exists before after,
        lines = app before (("Auth=" ++ tok) :: after)
        /\ forallb (fun l => negb (startswith l "Auth=")) before = true.
Proof.
  induction lines as [|l lines IH]; cbn [find_token].
  - split; [discriminate|]. intros [b [a [H _]]]. destruct b; discriminate.
  - destruct (startswith l "Auth=") eqn:E.
    + split.
      * intros H. inversion H; subst. exists [], lines. split; [|reflexivity].
        cbn [app]. f_equal. unfold startswith in E.
        apply prefix_spec in E. destruct E as [rest ->]. reflexivity.
      * intros [b [a [H Hb]]]. destruct b as [|x b].
        -- cbn [app] in H. inversion H; subst. reflexivity.
        -- cbn [app] in H. inversion H; subst. cbn [forallb] in Hb.
           rewrite E in Hb. discriminate.
    + rewrite IH. split.
      * intros [b [a [H Hb]]]. exists (l :: b), a. split.
        -- rewrite H. reflexivity.
        -- cbn [forallb]. rewrite E, Hb. reflexivity.
      * intros [b [a [H Hb]]]. destruct b as [|x b].
        -- cbn [app] in H. inversion H; subst.
           unfold startswith in E. cbn in E. 
           replace (prefix "" tok) with true in E by (destruct tok; reflexivity).
           discriminate.
        -- cbn [app] in H. inversion H; subst. cbn [forallb] in Hb.
           apply andb_true_iff in Hb. destruct Hb as [_ Hb]. eauto.
Qed.

(** ** [_authenticate] *)

(** X12. When [_authenticate] returns, the login call was answered
    with status 200 and the client holds a token that is not empty: the one
    of the answer, or, when the answer has no [Auth=] line, the one the
    client held before.  Session and cache are untouched and the
    [Authorization] header of later calls carries that token. *)
Theorem authenticate_leaves_a_token
  (self self' : InoreaderClient) (w : world) :
  fst (_authenticate self w) = Ok self' ->
  exists r tok,
    server w (List.length (sent w)) (auth_request self) = Responds r
    /\ status r = 200%Z
    /\ auth_token self' = Some tok /\ tok <> ""
    /\ (find_token (split newline (text r)) = Some tok
        \/ (find_token (split newline (text r)) = None
            /\ auth_token self = Some tok /\ self' = self))
    /\ session self' = session self
    /\ cache self' = cache self
    /\ _get_headers self'
       = [("Authorization", "GoogleLogin auth=" ++ tok);
          ("AppId", app_id self); ("AppKey", app_key self)].
Proof.
  unfold _authenticate, bindM, send.
  destruct (server w (List.length (sent w)) (auth_request self)) as [r|e];
    [|discriminate].
  destruct (Z.eqb_spec (status r) 200) as [H200|]; [|discriminate].
  cbn [negb].
  destruct (find_token (split newline (text r))) as [t|] eqn:Ef.
  - cbn [set_auth_token auth_token].
    destruct (String.eqb_spec t ""); [discriminate|].
    cbn. intros H. inversion H; subst self'. exists r, t.
    repeat apply conj; auto.
  - destruct (auth_token self) as [t|] eqn:Et; [|discriminate].
    destruct (String.eqb_spec t ""); [discriminate|].
    cbn. intros H. inversion H; subst self'. exists r, t.
    repeat apply conj; auto.
    unfold _get_headers. rewrite Et. reflexivity.
Qed.

(** X13. For a 200 answer made of lines, the token is what follows
    [Auth=] on the first line that starts with it; later [Auth=] lines are
    not read, and an empty token raises [No auth token received].  One
    request is sent either way. *)
Theorem authenticate_reads_first_auth_line
  (self : InoreaderClient) (w : world) (r : response)
  (before after : list string) (tok : string) :
  server w (List.length (sent w)) (auth_request self) = Responds r ->
  status r = 200%Z ->
  text r = String.concat newline
             (app before (("Auth=" ++ tok) :: after)) ->
  forallb one_line (app before (("Auth=" ++ tok) :: after)) = true ->
  forallb (fun l => negb (startswith l "Auth=")) before = true ->
  _authenticate self w
  = (if (tok =? "")%string
     then Raise (PyException "No auth token received")
     else Ok (set_auth_token self (Some tok)),
     logged (auth_request self) w).
Proof.
  intros Hs H200 Ht Hl Hb.
  unfold _authenticate, bindM, send. rewrite Hs, H200. cbn [Z.eqb Pos.eqb negb].
  rewrite Ht, split_concat_lines by (assumption || (destruct before; discriminate)).
  assert (E : find_token (app before (("Auth=" ++ tok) :: after)) = Some tok).
  { apply find_token_first. eauto. }
  rewrite E. cbn [set_auth_token auth_token].
  destruct (tok =? "")%string; reflexivity.
Qed.

(** ** The cache of [get_subscription_list] *)

Section MoreClient.

Variable cfg : Config.

Lemma cache_lookup_store (t t' ttl : Z) (key : string) (v : value)
  (c : list (string * (value * Z))) :
  cache_lookup t' key (cache_store t ttl key v c)
  = if (t' <? t + ttl)%Z then Some v else None.
Proof. unfold cache_store. cbn [cache_lookup]. rewrite String.eqb_refl. reflexivity. Qed.

(** X14. A successful [get_subscription_list] on a cache miss sends
    one request and stores the subscriptions; the same client then answers
    from the cache without a request as long as less than [CACHE_TTL] has
    passed since the call, and asks the server again from then on. *)
Theorem subscription_list_is_cached
  (self : InoreaderClient) (w : world) (r : response) (res subs : value) :
  cache_lookup (clock w) "subscription_list" (cache self) = None ->
  server w (List.length (sent w)) (subscription_request cfg self) = Responds r ->
  status r = 200%Z ->
  response_value r = Ok res ->
  py_get res "subscriptions" (VList []) = Ok subs ->
  exists self',
    get_subscription_list cfg self w
    = (Ok (subs, self'), logged (subscription_request cfg self) w)
    /\ session self' = session self /\ auth_token self' = auth_token self
    /\ (forall w2, (clock w2 < clock w + CACHE_TTL cfg)%Z ->
          get_subscription_list cfg self' w2 = (Ok (subs, self'), w2))
    /\ (forall w2, (clock w + CACHE_TTL cfg <= clock w2)%Z ->
          sent (snd (get_subscription_list cfg self' w2))
          = app (sent w2) [subscription_request cfg self]).
Proof.
  intros Hc Hs H200 Hv Hg.
  exists (set_cache self (cache_store (clock w) (CACHE_TTL cfg)
                                    "subscription_list" subs (cache self))).
  repeat apply conj; try reflexivity.
  - unfold get_subscription_list, bindM, now. rewrite Hc.
    unfold subscription_request in Hs.
    rewrite (_request_200 cfg _ _ _ _ _ _ r Hs H200), Hv. unfold lift.
    rewrite Hg. reflexivity.
  - intros w2 H. unfold get_subscription_list, bindM, now.
    cbn [set_cache cache]. rewrite cache_lookup_store.
    apply Z.ltb_lt in H. rewrite H. reflexivity.
  - intros w2 H. unfold get_subscription_list, bindM, now.
    cbn [set_cache cache]. rewrite cache_lookup_store.
    apply Z.ltb_ge in H. rewrite H.
    unfold _request, bindM, send.
    change (api_request cfg (set_cache self _) "GET" "subscription/list" None None)
      with (subscription_request cfg self).
    destruct (server w2 _ _) as [r2|e2]; cbn [fst snd].
    + destruct (negb (status r2 =? 200)%Z); [reflexivity|].
      unfold lift. destruct (response_value r2) as [v2|]; [|reflexivity].
      destruct (py_get v2 "subscriptions" (VList [])); reflexivity.
    + reflexivity.
Qed.

End MoreClient.

(** ** What a run does to the world *)

Lemma with_sent_nil (w : world) : with_sent [] w = w.
Proof. destruct w. unfold with_sent. cbn. rewrite app_nil_r. reflexivity. Qed.

Lemma with_sent_app (a b : list request) (w : world) :
  with_sent b (with_sent a w) = with_sent (app a b) w.
Proof. unfold with_sent. cbn. rewrite app_assoc. reflexivity. Qed.

Lemma only_sends_silent {A} (m : M A) (n : nat) :
  (forall w, snd (m w) = w) -> only_sends n m.
Proof.
  intros H w. exists []. rewrite H, with_sent_nil. split; [reflexivity|].
  cbn. lia.
Qed.

Lemma only_sends_weaken {A} (m : M A) (a b : nat) :
  a <= b -> only_sends a m -> only_sends b m.
Proof.
  intros Hle H w. destruct (H w) as [new [E Hn]]. exists new. split; [exact E | lia].
Qed.

Lemma only_sends_bind {A B} (m : M A) (k : A -> M B) (a b : nat) :
  only_sends a m -> (forall x, only_sends b (k x)) ->
  only_sends (a + b) (bindM m k).
Proof.
  intros Hm Hk w. unfold bindM.
  destruct (Hm w) as [n1 [E1 L1]].
  destruct (m w) as [[x|e] w1]; cbn [snd] in E1; subst w1.
  - destruct (Hk x (with_sent n1 w)) as [n2 [E2 L2]].
    exists (app n1 n2). rewrite E2, with_sent_app, length_app. split; [reflexivity | lia].
  - exists n1. split; [reflexivity | lia].
Qed.

Lemma only_sends_lift_bind {A B} (r : result A) (k : A -> M B) (n : nat) :
  (forall x, r = Ok x -> only_sends n (k x)) ->
  only_sends n (bindM (lift r) k).
Proof.
  intros H w. unfold bindM, lift. destruct r as [x|e].
  - apply (H x eq_refl).
  - exists []. rewrite with_sent_nil. split; [reflexivity | cbn; lia].
Qed.

Lemma only_sends_send (rq : request) : only_sends 1 (send rq).
Proof.
  intros w. exists [rq]. unfold send.
  destruct (server w _ rq); cbn [snd]; split; try reflexivity; cbn; lia.
Qed.

Lemma only_sends_foldM {A B} (f : B -> A -> M B) (l : list A) :
  (forall acc x, only_sends 1 (f acc x)) ->
  forall acc, only_sends (List.length l) (foldM f acc l).
Proof.
  intros Hf. induction l as [|x l IH]; intros acc; cbn [foldM List.length].
  - apply only_sends_silent. reflexivity.
  - change (S (List.length l)) with (1 + List.length l).
    apply only_sends_bind; [apply Hf | intros acc'; apply IH].
Qed.

(** Closes a goal [snd (m w) = w] for an [m] made of [ret], [raise],
    [lift] and [now]. *)
Ltac quiet :=
  intros;
  unfold bindM, lift, ret, raise, now;
  repeat (cbv beta iota zeta;
          match goal with
          | |- context [match ?x with _ => _ end] =>
            lazymatch x with
            | context [match _ with _ => _ end] => fail
            | _ => destruct x
            end
          end);
  reflexivity.

Section Runs.

Variable rt : Runtime.
Variable cfg : Config.

Lemma only_sends_request (self : InoreaderClient) (method endpoint : string)
  (params data : option (list (string * value))) :
  only_sends 1 (_request cfg self method endpoint params data).
Proof.
  unfold _request. change 1 with (1 + 0).
  apply only_sends_bind; [apply only_sends_send|].
  intros resp. apply only_sends_silent. quiet.
Qed.

Lemma only_sends_after_request {A}
  (self : InoreaderClient) (method endpoint : string)
  (params data : option (list (string * value))) (k : value -> M A) :
  (forall v w, snd (k v w) = w) ->
  only_sends 1 (bindM (_request cfg self method endpoint params data) k).
Proof.
  intros H. change 1 with (1 + 0).
  apply only_sends_bind; [apply only_sends_request|].
  intros v. apply only_sends_silent. apply H.
Qed.

Lemma only_sends_get_subscription_list (self : InoreaderClient) :
  only_sends 1 (get_subscription_list cfg self).
Proof.
  unfold get_subscription_list. change 1 with (0 + 1).
  apply only_sends_bind; [apply only_sends_silent; quiet|].
  intros t. destruct (cache_lookup t "subscription_list" (cache self)).
  - apply only_sends_silent. quiet.
  - apply only_sends_after_request. quiet.
Qed.

Lemma only_sends_get_stream_contents (self : InoreaderClient)
  (stream_id : option string) (count : Z) (exclude_read : bool)
  (newer_than : option Z) :
  only_sends 1 (get_stream_contents cfg self stream_id count exclude_read
                                    newer_than).
Proof. unfold get_stream_contents. apply only_sends_after_request. quiet. Qed.

Lemma only_sends_search (self : InoreaderClient) (query : string) (count : Z)
  (newer_than : option Z) :
  only_sends 1 (search cfg self query count newer_than).
Proof. unfold search. apply only_sends_after_request. quiet. Qed.

Lemma only_sends_get_stream_item_contents (self : InoreaderClient)
  (item_ids : list string) :
  only_sends 1 (get_stream_item_contents cfg self item_ids).
Proof.
  unfold get_stream_item_contents. destruct item_ids.
  - apply only_sends_silent. quiet.
  - apply only_sends_request.
Qed.

Lemma only_sends_client_mark_as_read (self : InoreaderClient)
  (item_ids : list string) :
  only_sends 1 (client_mark_as_read cfg self item_ids).
Proof.
  unfold client_mark_as_read. destruct item_ids.
  - apply only_sends_silent. quiet.
  - apply only_sends_after_request. quiet.
Qed.

Lemma only_sends_get_unread_count (self : InoreaderClient) :
  only_sends 1 (get_unread_count cfg self).
Proof. unfold get_unread_count. apply only_sends_after_request. quiet. Qed.

Lemma only_sends_mark_chunk (self : InoreaderClient) (n : nat)
  (chunk : list string) :
  only_sends 1 (mark_chunk cfg self n chunk).
Proof.
  unfold mark_chunk. change 1 with (1 + 0).
  apply only_sends_bind; [apply only_sends_client_mark_as_read|].
  intros b. apply only_sends_silent. quiet.
Qed.

Lemma aenter_world (w : world) :
  snd (aenter (new_client cfg) w)
  = with_sent [auth_request (new_client cfg)] (opened w).
Proof.
  unfold aenter, bindM, open_session, _authenticate, bindM, send.
  change (auth_request (set_session (new_client cfg) _))
    with (auth_request (new_client cfg)).
  cbn [opened server sent].
  destruct (server w _ _) as [r|e]; [|reflexivity].
  destruct (negb (status r =? 200)%Z); [reflexivity|].
  destruct (auth_token _) as [t|]; [|reflexivity].
  destruct (t =? "")%string; reflexivity.
Qed.

Lemma aenter_session (w w1 : world) (self : InoreaderClient) :
  aenter (new_client cfg) w = (Ok self, w1) -> session self <> None.
Proof.
  unfold aenter, bindM, open_session, _authenticate, bindM, send.
  destruct (server _ _ _) as [r|e]; [|discriminate].
  destruct (negb (status r =? 200)%Z); [discriminate|].
  destruct (find_token _); cbn.
  - destruct (_ =? "")%string; cbn; [discriminate|].
    intros E. inversion E. cbn. discriminate.
  - discriminate.
Qed.

(** The world after [async with InoreaderClient() as client: body] *)
Lemma with_client_world {A} (body : InoreaderClient -> M A) (n : nat) :
  (forall self, only_sends n (body self)) ->
  forall w,
  exists new,
    List.length new <= n
    /\ snd (with_client cfg body w)
       = (if enters cfg w
          then released (with_sent (auth_request (new_client cfg) :: new)
                                   (opened w))
          else with_sent [auth_request (new_client cfg)] (opened w)).
Proof.
  intros Hb w. unfold with_client, enters.
  pose proof (aenter_world w) as Hw.
  destruct (aenter (new_client cfg) w) as [[self|e] w1] eqn:Ea;
    cbn [fst snd] in *; subst w1.
  - destruct (Hb self (with_sent [auth_request (new_client cfg)] (opened w)))
      as [new [E L]].
    exists new. split; [exact L|].
    destruct (body self _) as [res w2]. cbn [snd] in E. subst w2.
    unfold aexit. pose proof (aenter_session _ _ _ Ea) as Hs.
    destruct (session self); [|congruence].
    cbn. rewrite with_sent_app. reflexivity.
  - exists []. split; [cbn; lia | reflexivity].
Qed.

Lemma try_except_world (prefix : string) (body : M string) (w : world) :
  snd (try_except rt prefix body w) = snd (body w).
Proof. unfold try_except. destruct (body w) as [[s|e] w']; reflexivity. Qed.

Lemma tool_run_try_except (prefix : string) (n : nat)
  (body : InoreaderClient -> M string) :
  (forall self, only_sends n (body self)) ->
  tool_run cfg n (try_except rt prefix (with_client cfg body)).
Proof.
  intros H w. rewrite try_except_world. apply with_client_world. exact H.
Qed.

(** A step that sends at most one request, followed by steps that send
    none *)
Ltac one_request lemma :=
  change 1 with (1 + 0);
  apply only_sends_bind; [apply lemma | intros; apply only_sends_silent; quiet].

Lemma batches_count (ids : list string) :
  List.length (batches 20 ids) <= List.length ids / 20 + 1.
Proof.
  rewrite <- (length_map (@List.length string)).
  unfold batches. rewrite batches_upto_lengths by lia.
  rewrite length_app, repeat_length.
  destruct (List.length ids mod 20 =? 0)%nat; cbn [List.length]; lia.
Qed.

(** X15. Every tool opens exactly one session and sends the login
    first.  When the login is accepted the tool sends at most one further
    request ([mark_as_read] of [n] ids: at most [n / 20 + 1]) and closes
    the session; when it is not, nothing more is sent and the session is left
    open.  Earlier requests stay in the log and the clock is not changed.
    [mark_as_read] of no id leaves the world as it is. *)
Theorem tools_open_one_session_and_send_little
  (limit days : Z) (feed_id : option string) (unread_only : bool)
  (query : string) (search_limit : Z) (search_days : option Z)
  (article_id : string) (article_ids : list string) :
  tool_run cfg 1 (list_feeds rt cfg)
  /\ tool_run cfg 1 (list_articles rt cfg limit days feed_id unread_only)
  /\ tool_run cfg 1 (search_articles rt cfg query search_limit search_days)
  /\ tool_run cfg 1 (get_content rt cfg article_id)
  /\ tool_run cfg 1 (get_stats rt cfg)
  /\ (article_ids <> [] ->
      tool_run cfg (List.length article_ids / 20 + 1)
               (mark_as_read rt cfg article_ids))
  /\ (forall w, snd (mark_as_read rt cfg [] w) = w).
Proof.
  repeat apply conj.
  - apply tool_run_try_except. intros self.
    one_request only_sends_get_subscription_list.
  - apply tool_run_try_except. intros self.
    change 1 with (0 + 1).
    apply only_sends_bind.
    + apply only_sends_silent. unfold days_to_timestamp. quiet.
    + intros nt. one_request only_sends_get_stream_contents.
  - apply tool_run_try_except. intros self.
    change 1 with (0 + 1).
    apply only_sends_bind.
    + apply only_sends_silent. unfold days_to_timestamp. quiet.
    + intros nt. one_request only_sends_search.
  - apply tool_run_try_except. intros self.
    one_request only_sends_get_stream_item_contents.
  - apply tool_run_try_except. intros self.
    one_request only_sends_get_unread_count.
  - intros Hne. unfold mark_as_read, mark_as_read_body.
    destruct article_ids as [|i ids]; [congruence|].
    apply tool_run_try_except. intros self.
    apply (only_sends_weaken _ (List.length (batches 20 (i :: ids)) + 0));
      [pose proof (batches_count (i :: ids)); lia|].
    apply only_sends_lift_bind. intros chunks Hc.
    rewrite chunk_list_batches in Hc by lia. inversion Hc; subst chunks.
    apply only_sends_bind.
    + apply only_sends_foldM. intros acc x. apply only_sends_mark_chunk.
    + intros k. apply only_sends_silent. quiet.
  - reflexivity.
Qed.

Lemma bindM_snd_quiet {A B} (m : M A) (k : A -> M B) (w : world) :
  (forall x w', snd (k x w') = w') -> snd (bindM m k w) = snd (m w).
Proof.
  intros H. unfold bindM. destruct (m w) as [[x|e] w']; [apply H | reflexivity].
Qed.

Lemma get_subscription_list_miss (self : InoreaderClient) (w : world) :
  cache_lookup (clock w) "subscription_list" (cache self) = None ->
  snd (get_subscription_list cfg self w)
  = logged (subscription_request cfg self) w.
Proof.
  intros H. unfold get_subscription_list, bindM, now. rewrite H.
  unfold _request, bindM, send. fold (subscription_request cfg self).
  destruct (server w _ _) as [r|e]; [|reflexivity].
  destruct (negb (status r =? 200)%Z); [reflexivity|].
  unfold lift. destruct (response_value r) as [v|]; [|reflexivity].
  destruct (py_get v "subscriptions" (VList [])); reflexivity.
Qed.

(** X16. Once the login is accepted [list_feeds] always asks the
    server for the subscriptions: each call builds a new client, whose cache
    is empty. *)
Theorem list_feeds_always_asks (w : world) (tok : string) :
  login_gives cfg w tok ->
  sent (snd (list_feeds rt cfg w))
  = app (sent w) [auth_request (new_client cfg);
                  subscription_request cfg (entered cfg tok)]
  /\ cache (entered cfg tok) = [].
Proof.
  intros H. split; [|reflexivity].
  unfold list_feeds. rewrite try_except_world.
  unfold list_feeds_body, with_client. rewrite (aenter_ok cfg w tok H).
  match goal with
  | |- context [bindM ?m ?k ?w1] =>
    pose proof (bindM_snd_quiet m k w1) as Hq
  end.
  match type of Hq with
  | ?P -> _ => assert (Hp : P) by quiet
  end.
  specialize (Hq Hp). clear Hp.
  destruct (bindM _ _ _) as [res w2]. cbn [snd] in Hq. subst w2.
  rewrite get_subscription_list_miss by reflexivity.
  unfold aexit. cbn. rewrite <- app_assoc. reflexivity.
Qed.

Lemma get_stream_contents_not_str (self : InoreaderClient)
  (stream_id : option string) (count : Z) (exclude_read : bool)
  (newer_than : option Z) (w : world) (v : value) :
  fst (get_stream_contents cfg self stream_id count exclude_read newer_than w)
  = Ok v ->
  is_str v = false.
Proof.
  unfold get_stream_contents, bindM.
  destruct (_request _ _ _ _ _ _ _) as [[res|e] w']; [|discriminate].
  destruct (is_str res) eqn:E; cbn; intros H; inversion H; subst; auto.
Qed.

Lemma search_not_str (self : InoreaderClient) (query : string) (count : Z)
  (newer_than : option Z) (w : world) (v : value) :
  fst (search cfg self query count newer_than w) = Ok v ->
  is_str v = false.
Proof.
  unfold search, bindM.
  destruct (_request _ _ _ _ _ _ _) as [[res|e] w']; [|discriminate].
  destruct (is_str res) eqn:E; cbn; intros H; inversion H; subst; auto.
Qed.

Lemma list_articles_not_format_error
  (limit days : Z) (feed_id : option string) (unread_only : bool) (w : world) :
  fst (list_articles rt cfg limit days feed_id unread_only w)
  <> Ok "Error: API returned unexpected response format".
Proof.
  unfold list_articles, try_except.
  destruct (list_articles_body rt cfg limit days feed_id unread_only w)
    as [[s|e] w'] eqn:E; cbn [fst]; [|cbn [append]; discriminate].
  intros H. inversion H; subst s. clear H. revert E.
  unfold list_articles_body, with_client.
  destruct (aenter (new_client cfg) w) as [[self|e] w1]; [|discriminate].
  unfold bindM at 1.
  match goal with
  | |- context [match ?m w1 with _ => _ end] =>
    destruct (m w1) as [[nt|e] w2]
  end.
  - unfold bindM at 1.
    destruct (get_stream_contents cfg self feed_id limit unread_only nt w2)
      as [[sc|e] w3] eqn:G.
    + assert (Hs : is_str sc = false).
      { apply (get_stream_contents_not_str self feed_id limit unread_only nt w2).
        rewrite G. reflexivity. }
      rewrite Hs. unfold bindM, lift, ret.
      destruct (py_get sc "items" (VList [])) as [items|].
      * destruct (py_iter items) as [l|].
        -- destruct (mapM (parse_article rt) l) as [[|a arts]|];
             destruct (aexit self w3) as [[u|e9] w4];
             intros H; inversion H as [[H1 H2]]; cbn [append] in H1;
             discriminate H1.
        -- destruct (aexit self w3) as [[u|e9] w4]; discriminate.
      * destruct (aexit self w3) as [[u|e9] w4]; discriminate.
    + destruct (aexit self w3) as [[u|e9] w4]; discriminate.
  - destruct (aexit self w2) as [[u|e9] w4]; discriminate.
Qed.

(** X17. [get_stream_contents] never hands a string to its caller, so
    [list_articles] never answers
    [Error: API returned unexpected response format]: the branch that tests
    for a string is not reached with one. *)
Theorem list_articles_format_branch_is_dead
  (limit days : Z) (feed_id : option string) (unread_only : bool) (w : world) :
  exists s,
    fst (list_articles rt cfg limit days feed_id unread_only w) = Ok s
    /\ (s =? "Error: API returned unexpected response format")%string = false.
Proof.
  assert (Hr : exists s,
             fst (list_articles rt cfg limit days feed_id unread_only w) = Ok s).
  { unfold list_articles, try_except.
    destruct (list_articles_body rt cfg limit days feed_id unread_only w)
      as [[s|e] w']; eexists; reflexivity. }
  destruct Hr as [s Hs]. exists s. split; [exact Hs|].
  apply String.eqb_neq. intros E. subst s.
  exact (list_articles_not_format_error limit days feed_id unread_only w Hs).
Qed.

End Runs.

(** ** The tools once the login is accepted *)

Section Answers.

Variable rt : Runtime.
Variable cfg : Config.

(** A tool whose login is accepted returns what its body returns in the
    world after the login, with the text of the handler for an exception. *)
Lemma tool_after_login (prefix : string) (body : InoreaderClient -> M string)
  (w : world) (tok : string) :
  login_gives cfg w tok ->
  fst (try_except rt prefix (with_client cfg body) w)
  = match fst (body (entered cfg tok) (logged_in cfg w)) with
    | Ok s => Ok s
    | Raise e => Ok (prefix ++ str_exn rt e)
    end.
Proof.
  intros H. unfold try_except.
  pose proof (with_client_after_entry cfg body w _ _ (aenter_ok cfg w tok H))
    as [Hf _].
  fold (logged_in cfg w) in Hf.
  destruct (with_client cfg body w) as [res w']. cbn [fst] in *.
  rewrite <- Hf. destruct res; reflexivity.
Qed.

Lemma _request_answered (self : InoreaderClient) (method endpoint : string)
  (params data : option (list (string * value))) (w : world) (v : value) :
  answered w (api_request cfg self method endpoint params data) v ->
  _request cfg self method endpoint params data (logged_in cfg w)
  = (Ok v, logged (api_request cfg self method endpoint params data)
                  (logged_in cfg w)).
Proof.
  intros [r [Hs [H200 Hv]]].
  rewrite (_request_200 cfg self method endpoint params data _ r).
  - rewrite Hv. reflexivity.
  - unfold logged_in. cbn [logged opened server sent].
    rewrite length_app. cbn [List.length]. rewrite Nat.add_1_r. exact Hs.
  - exact H200.
Qed.


(** X21. When the answer has no items ([items] absent, empty or
    [null]) [get_content] answers that the article with this id was not
    found. *)
Theorem get_content_reports_missing_article
  (article_id : string) (w : world) (tok : string) (res items : value) :
  login_gives cfg w tok ->
  answered w (item_request cfg (entered cfg tok) article_id) res ->
  py_get res "items" (VList []) = Ok items ->
  truthy items = false ->
  fst (get_content rt cfg article_id w)
  = Ok ("Article with ID " ++ article_id ++ " not found.").
Proof.
  intros Hl Ha Hg Ht. unfold get_content, get_content_body.
  rewrite (tool_after_login _ _ w tok Hl).
  unfold bindM at 1. unfold get_stream_item_contents. cbn [map].
    unfold item_request in Ha.
  rewrite (_request_answered _ _ _ _ _ w res Ha).
  unfold bindM at 1. unfold lift at 1. rewrite Hg, Ht. reflexivity.
Qed.

(** X22. [get_content] shows the first item of the answer.  With a
    [content] field its text follows the header, and when that text is empty
    nothing follows, although the item may have a summary; without a
    [content] field the summary follows, or
    [No content available for this article.] *)
Theorem get_content_shows_content_first
  (article_id : string) (w : world) (tok : string) (res : value)
  (d : list (string * value)) (more : list value) (a : article) :
  login_gives cfg w tok ->
  answered w (item_request cfg (entered cfg tok) article_id) res ->
  py_get res "items" (VList []) = Ok (VList (VDict d :: more)) ->
  parse_article rt (VDict d) = Ok a ->
  (forall c full,
     assoc "content" d = Some c ->
     py_get c "content" (VStr "") = Ok full ->
     fst (get_content rt cfg article_id w)
     = Ok (if truthy full
           then article_header rt a ++ rule ++ py_str rt full
           else article_header rt a))
  /\ (assoc "content" d = None ->
      fst (get_content rt cfg article_id w)
      = Ok (article_header rt a ++ rule
            ++ (if truthy (summary a) then py_str rt (summary a)
                else "No content available for this article."))).
Proof.
  intros Hl Ha Hg Hp.
  assert (E : fst (get_content rt cfg article_id w)
              = match assoc "content" d with
                | Some c =>
                  match py_get c "content" (VStr "") with
                  | Ok full =>
                    Ok (if truthy full
                        then article_header rt a ++ rule ++ py_str rt full
                        else article_header rt a)
                  | Raise e =>
                    Ok ("Error getting article content: " ++ str_exn rt e)
                  end
                | None =>
                  Ok (article_header rt a ++ rule
                      ++ (if truthy (summary a) then py_str rt (summary a)
                          else "No content available for this article."))
                end).
  { unfold get_content, get_content_body.
    rewrite (tool_after_login _ _ w tok Hl).
    unfold bindM at 1. unfold get_stream_item_contents. cbn [map].
    unfold item_request in Ha.
    rewrite (_request_answered _ _ _ _ _ w res Ha).
    unfold bindM at 1. unfold lift at 1. rewrite Hg.
    cbn [truthy negb py_first]. unfold bindM at 1. unfold lift at 1.
    unfold bindM at 1. unfold lift at 1. rewrite Hp.
    fold (article_header rt a).
    destruct (assoc "content" d) as [c|].
    - unfold bindM, lift.
      destruct (py_get c "content" (VStr "")) as [full|e]; [|reflexivity].
      destruct (truthy full); reflexivity.
    - destruct (truthy (summary a)); reflexivity. }
  split.
  - intros c full Hc Hf. rewrite E, Hc, Hf. reflexivity.
  - intros Hc. rewrite E, Hc. reflexivity.
Qed.

(** X23. [list_feeds], [get_stats] and [get_content] do not expect a
    200 answer that is text: [.get] on the string raises [AttributeError],
    and the tool returns its error text. *)
Theorem text_answers_are_reported_as_errors
  (article_id : string) (w : world) (tok body : string) :
  login_gives cfg w tok ->
  (answered w (subscription_request cfg (entered cfg tok)) (VStr body) ->
   fst (list_feeds rt cfg w)
   = Ok ("Error listing feeds: "
         ++ builtin_text rt (AttributeError (VStr body) "get")))
  /\ (answered w (unread_count_request cfg (entered cfg tok)) (VStr body) ->
      fst (get_stats rt cfg w)
      = Ok ("Error getting stats: "
            ++ builtin_text rt (AttributeError (VStr body) "get")))
  /\ (answered w (item_request cfg (entered cfg tok) article_id) (VStr body) ->
      fst (get_content rt cfg article_id w)
      = Ok ("Error getting article content: "
            ++ builtin_text rt (AttributeError (VStr body) "get"))).
Proof.
  intros Hl. repeat apply conj; intros Ha.
  - unfold list_feeds, list_feeds_body.
    rewrite (tool_after_login _ _ w tok Hl).
    unfold bindM at 1. unfold get_subscription_list, bindM at 1, now.
    change (cache (entered cfg tok)) with (@nil (string * (value * Z))).
    cbn [cache_lookup]. unfold bindM at 1.
    rewrite (_request_answered _ _ _ _ _ w _ Ha). reflexivity.
  - unfold get_stats, get_stats_body.
    rewrite (tool_after_login _ _ w tok Hl).
    unfold bindM at 1. unfold get_unread_count, bindM at 1.
    rewrite (_request_answered _ _ _ _ _ w _ Ha). reflexivity.
  - unfold get_content, get_content_body.
    rewrite (tool_after_login _ _ w tok Hl).
    unfold bindM at 1. unfold get_stream_item_contents. cbn [map].
    unfold item_request in Ha.
    rewrite (_request_answered _ _ _ _ _ w _ Ha). reflexivity.
Qed.

End Answers.

(** ** The order of the listings *)







(** The lower-casing of the code is the one of the table. *)
Lemma lower_char_small (c : ascii) : lower_char c = small c.
Proof.
  destruct c as [[] [] [] [] [] [] [] []]; vm_compute; reflexivity.
Qed.

Lemma lower_small (s : string) :
  lower s = string_of_list_ascii (map small (list_ascii_of_string s)).
Proof.
  induction s as [|c s IH]; cbn [lower list_ascii_of_string map
                                 string_of_list_ascii].
  - reflexivity.
  - rewrite lower_char_small, IH. reflexivity.
Qed.

Lemma mapM_title_key (feeds : list feed) :
  forallb (fun f => is_str (f_title f)) feeds = true ->
  mapM title_key feeds = Ok (map (fun f => (sort_key f, f)) feeds).
Proof.
  induction feeds as [|f r IH]; cbn [forallb mapM map]; intros H.
  - reflexivity.
  - apply andb_true_iff in H. destruct H as [Hf Hr].
    rewrite (IH Hr). unfold title_key, sort_key.
    destruct (f_title f); try discriminate. rewrite lower_small. reflexivity.
Qed.

Lemma Sorted_map_snd (l : list (string * feed)) :
  Forall (fun p => fst p = sort_key (snd p)) l ->
  Sorted (fun a b => String.leb (fst a) (fst b) = true) l ->
  Sorted (fun f g => String.leb (sort_key f) (sort_key g) = true) (map snd l).
Proof.
  intros Hf Hs. induction Hs as [|a l Hs IH Hhd]; cbn [map].
  - constructor.
  - inversion Hf as [|? ? Ha Hl]; subst. constructor; [apply IH; exact Hl|].
    destruct Hhd as [|b l Hab]; cbn [map]; constructor.
    inversion Hl as [|? ? Hb _]; subst. rewrite <- Ha, <- Hb. exact Hab.
Qed.

Section Listings.

Variable rt : Runtime.
Variable cfg : Config.


(** X25. When every title is a string, [list_feeds] lists all the
    feeds of the answer in ascending order of their titles in lower case,
    under the line that gives their number.  Lower case is taken character
    by character, for the letters A to Z and the capitals of Latin-1 (a
    [string] holds code points below 256), and the titles are compared code
    point by code point. *)
Theorem list_feeds_sorts_by_lower_title
  (w : world) (tok : string) (res : value) (subs : list value)
  (feeds : list feed) :
  login_gives cfg w tok ->
  answered w (subscription_request cfg (entered cfg tok)) res ->
  py_get res "subscriptions" (VList []) = Ok (VList subs) ->
  mapM parse_feed subs = Ok feeds ->
  feeds <> [] ->
  forallb (fun f => is_str (f_title f)) feeds = true ->
  exists sorted,
    Permutation feeds sorted
    /\ Sorted (fun f g => String.leb (sort_key f) (sort_key g) = true) sorted
    /\ fst (list_feeds rt cfg w)
       = match format_feed_list rt sorted with
         | Ok listing =>
           Ok ("Found " ++ z2s (Z.of_nat (List.length feeds)) ++ " feeds:"
               ++ newline ++ newline ++ listing)
         | Raise e => Ok ("Error listing feeds: " ++ str_exn rt e)
         end.
Proof.
  intros Hl Ha Hg Hp Hne Ht.
  set (le := fun a b : string * feed => String.leb (fst a) (fst b)).
  set (keyed := map (fun f => (sort_key f, f)) feeds).
  exists (map snd (sort_by le keyed)).
  assert (Hperm : Permutation keyed (sort_by le keyed)) by apply sort_by_perm.
  repeat apply conj.
  - replace feeds with (map snd keyed) at 1.
    + apply Permutation_map. exact Hperm.
    + unfold keyed. rewrite map_map. cbn [snd]. apply map_id.
  - apply Sorted_map_snd.
    + apply (Permutation_Forall Hperm). unfold keyed.
      apply Forall_forall. intros p Hin. apply in_map_iff in Hin.
      destruct Hin as [f [<- _]]. reflexivity.
    + apply sort_by_sorted. intros a b. apply String.leb_total.
  - unfold list_feeds, list_feeds_body.
    rewrite (tool_after_login _ _ _ _ w tok Hl).
    unfold bindM at 1. unfold get_subscription_list, bindM at 1, now.
    change (cache (entered cfg tok)) with (@nil (string * (value * Z))).
    cbn [cache_lookup]. unfold bindM at 1.
    unfold subscription_request in Ha.
    rewrite (_request_answered _ _ _ _ _ _ w _ Ha).
    unfold bindM at 1. unfold lift at 1. rewrite Hg.
    unfold ret at 1. cbn [fst]. unfold bindM at 1. unfold lift at 1.
    cbn [py_iter]. unfold bindM at 1. unfold lift at 1. rewrite Hp.
    subst le keyed.
    destruct feeds as [|f r]; [congruence|].
    unfold bindM at 1. unfold lift at 1.
    rewrite (mapM_title_key (f :: r) Ht).
    unfold bindM, lift, ret. cbv beta iota.
    destruct (format_feed_list rt _); reflexivity.
Qed.

End Listings.

(** ** The requests of the listings *)

Section Caps.

Variable rt : Runtime.
Variable cfg : Config.

Lemma with_client_entered_world {A} (body : InoreaderClient -> M A)
  (w : world) (tok : string) :
  login_gives cfg w tok ->
  snd (with_client cfg body w)
  = released (snd (body (entered cfg tok) (logged_in cfg w))).
Proof.
  intros H. unfold with_client. rewrite (aenter_ok cfg w tok H).
  fold (logged_in cfg w).
  destruct (body (entered cfg tok) (logged_in cfg w)) as [r w2]. reflexivity.
Qed.

Lemma _request_world (self : InoreaderClient) (method endpoint : string)
  (params data : option (list (string * value))) (w : world) :
  snd (_request cfg self method endpoint params data w)
  = logged (api_request cfg self method endpoint params data) w.
Proof.
  unfold _request, bindM, send.
  destruct (server w _ _) as [r|e]; [|reflexivity].
  destruct (negb (status r =? 200)%Z); reflexivity.
Qed.

(** [days_to_timestamp] reads the clock and leaves the world as it
    is. *)
Lemma days_to_timestamp_world (days : Z) (w : world) :
  exists r, days_to_timestamp rt days w = (r, w).
Proof.
  unfold days_to_timestamp, bindM, now, lift, raise.
  destruct (fromtimestamp_wall rt "now" (VInt (clock w)) (clock w));
    [|eexists; reflexivity].
  destruct (999999999 <? Z.abs days)%Z; [eexists; reflexivity|].
  destruct (_ || _); eexists; reflexivity.
Qed.

Lemma get_stream_contents_sends (self : InoreaderClient)
  (stream_id : option string) (count : Z) (exclude_read : bool)
  (newer_than : option Z) (w : world) :
  exists rq,
    snd (get_stream_contents cfg self stream_id count exclude_read
                             newer_than w) = logged rq w
    /\ capped cfg count rq
    /\ param "xt" rq = (if exclude_read then Some (VStr read_tag) else None)
    /\ param "ot" rq = match newer_than with
                       | Some t => if (t =? 0)%Z then None else Some (VInt t)
                       | None => None
                       end.
Proof.
  unfold get_stream_contents, newer_than_param.
  eexists. split.
  - rewrite bindM_snd_quiet by (intros x w'; destruct (is_str x); reflexivity).
    apply _request_world.
  - split; [|split].
    + eexists. eexists. split; [reflexivity|]. split; [reflexivity|]. lia.
    + destruct exclude_read; destruct newer_than as [t|];
        try destruct (t =? 0)%Z; reflexivity.
    + destruct exclude_read; destruct newer_than as [t|];
        try destruct (t =? 0)%Z; reflexivity.
Qed.

Lemma search_sends (self : InoreaderClient) (query : string) (count : Z)
  (newer_than : option Z) (w : world) :
  exists rq,
    snd (search cfg self query count newer_than w) = logged rq w
    /\ capped cfg count rq
    /\ param "q" rq = Some (VStr query)
    /\ param "xt" rq = None.
Proof.
  unfold search, newer_than_param.
  eexists. split.
  - rewrite bindM_snd_quiet by (intros x w'; destruct (is_str x); reflexivity).
    apply _request_world.
  - split; [|split].
    + eexists. eexists. split; [reflexivity|]. split; [reflexivity|]. lia.
    + reflexivity.
    + destruct newer_than as [t|]; try destruct (t =? 0)%Z; reflexivity.
Qed.

(** X24. After the login [list_articles] and [search_articles] send at
    most one request; it asks for no more than [limit] and no more than
    [MAX_ARTICLES_PER_REQUEST] articles.  [list_articles] excludes read
    articles exactly when [unread_only] is set and sends no [ot] when [days]
    is 0; [search_articles] sends the query and never excludes read
    articles. *)
Theorem listings_cap_the_limit
  (limit days : Z) (feed_id : option string) (unread_only : bool)
  (query : string) (search_limit : Z) (search_days : option Z)
  (w : world) (tok : string) :
  login_gives cfg w tok ->
  (exists new,
     sent (snd (list_articles rt cfg limit days feed_id unread_only w))
     = app (sent w) (auth_request (new_client cfg) :: new)
     /\ List.length new <= 1
     /\ Forall (fun rq =>
                  capped cfg limit rq
                  /\ param "xt" rq = (if unread_only then Some (VStr read_tag)
                                      else None)
                  /\ (days = 0%Z -> param "ot" rq = None)) new)
  /\ (exists new,
        sent (snd (search_articles rt cfg query search_limit search_days w))
        = app (sent w) (auth_request (new_client cfg) :: new)
        /\ List.length new <= 1
        /\ Forall (fun rq =>
                     capped cfg search_limit rq
                     /\ param "q" rq = Some (VStr query)
                     /\ param "xt" rq = None) new).
Proof.
  intros Hl. split.
  - unfold list_articles. rewrite try_except_world.
    unfold list_articles_body.
    rewrite (with_client_entered_world _ w tok Hl).
    unfold bindM at 1.
    assert (Hd : exists r,
               (if (days =? 0)%Z then ret None
                else bindM (days_to_timestamp rt days)
                           (fun t => ret (Some t))) (logged_in cfg w)
               = (r, logged_in cfg w)
               /\ (days = 0%Z -> r = Ok None)).
    { destruct (Z.eqb_spec days 0) as [E|E].
      - eexists. split; [reflexivity | auto].
      - unfold bindM.
        destruct (days_to_timestamp_world days (logged_in cfg w)) as [r ->].
        destruct r; unfold ret; eexists;
          (split; [reflexivity | intros; congruence]). }
    destruct Hd as [r [Hd H0]]. rewrite Hd.
    destruct r as [nt|e].
    + destruct (get_stream_contents_sends (entered cfg tok) feed_id limit
                  unread_only nt (logged_in cfg w)) as [rq [Hw [Hc [Hx Ho]]]].
      exists [rq].
      rewrite bindM_snd_quiet by quiet. rewrite Hw.
      cbn [released logged logged_in opened sent].
      split; [rewrite <- app_assoc; reflexivity|].
      split; [cbn; lia|].
      constructor; [|constructor].
      split; [exact Hc|]. split; [exact Hx|].
      intros E. specialize (H0 E). inversion H0; subst nt. exact Ho.
    + exists []. cbn [snd released logged logged_in opened sent].
      split; [reflexivity|]. split; [cbn; lia | constructor].
  - unfold search_articles. rewrite try_except_world.
    unfold search_articles_body.
    rewrite (with_client_entered_world _ w tok Hl).
    unfold bindM at 1.
    assert (Hd : exists r,
               (match days_given search_days with
                | Some d => bindM (days_to_timestamp rt d)
                                  (fun t => ret (Some t))
                | None => ret None
                end) (logged_in cfg w)
               = (r, logged_in cfg w)).
    { destruct (days_given search_days) as [d|].
      - unfold bindM.
        destruct (days_to_timestamp_world d (logged_in cfg w)) as [r ->].
        destruct r; unfold ret; eexists; reflexivity.
      - eexists. reflexivity. }
    destruct Hd as [r Hd]. rewrite Hd.
    destruct r as [nt|e].
    + destruct (search_sends (entered cfg tok) query search_limit nt
                  (logged_in cfg w)) as [rq [Hw [Hc [Hq Hx]]]].
      exists [rq].
      rewrite bindM_snd_quiet by quiet. rewrite Hw.
      cbn [released logged logged_in opened sent].
      split; [rewrite <- app_assoc; reflexivity|].
      split; [cbn; lia|].
      constructor; [|constructor]. auto.
    + exists []. cbn [snd released logged logged_in opened sent].
      split; [reflexivity|]. split; [cbn; lia | constructor].
Qed.

End Caps.

(** ** The names of the feeds *)

Lemma prefix_scheme_other (c : ascii) (s : string) :
  (c =? ":")%char = false -> prefix "://" (String c s) = false.
Proof.
  intros H. cbn [prefix].
  destruct (ascii_dec ":" c) as [<-|Hne]; [discriminate | reflexivity].
Qed.

Lemma split_aux_no_separator (sep cur s : string) :
  contains sep s = false -> split_aux sep 0 cur s = [cur ++ s].
Proof.
  revert cur; induction s as [|c s IH]; intros cur H.
  - simpl. rewrite append_empty. reflexivity.
  - rewrite contains_cons in H. apply orb_false_iff in H. destruct H as [Hp Hc].
    cbn [split_aux]. rewrite Hp, IH by assumption.
    rewrite append_assoc. reflexivity.
Qed.

Lemma split_aux_scheme (cur scheme rest : string) :
  no_colon scheme = true ->
  split_aux "://" 0 cur (scheme ++ "://" ++ rest)
  = (cur ++ scheme) :: split_aux "://" 0 "" rest.
Proof.
  revert cur; induction scheme as [|c s IH]; intros cur H.
  - change ("" ++ "://" ++ rest) with (String ":" (String "/" (String "/" rest))).
    cbn [split_aux].
    replace (prefix "://" (String ":" (String "/" (String "/" rest))))
      with true by (cbn; destruct rest; reflexivity).
    rewrite append_empty. reflexivity.
  - cbn [no_colon] in H. apply andb_true_iff in H. destruct H as [Hc Hs].
    apply negb_true_iff in Hc.
    cbn [append split_aux]. rewrite (prefix_scheme_other c _ Hc).
    rewrite IH by assumption. rewrite append_assoc. reflexivity.
Qed.

(** X20. For an id [feed/<scheme>://<rest>] in which [feed/] and [://]
    occur nowhere else, the name shown by [get_stats] is [<rest>]. *)
Theorem feed_name_of_feed_url (scheme rest : string) :
  no_colon scheme = true ->
  contains "://" rest = false ->
  contains "feed/" (scheme ++ "://" ++ rest) = false ->
  feed_name ("feed/" ++ scheme ++ "://" ++ rest) = rest.
Proof.
  intros Hs Hr Hf. rewrite (feed_name_prefix_only _ Hf).
  assert (Hc : contains "://" (scheme ++ "://" ++ rest) = true).
  { apply contains_spec. exists scheme, rest. reflexivity. }
  rewrite Hc. unfold split. rewrite split_aux_scheme by assumption.
  rewrite split_aux_no_separator by assumption. reflexivity.
Qed.

(** ** Instances *)

Lemma parse_article_accepts_model_items_witness :
  (exists a, parse_article utc_runtime (VDict read_item) = Ok a)
  /\ parse_article utc_runtime (VStr "item")
     = Raise (AttributeError (VStr "item") "get").
Proof.
  split.
  - apply (proj1 (parse_article_accepts_model_items utc_runtime)).
    reflexivity.
  - apply (proj2 (parse_article_accepts_model_items utc_runtime)).
    reflexivity.
Defined.

Lemma parse_article_defaults_witness :
  parse_article utc_runtime (VDict read_item) = Ok read_article
  /\ author read_article = VStr "Unknown"
  /\ published_date read_article = VNone
  /\ a_title read_article = VStr "Test Article".
Proof.
  destruct (parse_article_defaults utc_runtime read_item read_article eq_refl)
    as [_ [_ [Ha [Hp [_ [_ [_ [_ [_ [Ht _]]]]]]]]]].
  split; [reflexivity|]. split; [apply Ha; reflexivity|].
  split; [apply Hp; reflexivity | apply Ht; reflexivity].
Defined.

Lemma re_sub_tags_shrinks_witness : re_sub_tags "1 > 0" = "1 > 0".
Proof. apply (proj2 (re_sub_tags_shrinks "1 > 0")). reflexivity. Defined.

Lemma summary_is_bounded_witness :
  parse_article utc_runtime (VDict long_item) = Ok long_article
  /\ ((assoc "summary" long_item = None /\ summary long_article = VNone)
      \/ (exists sm content stored,
            assoc "summary" long_item = Some (VDict sm)
            /\ dict_get sm "content" (VStr "") = VStr content
            /\ summary long_article = VStr stored
            /\ String.length stored <= 503
            /\ String.length stored <= String.length content + 3)).
Proof.
  split; [vm_compute; reflexivity|].
  apply (summary_is_bounded utc_runtime). vm_compute. reflexivity.
Defined.

Lemma extract_item_ids_of_dicts_witness :
  extract_item_ids [VDict [("id", VStr "a")]; VDict [("title", VStr "t")];
                    VDict [("id", VStr "")]; VDict [("id", VStr "b")]]
  = Ok [VStr "a"; VStr "b"]
  /\ exists v, extract_item_ids [VDict [("id", VStr "a")]; VStr "b"]
               = Raise (AttributeError v "get").
Proof.
  split.
  - apply (proj1 (extract_item_ids_of_dicts
                    [VDict [("id", VStr "a")]; VDict [("title", VStr "t")];
                     VDict [("id", VStr "")]; VDict [("id", VStr "b")]])).
    reflexivity.
  - apply (proj2 (extract_item_ids_of_dicts
                    [VDict [("id", VStr "a")]; VStr "b"])).
    reflexivity.
Defined.

Lemma chunk_list_partitions_witness :
  exists chunks,
    chunk_list ["a"; "b"; "c"; "d"; "e"] 2 = Ok chunks
    /\ List.concat chunks = ["a"; "b"; "c"; "d"; "e"]
    /\ Forall (fun c => c <> [] /\ List.length c <= 2) chunks
    /\ map (@List.length string) chunks = [2; 2; 1].
Proof. apply (chunk_list_partitions ["a"; "b"; "c"; "d"; "e"] 2). lia. Defined.

Lemma chunk_list_edges_witness :
  chunk_list ["a"; "b"] (-1) = Ok []
  /\ chunk_list ["a"; "b"] 5 = Ok [["a"; "b"]].
Proof.
  split.
  - apply (proj1 (proj2 (chunk_list_edges ["a"; "b"]))). lia.
  - apply (proj2 (proj2 (chunk_list_edges ["a"; "b"]))).
    + discriminate.
    + simpl. lia.
Defined.

Lemma format_article_list_layout_witness :
  firstn 5 (skipn 5 (article_block utc_runtime 1 [test_article; read_article]))
  = ["2. " ++ glyph_read ++ " Test Article";
     "   Feed: Unknown feed";
     "   Date: None";
     "   Link: No URL available";
     ""].
Proof.
  apply (proj2 (proj2 (proj2 (format_article_list_layout
                                utc_runtime [test_article; read_article])))
           1 read_article).
  reflexivity.
Defined.

Lemma undated_item_is_listed_with_None_witness :
  nth 2 (article_lines utc_runtime 1 read_article) "" = "   Date: None"
  /\ nth 3 (article_lines utc_runtime 1 read_article) ""
     = "   Link: No URL available".
Proof.
  destruct (undated_item_is_listed_with_None utc_runtime read_item read_article
              1 eq_refl) as [H1 H2].
  split; [apply H1; reflexivity | apply H2; reflexivity].
Defined.

Lemma format_feed_list_needs_string_labels_witness :
  exists f v,
    In f [numbered_feed] /\ In v (f_categories f) /\ is_str v = false
    /\ TypeError "join" (VInt 7) = TypeError "join" v.
Proof.
  apply (proj2 (format_feed_list_needs_string_labels utc_runtime
                  [numbered_feed])).
  reflexivity.
Defined.

Lemma parse_feed_defaults_witness :
  exists f,
    parse_feed (VDict camel_case_subscription) = Ok f
    /\ firstItemMsec f = VInt 0
    /\ f_title f = VStr "Untitled".
Proof.
  destruct (parse_feed_defaults camel_case_subscription [] eq_refl eq_refl)
    as [f [Hp [_ [_ [Ht [_ [_ [Hf _]]]]]]]].
  exists f. split; [exact Hp|].
  split; [apply Hf; reflexivity | apply Ht; reflexivity].
Defined.

Lemma authenticate_leaves_a_token_witness :
  exists tok,
    auth_token (set_auth_token (new_client sample_config) (Some "G2UlCa"))
    = Some tok
    /\ tok <> "".
Proof.
  destruct (authenticate_leaves_a_token
              (new_client sample_config)
              (set_auth_token (new_client sample_config) (Some "G2UlCa"))
              (fresh_world (always login_ok)) eq_refl)
    as [r [tok [_ [_ [Ht [Hne _]]]]]].
  exists tok. split; assumption.
Defined.

Lemma authenticate_reads_first_auth_line_witness :
  _authenticate (new_client sample_config) (fresh_world (always two_tokens))
  = (Ok (set_auth_token (new_client sample_config) (Some "first")),
     logged (auth_request (new_client sample_config))
            (fresh_world (always two_tokens))).
Proof.
  apply (authenticate_reads_first_auth_line
           (new_client sample_config) (fresh_world (always two_tokens))
           two_tokens ["SID=null"] ["Auth=second"] "first");
    reflexivity.
Defined.

(** The sample login is accepted and gives the token [G2UlCa]. *)
Lemma login_gives_sample (r : response) :
  login_gives sample_config (fresh_world (after_login r)) "G2UlCa".
Proof. exists login_ok. repeat split. discriminate. Defined.

Lemma login_gives_sample_always :
  login_gives sample_config (fresh_world (always login_ok)) "G2UlCa".
Proof. exists login_ok. repeat split. discriminate. Defined.

Lemma subscription_list_is_cached_witness :
  exists self',
    get_subscription_list sample_config (entered sample_config "G2UlCa")
      (fresh_world (always (decoded (VDict []))))
    = (Ok (VList [], self'),
       logged (subscription_request sample_config
                 (entered sample_config "G2UlCa"))
              (fresh_world (always (decoded (VDict [])))))
    /\ get_subscription_list sample_config self'
         (fresh_world (always (decoded (VDict []))))
       = (Ok (VList [], self'), fresh_world (always (decoded (VDict [])))).
Proof.
  destruct (subscription_list_is_cached sample_config
              (entered sample_config "G2UlCa")
              (fresh_world (always (decoded (VDict []))))
              (decoded (VDict [])) (VDict []) (VList [])
              eq_refl eq_refl eq_refl eq_refl eq_refl)
    as [self' [H1 [_ [_ [H2 _]]]]].
  exists self'. split; [exact H1|]. apply H2. simpl. lia.
Defined.

Lemma tools_open_one_session_and_send_little_witness :
  tool_run sample_config 1 (mark_as_read utc_runtime sample_config ["a"]).
Proof.
  apply (proj1 (proj2 (proj2 (proj2 (proj2 (proj2
           (tools_open_one_session_and_send_little
              utc_runtime sample_config 20 7 None true "q" 50 None "id"
              ["a"]))))))).
  discriminate.
Defined.

Lemma list_feeds_always_asks_witness :
  sent (snd (list_feeds utc_runtime sample_config
               (fresh_world (always login_ok))))
  = [auth_request (new_client sample_config);
     subscription_request sample_config (entered sample_config "G2UlCa")].
Proof.
  apply (proj1 (list_feeds_always_asks utc_runtime sample_config
                  (fresh_world (always login_ok)) "G2UlCa"
                  login_gives_sample_always)).
Defined.



(** The ranking of the sample: the larger count first, the two feeds of
    count 2 in the order of the answer. *)
Example get_stats_ranks_ties_in_order :
  fst (get_stats utc_runtime sample_config
         (fresh_world (after_login (decoded (counts_answer tied_counts)))))
  = Ok ("**Inoreader Statistics:**" ++ newline ++ newline
        ++ "Total unread articles: 13" ++ newline ++ newline
        ++ "Top feeds with unread articles:" ++ newline
        ++ "- b.example/rss: 9 unread" ++ newline
        ++ "- a.example/rss: 2 unread" ++ newline
        ++ "- c.example/rss: 2 unread" ++ newline).
Proof. vm_compute. reflexivity. Qed.

Lemma feed_name_of_feed_url_witness :
  feed_name "feed/https://example.com/rss" = "example.com/rss".
Proof.
  apply (feed_name_of_feed_url "https" "example.com/rss"); reflexivity.
Defined.

Lemma get_content_reports_missing_article_witness :
  fst (get_content utc_runtime sample_config "item-9"
         (fresh_world (after_login (decoded (VDict [])))))
  = Ok "Article with ID item-9 not found.".
Proof.
  apply (get_content_reports_missing_article utc_runtime sample_config
           "item-9" (fresh_world (after_login (decoded (VDict []))))
           "G2UlCa" (VDict []) (VList [])).
  - apply login_gives_sample.
  - exists (decoded (VDict [])). repeat split.
  - reflexivity.
  - reflexivity.
Defined.

Lemma get_content_shows_content_first_witness :
  fst (get_content utc_runtime sample_config "item-1"
         (fresh_world (after_login
            (decoded (VDict [("items", VList [VDict silent_item])])))))
  = Ok (article_header utc_runtime silent_article).
Proof.
  assert (Hlogin : login_gives sample_config
            (fresh_world (after_login
               (decoded (VDict [("items", VList [VDict silent_item])]))))
            "G2UlCa").
  { apply login_gives_sample. }
  assert (Hans : answered
            (fresh_world (after_login
               (decoded (VDict [("items", VList [VDict silent_item])]))))
            (item_request sample_config (entered sample_config "G2UlCa")
                          "item-1")
            (VDict [("items", VList [VDict silent_item])])).
  { exists (decoded (VDict [("items", VList [VDict silent_item])])).
    repeat split. }
  apply (proj1 (get_content_shows_content_first utc_runtime sample_config
                  "item-1" _ "G2UlCa" _ silent_item [] silent_article
                  Hlogin Hans eq_refl eq_refl)
           (VDict [("content", VStr "")]) (VStr ""));
    reflexivity.
Defined.

Lemma text_answers_are_reported_as_errors_witness :
  fst (list_feeds utc_runtime sample_config
         (fresh_world (after_login (text_response 200 "Please wait"))))
  = Ok "Error listing feeds: object has no attribute 'get'".
Proof.
  apply (proj1 (text_answers_are_reported_as_errors utc_runtime sample_config
                  "item-1"
                  (fresh_world (after_login (text_response 200 "Please wait")))
                  "G2UlCa" "Please wait"
                  (login_gives_sample _))).
  exists (text_response 200 "Please wait"). repeat split.
Defined.

Lemma listings_cap_the_limit_witness :
  exists new,
    sent (snd (list_articles utc_runtime sample_config 500 0 None true
                 (fresh_world (after_login (text_response 200 "")))))
    = app [] (auth_request (new_client sample_config) :: new)
    /\ List.length new <= 1
    /\ Forall (fun rq =>
                 capped sample_config 500 rq
                 /\ param "xt" rq = Some (VStr read_tag)
                 /\ (0%Z = 0%Z -> param "ot" rq = None)) new.
Proof.
  apply (proj1 (listings_cap_the_limit utc_runtime sample_config
                  500 0 None true "q" 50 None
                  (fresh_world (after_login (text_response 200 "")))
                  "G2UlCa" (login_gives_sample _))).
Defined.

Lemma list_feeds_sorts_by_lower_title_witness :
  exists sorted,
    Permutation [oel_feed; apple_feed] sorted
    /\ Sorted (fun f g => String.leb (sort_key f) (sort_key g) = true) sorted
    /\ fst (list_feeds utc_runtime sample_config
              (fresh_world (after_login
                 (decoded (VDict [("subscriptions",
                                   VList [oel_sub; apple_sub])])))))
       = match format_feed_list utc_runtime sorted with
         | Ok listing =>
           Ok ("Found 2 feeds:" ++ newline ++ newline ++ listing)
         | Raise e => Ok ("Error listing feeds: " ++ str_exn utc_runtime e)
         end.
Proof.
  apply (list_feeds_sorts_by_lower_title utc_runtime sample_config
           (fresh_world (after_login
              (decoded (VDict [("subscriptions",
                                VList [oel_sub; apple_sub])]))))
           "G2UlCa"
           (VDict [("subscriptions", VList [oel_sub; apple_sub])])
           [oel_sub; apple_sub] [oel_feed; apple_feed]).
  - apply login_gives_sample.
  - exists (decoded (VDict [("subscriptions", VList [oel_sub; apple_sub])])).
    repeat split.
  - reflexivity.
  - reflexivity.
  - discriminate.
  - reflexivity.
Defined.

(** ** The edges of the calendar and of the lower case *)

(** [fromtimestamp] refuses an instant of the first day of the year 1,
    because the instant one day earlier, which it looks at as well, lies in
    the year 0; it takes the next day and the last second of the year 9999.
    Beyond the years 1..9999 it raises [ValueError], where [localtime] cannot
    hold the year [OSError], and beyond [time_t] [OverflowError]. *)
Example fromtimestamp_edges :
  parse_article utc_runtime (VDict [("published", VInt (-62135596800))])
  = Raise (ValueError "fromtimestamp" (VInt (-62135596800)))
  /\ fromtimestamp_isoformat utc_runtime (VInt (-62135510401))
     = Raise (ValueError "fromtimestamp" (VInt (-62135510401)))
  /\ fromtimestamp_isoformat utc_runtime (VInt (-62135510400))
     = Ok "0001-01-02T00:00:00"
  /\ fromtimestamp_isoformat utc_runtime (VInt 253402300799)
     = Ok "9999-12-31T23:59:59"
  /\ fromtimestamp_isoformat utc_runtime (VInt 253402300800)
     = Raise (ValueError "fromtimestamp" (VInt 253402300800))
  /\ fromtimestamp_isoformat utc_runtime (VInt 67768036191676799)
     = Raise (ValueError "fromtimestamp" (VInt 67768036191676799))
  /\ fromtimestamp_isoformat utc_runtime (VInt 67768036191676800)
     = Raise (OSError "fromtimestamp" (VInt 67768036191676800))
  /\ fromtimestamp_isoformat utc_runtime (VInt 9223372036854775808)
     = Raise (OverflowError "fromtimestamp" (VInt 9223372036854775808)).
Proof. repeat apply conj; vm_compute; reflexivity. Qed.

(** [days_to_timestamp] goes back whole days on the wall clock: within
    one offset that is [days * 86400] seconds; across a change of the offset
    the instant differs by the change; a date on the first day of the year 1
    raises [ValueError], and one before it [OverflowError]. *)
Example days_to_timestamp_edges :
  fst (days_to_timestamp utc_runtime 7 (fresh_world (always login_ok)))
  = Ok 1699395200%Z
  /\ fst (days_to_timestamp winter_runtime 7 (fresh_world (always login_ok)))
     = Ok 1699391600%Z
  /\ fst (days_to_timestamp utc_runtime 738836 (fresh_world (always login_ok)))
     = Ok (-62135430400)%Z
  /\ fst (days_to_timestamp utc_runtime 738837 (fresh_world (always login_ok)))
     = Raise (ValueError "timestamp" (VInt 738837))
  /\ fst (days_to_timestamp utc_runtime 738838 (fresh_world (always login_ok)))
     = Raise (OverflowError "datetime" (VInt 738838))
  /\ fst (days_to_timestamp utc_runtime 1000000000
            (fresh_world (always login_ok)))
     = Raise (OverflowError "timedelta" (VInt 1000000000)).
Proof. repeat apply conj; vm_compute; reflexivity. Qed.

(** [lower] on the capitals of Latin-1: U+00D6 becomes U+00F6, the
    multiplication sign U+00D7 and the sharp s U+00DF stay. *)
Example lower_latin_1 :
  lower (String "214" (String "215" (String "223" "LA")))
  = String "246" (String "215" (String "223" "la")).
Proof. reflexivity. Qed.
